(** * The trading pipeline of the portfolio repository, embedded in Rocq

    Sources (under [src/projetos/]):
    - [trading-bot/app/signals/signal_engine.py]   -> [Module SignalEngine]
    - [trading-bot/app/risk/risk_manager.py]       -> [Module RiskManager]
    - [trading-bot/app/analysis/order_flow.py]     -> [Module OrderFlow]
    - [trading bot/app/portfolio/manager.py]       -> [Module Portfolio]
    - [trading-bot/app/exchange/binance_client.py] -> [Module Binance]
    - [trading bot/app/execution/trade_engine.py]  -> [Module TradeEngine]

    Number model.  Python [float] values and [decimal.Decimal] values are
    embedded as exact rationals [Q]: every arithmetic operation is the exact
    one, comparisons are the exact ones, and the truth value of a number is
    "different from zero".  Rounding of binary64 arithmetic, infinities and
    NaN are outside this model.  Python [int] values are embedded as [Z],
    [str] as [string], [dict] as stdpp's [gmap], [None]-able values as
    [option]. *)

From Stdlib Require Import Ascii QArith Qround Qabs Qminmax Lqa.
From stdpp Require Import base option list strings gmap.

(** ** Python primitives used by the sources *)

Module Py.

(** [x < y] on floats. *)
Definition ltb (x y : Q) : bool :=
  match (x ?= y)%Q with Lt => true | _ => false end.

(** [x <= y] on floats. *)
Definition leb (x y : Q) : bool := Qle_bool x y.

(** [x == y] on floats. *)
Definition eqb (x y : Q) : bool := Qeq_bool x y.

(** [bool(x)] for a number: true exactly when [x] is not zero. *)
Definition truthy (x : Q) : bool := negb (Qeq_bool x 0).

(** The builtin [max(a, b)]: the first argument is kept unless the second
    one is strictly greater. *)
Definition max (a b : Q) : Q := if ltb a b then b else a.

(** The builtin [min(a, b)]: the first argument is kept unless the second
    one is strictly smaller. *)
Definition min (a b : Q) : Q := if ltb b a then b else a.

(** [str.upper()] on ASCII letters; other characters are kept. *)
Definition upper_ascii (c : ascii) : ascii :=
  let n := nat_of_ascii c in
  if ((97 <=? n) && (n <=? 122))%nat then ascii_of_nat (n - 32) else c.

Fixpoint upper (s : string) : string :=
  match s with
  | EmptyString => EmptyString
  | String c s' => String (upper_ascii c) (upper s')
  end.

(** [bool(s)] for a string: true exactly when [s] is not empty. *)
Definition nonempty (s : string) : bool :=
  match s with EmptyString => false | _ => true end.

(** [sum(q for ... )]: starts from 0 and adds from left to right. *)
Definition sum (l : list Q) : Q := fold_left Qplus l 0%Q.

End Py.

(** ** Snapshots consumed by the signal engine and the risk manager *)

(** [TechnicalSnapshot] of [strategies/technicals.py]. *)
Record TechnicalSnapshot := {
  trend_score : Q;
  momentum_score : Q;
  structure_bias : Q;
  signal : string
}.

(** [OrderFlowSnapshot] of [analysis/order_flow.py]. *)
Record OrderFlowSnapshot := {
  buy_volume : Q;
  sell_volume : Q;
  delta : Q;
  imbalance : Q;
  liquidation_pressure : Q
}.

(** [VolatilitySnapshot] of [analysis/volatility.py]. *)
Record VolatilitySnapshot := {
  atr : Q;
  atr_pct : Q;
  realized_vol : Q;
  structure_break : bool;
  volatility_regime : string
}.

(** ** signals/signal_engine.py *)

Module SignalEngine.

Record SignalDecision := {
  symbol : string;
  direction : string;
  confidence : Q;
  reasons : list string
}.

(** The engine holds the weight dictionary; a missing key falls back to
    the default given at the [.get] call. *)
Definition weights := gmap string Q.

Definition trend_weight (w : weights) : Q :=
  default 0.4%Q (w !! "trend_score_weight"%string).
Definition momentum_weight (w : weights) : Q :=
  default 0.25%Q (w !! "momentum_score_weight"%string).
Definition of_weight (w : weights) : Q :=
  default 0.2%Q (w !! "orderflow_score_weight"%string).
Definition liq_weight (w : weights) : Q :=
  default 0.15%Q (w !! "liquidity_score_weight"%string).

(** Lines 36-44: the four components and their sum; the structure-break
    bonus is added into [liquidation_component] before the sum. *)
Definition liquidation_component (w : weights) (order_flow : OrderFlowSnapshot)
    (volatility : VolatilitySnapshot) : Q :=
  ((- liquidation_pressure order_flow) * (liq_weight w / 2)
   + (if structure_break volatility then 0.5 else 0.0))%Q.

Definition composite (w : weights) (technical : TechnicalSnapshot)
    (order_flow : OrderFlowSnapshot) (volatility : VolatilitySnapshot) : Q :=
  (trend_score technical * trend_weight w
   + momentum_score technical * momentum_weight w
   + imbalance order_flow * of_weight w
   + liquidation_component w order_flow volatility)%Q.

(** Lines 41-61: the rationale strings, in the order they are appended. *)
Definition build_reasons (technical : TechnicalSnapshot)
    (order_flow : OrderFlowSnapshot) (volatility : VolatilitySnapshot) : list string :=
  (if structure_break volatility then ["Structure break detectada"%string] else [])
  ++ [if String.eqb (signal technical) "long" then "Momentum e tendência favorecem compra"%string
      else if String.eqb (signal technical) "short" then "Momentum e tendência favorecem venda"%string
      else "Sinal técnico neutro"%string]
  ++ [if Py.ltb 0.15 (imbalance order_flow) then "Fluxo comprador agressivo"%string
      else if Py.ltb (imbalance order_flow) (-0.15) then "Fluxo vendedor agressivo"%string
      else "Order flow neutro"%string]
  ++ (if Py.ltb 3 (Qabs (atr_pct volatility)) then ["Alta volatilidade relativa"%string] else []).

(** Lines 63-67. *)
Definition direction_of (c : Q) : string :=
  if Py.ltb 0.25 c then "long"
  else if Py.ltb c (-0.25) then "short"
  else "flat".

(** Line 69. *)
Definition confidence_of (c : Q) : Q := Py.min 1.0 (Py.max 0.0 (Qabs c)).

Definition evaluate (w : weights) (sym : string) (technical : TechnicalSnapshot)
    (order_flow : OrderFlowSnapshot) (volatility : VolatilitySnapshot) : SignalDecision :=
  let c := composite w technical order_flow volatility in
  {| symbol := sym;
     direction := direction_of c;
     confidence := confidence_of c;
     reasons := build_reasons technical order_flow volatility |}.


End SignalEngine.

(** ** risk/risk_manager.py *)

Module RiskManager.

(** A value of the [config] dictionary.  It is built in [main.py] from the
    [RiskManagement] settings, whose fields are numbers and one boolean
    ([trailing_stop]). *)
Inductive value :=
| VNum (q : Q)
| VBool (b : bool).

(** A value used in arithmetic or in a comparison ([True] is 1). *)
Definition num (v : value) : Q :=
  match v with
  | VNum q => q
  | VBool b => if b then 1%Q else 0%Q
  end.

(** [bool(v)]. *)
Definition truth (v : value) : bool :=
  match v with
  | VNum q => Py.truthy q
  | VBool b => b
  end.

Record PositionSizing := {
  quantity : Q;
  leverage : Z;
  notional : Q;
  cost : Q;
  stop_loss : Q;
  take_profit : Q;
  trailing_active : bool
}.

Record t := {
  _balance : Q;
  _leverage : Z;
  _risk_perc : Q;
  _config : gmap string value;
  _fixed_cost : Q
}.

(** [RiskManager.__init__]: a risk percentage above 1 is read as a
    percentage and divided by 100; a negative fixed cost becomes 0. *)
Definition init (quote_balance : Q) (lev : Z) (risk_perc : Q)
    (config : gmap string value) (fixed_cost : Q) : t :=
  {| _balance := quote_balance;
     _leverage := lev;
     _risk_perc := if Py.ltb 1 risk_perc then (risk_perc / 100)%Q else risk_perc;
     _config := config;
     _fixed_cost := Py.max fixed_cost 0.0 |}.

Definition _position_risk (rm : t) : Q := (_balance rm * _risk_perc rm)%Q.

Definition _empty_sizing (rm : t) : PositionSizing :=
  {| quantity := 0.0;
     leverage := _leverage rm;
     notional := 0.0;
     cost := 0.0;
     stop_loss := 0.0;
     take_profit := 0.0;
     trailing_active := false |}.

Definition atr_multiplier_sl (rm : t) : Q :=
  num (default (VNum 2.5) (_config rm !! "atr_multiplier_sl"%string)).
Definition atr_multiplier_tp (rm : t) : Q :=
  num (default (VNum 4.0) (_config rm !! "atr_multiplier_tp"%string)).
Definition trailing (rm : t) : value :=
  default (VBool true) (_config rm !! "trailing_stop"%string).
Definition trailing_mult (rm : t) : Q :=
  num (default (VNum 1.5) (_config rm !! "trailing_atr_multiplier"%string)).

(** Lines 73-81: quantity, notional and cost before clamping, either from
    the fixed cost or from the risked amount. *)
Definition raw_sizing (rm : t) (price stop_distance : Q) : Q * Q * Q :=
  let lev := inject_Z (_leverage rm) in
  if Py.ltb 0 (_fixed_cost rm) then
    let cost := _fixed_cost rm in
    let notional := (cost * lev)%Q in
    let quantity := if Py.truthy price then (notional / price)%Q else 0.0%Q in
    (quantity, notional, cost)
  else
    let risk_amount := _position_risk rm in
    let quantity := ((risk_amount * lev) / stop_distance)%Q in
    let notional := (quantity * price)%Q in
    let cost := if (_leverage rm =? 0)%Z then 0.0%Q else (notional / lev)%Q in
    (quantity, notional, cost).

Definition size_position (rm : t) (price : Q) (volatility : VolatilitySnapshot)
    (direction : string) : PositionSizing :=
  if negb (String.eqb direction "long" || String.eqb direction "short") then
    _empty_sizing rm
  else if Py.leb price 0 then
    _empty_sizing rm
  else
    let stop_distance := (atr volatility * atr_multiplier_sl rm)%Q in
    if Py.leb stop_distance 0 then
      _empty_sizing rm
    else
      let '(quantity0, notional0, cost0) := raw_sizing rm price stop_distance in
      let quantity1 := Py.max quantity0 0.0 in
      let notional1 := Py.max notional0 0.0 in
      let cost1 := Py.max cost0 0.0 in
      if Py.eqb quantity1 0.0 || Py.eqb notional1 0.0 then
        _empty_sizing rm
      else
        let '(sl, tp) :=
          if String.eqb direction "long" then
            ((price - stop_distance)%Q, (price + atr volatility * atr_multiplier_tp rm)%Q)
          else
            ((price + stop_distance)%Q, (price - atr volatility * atr_multiplier_tp rm)%Q) in
        {| quantity := quantity1;
           leverage := _leverage rm;
           notional := notional1;
           cost := cost1;
           stop_loss := sl;
           take_profit := tp;
           trailing_active := truth (trailing rm) && Py.ltb 0 (trailing_mult rm) |}.

End RiskManager.

(** ** analysis/order_flow.py *)

Module OrderFlow.

(** [collections.deque(maxlen=n).append(x)]: the new entry goes to the
    right end and, when the capacity is exceeded, entries are dropped from
    the left end. *)
Definition deque_append {A : Type} (maxlen : nat) (d : list A) (x : A) : list A :=
  let d' := d ++ [x] in drop (length d' - maxlen) d'.

(** The analyzer: the capacity given to [__init__] and the two windows.
    A trade is (price, quantity, is_buy_aggressor); a liquidation is
    (quantity, is_long_liq). *)
Record t := {
  maxlen : nat;
  _trades : list (Q * Q * bool);
  _liquidations : list (Q * bool)
}.

Definition init (n : nat) : t :=
  {| maxlen := n; _trades := []; _liquidations := [] |}.

Definition trade_volume (side : bool) (trades : list (Q * Q * bool)) : Q :=
  Py.sum (map (fun t => snd (fst t)) (List.filter (fun t => Bool.eqb (snd t) side) trades)).

Definition liquidation_volume (side : bool) (liqs : list (Q * bool)) : Q :=
  Py.sum (map fst (List.filter (fun l => Bool.eqb (snd l) side) liqs)).

Definition snapshot (a : t) : OrderFlowSnapshot :=
  let buy := trade_volume true (_trades a) in
  let sell := trade_volume false (_trades a) in
  let dlt := (buy - sell)%Q in
  let total := (buy + sell)%Q in
  let imb := if Py.truthy total then (dlt / total)%Q else 0.0%Q in
  let long_liq := liquidation_volume true (_liquidations a) in
  let short_liq := liquidation_volume false (_liquidations a) in
  let liquidation_total := (long_liq + short_liq)%Q in
  let pressure :=
    if Py.truthy liquidation_total then ((short_liq - long_liq) / liquidation_total)%Q
    else 0.0%Q in
  {| buy_volume := buy;
     sell_volume := sell;
     delta := dlt;
     imbalance := imb;
     liquidation_pressure := pressure |}.

Definition update_from_trade (a : t) (price quantity : Q) (is_buyer_maker : bool)
    : t * OrderFlowSnapshot :=
  let is_buy_aggressor := negb is_buyer_maker in
  let a' := {| maxlen := maxlen a;
               _trades := deque_append (maxlen a) (_trades a) (price, quantity, is_buy_aggressor);
               _liquidations := _liquidations a |} in
  (a', snapshot a').

Definition update_from_liquidation (a : t) (quantity : Q) (side : string)
    : t * OrderFlowSnapshot :=
  let is_long_liq := String.eqb (Py.upper side) "BUY" in
  let a' := {| maxlen := maxlen a;
               _trades := _trades a;
               _liquidations := deque_append (maxlen a) (_liquidations a) (quantity, is_long_liq) |} in
  (a', snapshot a').

(** A call made on the analyzer, and a sequence of calls applied in
    order from a fresh analyzer. *)
Inductive update :=
| Trade (price quantity : Q) (is_buyer_maker : bool)
| Liquidation (quantity : Q) (side : string).

Definition apply_update (a : t) (u : update) : t :=
  match u with
  | Trade p q m => fst (update_from_trade a p q m)
  | Liquidation q s => fst (update_from_liquidation a q s)
  end.

Definition run (n : nat) (us : list update) : t := fold_left apply_update us (init n).

Definition update_quantity (u : update) : Q :=
  match u with
  | Trade _ q _ => q
  | Liquidation q _ => q
  end.

(** Both windows hold only non-negative quantities. *)
Definition nonneg_windows (a : t) : Prop :=
  Forall (fun t => 0 <= snd (fst t))%Q (_trades a)
  /\ Forall (fun l => 0 <= fst l)%Q (_liquidations a).

End OrderFlow.

(** ** portfolio/manager.py *)

Module Portfolio.

Record Position := {
  symbol : string;
  direction : string;
  entry_price : Q;
  quantity : Q;
  stop_loss : Q;
  take_profit : Q;
  trailing_active : bool;
  notional : Q;
  cost : Q
}.

(** [PortfolioManager]: the dictionary of [PortfolioState] and the limit. *)
Record t := {
  positions : gmap string Position;
  _max_positions : Z
}.

Definition init (max_positions : Z) : t :=
  {| positions := ∅; _max_positions := max_positions |}.

Definition can_open (pm : t) (sym : string) : bool :=
  match positions pm !! sym with
  | Some _ => false
  | None => (Z.of_nat (size (positions pm)) <? _max_positions pm)%Z
  end.

Definition add_position (pm : t) (position : Position) : t :=
  {| positions := <[symbol position := position]> (positions pm);
     _max_positions := _max_positions pm |}.

Definition get_position (pm : t) (sym : string) : option Position :=
  positions pm !! sym.

Definition remove_position (pm : t) (sym : string) : t :=
  match positions pm !! sym with
  | Some _ => {| positions := delete sym (positions pm);
                 _max_positions := _max_positions pm |}
  | None => pm
  end.

Definition set_stop_loss (p : Position) (new_stop : Q) : Position :=
  {| symbol := symbol p; direction := direction p; entry_price := entry_price p;
     quantity := quantity p; stop_loss := new_stop; take_profit := take_profit p;
     trailing_active := trailing_active p; notional := notional p; cost := cost p |}.

Definition set_take_profit (p : Position) (new_tp : Q) : Position :=
  {| symbol := symbol p; direction := direction p; entry_price := entry_price p;
     quantity := quantity p; stop_loss := stop_loss p; take_profit := new_tp;
     trailing_active := trailing_active p; notional := notional p; cost := cost p |}.

(** The position object stored in the dictionary is mutated in place. *)
Definition update_stop (pm : t) (sym : string) (new_stop : Q) : t :=
  match positions pm !! sym with
  | Some position =>
      {| positions := <[sym := set_stop_loss position new_stop]> (positions pm);
         _max_positions := _max_positions pm |}
  | None => pm
  end.

Definition update_take_profit (pm : t) (sym : string) (new_tp : Q) : t :=
  match positions pm !! sym with
  | Some position =>
      {| positions := <[sym := set_take_profit position new_tp]> (positions pm);
         _max_positions := _max_positions pm |}
  | None => pm
  end.

(** Every stored position sits under its own symbol, as [add_position]
    stores it. *)
Definition well_keyed (pm : t) : Prop :=
  forall (k : string) (p : Position), positions pm !! k = Some p -> symbol p = k.

Definition count (pm : t) : Z := Z.of_nat (size (positions pm)).

End Portfolio.

(** ** Effects: a state monad with exceptions

    The exchange client and the trade engine mutate objects and may raise.
    A computation takes the current state and returns either a value or the
    exception raised, together with the state reached (mutations made before
    a [raise] stay). *)

Module Eff.

Inductive exn :=
| ValueError        (* raised by the client while normalising an order *)
| ExchangeError.    (* a call to the exchange API failed *)

Inductive result (A : Type) :=
| Ok (a : A)
| Raise (e : exn).
Arguments Ok {A} a.
Arguments Raise {A} e.

Definition M (S A : Type) : Type := S -> result A * S.

Definition ret {S A : Type} (a : A) : M S A := fun s => (Ok a, s).

Definition raise {S A : Type} (e : exn) : M S A := fun s => (Raise e, s).

Definition bind {S A B : Type} (m : M S A) (k : A -> M S B) : M S B :=
  fun s =>
    match m s with
    | (Ok a, s') => k a s'
    | (Raise e, s') => (Raise e, s')
    end.

Definition gets {S A : Type} (f : S -> A) : M S A := fun s => (Ok (f s), s).

Definition modify {S : Type} (f : S -> S) : M S unit := fun s => (Ok tt, f s).

(** Runs a computation on a component of the state. *)
Definition zoom {S T A : Type} (proj : T -> S) (inj : S -> T -> T) (m : M S A) : M T A :=
  fun t => let '(r, s') := m (proj t) in (r, inj s' t).

Definition returns_normally {S A : Type} (m : M S A) (s : S) : Prop :=
  exists a s', m s = (Ok a, s').

End Eff.

Declare Scope eff_scope.
Delimit Scope eff_scope with eff.
Notation "'do' x <- m ;; k" := (Eff.bind m (fun x => k))
  (at level 10, x name, m at level 99, k at level 200) : eff_scope.
Notation "'exec' m ;; k" := (Eff.bind m (fun _ => k))
  (at level 10, m at level 99, k at level 200) : eff_scope.

(** ** exchange/binance_client.py *)

Module Binance.

Record OrderRequest := {
  symbol : string;
  side : string;
  quantity : Q;
  order_type : string;
  price : option Q;
  stop_price : option Q;
  reduce_only : bool;
  position_side : option string;
  time_in_force : option string
}.

(** The keyword arguments handed to [futures_create_order].  A key that is
    absent from the dictionary is [None]; [reduceOnly] is present (and
    true) exactly when the flag is set.  Numbers stand for the decimal
    strings written by [_format_decimal], which keeps the value. *)
Record Params := {
  p_symbol : string;
  p_side : string;
  p_type : string;
  p_reduceOnly : bool;
  p_quantity : option Q;
  p_price : option Q;
  p_stopPrice : option Q;
  p_positionSide : option string;
  p_timeInForce : option string
}.

(** One filter dictionary of the exchange info, by the keys the client
    reads; the exchange sends each value as a decimal string. *)
Record Filter := {
  stepSize : option Q;
  minQty : option Q;
  tickSize : option Q;
  minPrice : option Q;
  maxPrice : option Q
}.

(** The filters of one instrument, keyed by [filterType]. *)
Abbreviation Filters := (gmap string Filter).

(** Calls that reach the exchange API. *)
Inductive Call :=
| CreateOrder (params : Params)
| ChangeLeverage (sym : string) (lev : Z)
| GetPositionMode
| ExchangeInfo.

(** The exchange, as seen from the client: what each API call answers
    after the calls made so far.  [None] and [false] stand for a call that
    raises. *)
Record Exchange := {
  futures_exchange_info : list Call -> option (list (string * list (string * Filter)));
  futures_get_position_mode : list Call -> option bool;
  futures_change_leverage : list Call -> string -> Z -> bool;
  futures_create_order : list Call -> Params -> bool
}.

(** The client object: its two caches, and the calls it has made. *)
Record Client := {
  _symbol_filters : gmap string Filters;
  _dual_position_mode : option bool;
  calls : list Call
}.

Definition new_client : Client :=
  {| _symbol_filters := ∅; _dual_position_mode := None; calls := [] |}.

Definition log (c : Call) (cl : Client) : Client :=
  {| _symbol_filters := _symbol_filters cl;
     _dual_position_mode := _dual_position_mode cl;
     calls := calls cl ++ [c] |}.

Definition set_symbol_filters (f : gmap string Filters) (cl : Client) : Client :=
  {| _symbol_filters := f;
     _dual_position_mode := _dual_position_mode cl;
     calls := calls cl |}.

Definition set_dual_position_mode (b : bool) (cl : Client) : Client :=
  {| _symbol_filters := _symbol_filters cl;
     _dual_position_mode := Some b;
     calls := calls cl |}.

(** The orders handed to [futures_create_order] so far. *)
Definition orders_sent (cl : Client) : list Params :=
  omap (fun c => match c with CreateOrder p => Some p | _ => None end) (calls cl).

(** [Decimal // Decimal] gives the integer part of the quotient, rounded
    toward zero. *)
Definition Qtrunc (x : Q) : Z := Z.quot (Qnum x) (Zpos (Qden x)).

(** [_round_to_step]: a missing or non-positive step leaves the value as it
    is; otherwise the value is cut to a multiple of the step.  [quantize]
    to the exponent of the step and [normalize] keep the value of that
    multiple; [Qred] stands for the normal form. *)
Definition _round_to_step (value : Q) (step : option Q) : Q :=
  match step with
  | None => value
  | Some dec_step =>
      if Py.leb dec_step 0 then value
      else Qred (inject_Z (Qtrunc (value / dec_step)) * dec_step)
  end.

Definition market_like (order_type : string) : bool :=
  let t := Py.upper order_type in
  String.eqb t "MARKET" || String.eqb t "STOP_MARKET" || String.eqb t "TAKE_PROFIT_MARKET".

(** [a or b] on two dictionary lookups. *)
Definition or_else {A : Type} (a b : option A) : option A :=
  match a with Some x => Some x | None => b end.

Definition _select_lot_filter (filters : Filters) (order_type : string) : option Filter :=
  if market_like order_type then
    or_else (filters !! "MARKET_LOT_SIZE"%string) (filters !! "LOT_SIZE"%string)
  else
    or_else (filters !! "LOT_SIZE"%string) (filters !! "MARKET_LOT_SIZE"%string).

Definition set_quantity (q : Q) (o : OrderRequest) : OrderRequest :=
  {| symbol := symbol o; side := side o; quantity := q; order_type := order_type o;
     price := price o; stop_price := stop_price o; reduce_only := reduce_only o;
     position_side := position_side o; time_in_force := time_in_force o |}.

Definition set_prices (pr sp : option Q) (o : OrderRequest) : OrderRequest :=
  {| symbol := symbol o; side := side o; quantity := quantity o; order_type := order_type o;
     price := pr; stop_price := sp; reduce_only := reduce_only o;
     position_side := position_side o; time_in_force := time_in_force o |}.

Definition set_p_quantity (q : Q) (p : Params) : Params :=
  {| p_symbol := p_symbol p; p_side := p_side p; p_type := p_type p;
     p_reduceOnly := p_reduceOnly p; p_quantity := Some q; p_price := p_price p;
     p_stopPrice := p_stopPrice p; p_positionSide := p_positionSide p;
     p_timeInForce := p_timeInForce p |}.

Definition set_p_prices (pr sp : option Q) (p : Params) : Params :=
  {| p_symbol := p_symbol p; p_side := p_side p; p_type := p_type p;
     p_reduceOnly := p_reduceOnly p; p_quantity := p_quantity p; p_price := pr;
     p_stopPrice := sp; p_positionSide := p_positionSide p;
     p_timeInForce := p_timeInForce p |}.

(** Lines 263-270: one price field against the price filter. *)
Definition normalize_price (price_filter : option Filter) (value : Q) : Q :=
  match price_filter with
  | Some f =>
      match tickSize f with
      | Some tick =>
          let p0 := _round_to_step value (Some tick) in
          let p1 := match minPrice f with
                    | Some m => if Py.ltb p0 m then m else p0
                    | None => p0
                    end in
          match maxPrice f with
          | Some m => if Py.ltb m p1 then m else p1
          | None => p1
          end
      | None => value
      end
  | None => value
  end.

(** [_apply_symbol_filters]: the order and the parameters after the
    in-place updates, or the exception raised. *)
Definition _apply_symbol_filters (order : OrderRequest) (params : Params)
    (filters : Filters) : Eff.result (OrderRequest * Params) :=
  let lot_filter := _select_lot_filter filters (order_type order) in
  let lot :=
    match p_quantity params, lot_filter with
    | Some quantity_value, Some lf =>
        let qty := _round_to_step quantity_value (stepSize lf) in
        if Py.leb qty 0 then Eff.Raise Eff.ValueError
        else if match minQty lf with Some m => Py.ltb qty m | None => false end
        then Eff.Raise Eff.ValueError
        else Eff.Ok (set_quantity qty order, set_p_quantity qty params)
    | _, _ => Eff.Ok (order, params)
    end in
  match lot with
  | Eff.Raise e => Eff.Raise e
  | Eff.Ok (order1, params1) =>
      let price_filter := filters !! "PRICE_FILTER"%string in
      let pr := normalize_price price_filter <$> p_price params1 in
      let sp := normalize_price price_filter <$> p_stopPrice params1 in
      Eff.Ok (set_prices (or_else pr (price order1)) (or_else sp (stop_price order1)) order1,
              set_p_prices pr sp params1)
  end.

(** Lines 106-122: the parameters before normalisation. *)
Definition initial_params (order : OrderRequest) : Params :=
  {| p_symbol := Py.upper (symbol order);
     p_side := side order;
     p_type := order_type order;
     p_reduceOnly := reduce_only order;
     p_quantity := if Py.truthy (quantity order) then Some (quantity order) else None;
     p_price := price order;
     p_stopPrice := stop_price order;
     p_positionSide :=
       match position_side order with
       | Some ps => if Py.nonempty ps then Some ps else None
       | None => None
       end;
     p_timeInForce :=
       match time_in_force order with
       | Some tif => if Py.nonempty tif then Some tif else None
       | None => None
       end |}.

(** Lines 225-227: the cache after reading the exchange info; a later
    entry of the same name replaces an earlier one. *)
Definition store_filters (symbols : list (string * list (string * Filter)))
    (cache : gmap string Filters) : gmap string Filters :=
  fold_left
    (fun m (si : string * list (string * Filter)) =>
       <[fst si := fold_left (fun fm (f : string * Filter) => <[fst f := snd f]> fm)
                     (snd si) (∅ : Filters)]> m)
    symbols cache.

(** [bool(d)] for a dictionary. *)
Definition nonempty_dict (f : Filters) : bool := negb (bool_decide (f = ∅)).

Section WithExchange.

Variable ex : Exchange.

Local Open Scope eff_scope.

(** Lines 222-232: the cache is filled from the exchange info and read
    again. *)
Definition fetch_symbol_filters (symbol_key : string) : Eff.M Client Filters :=
  do before <- Eff.gets calls ;;
  exec Eff.modify (log ExchangeInfo) ;;
  match futures_exchange_info ex before with
  | None => Eff.raise Eff.ExchangeError
  | Some symbols =>
      exec Eff.modify
             (fun cl => set_symbol_filters (store_filters symbols (_symbol_filters cl)) cl) ;;
      do cache' <- Eff.gets _symbol_filters ;;
      match cache' !! symbol_key with
      | Some cached =>
          if nonempty_dict cached then Eff.ret cached else Eff.raise Eff.ValueError
      | None => Eff.raise Eff.ValueError
      end
  end.

Definition _get_symbol_filters (sym : string) : Eff.M Client Filters :=
  let symbol_key := Py.upper sym in
  do cache <- Eff.gets _symbol_filters ;;
  match cache !! symbol_key with
  | Some cached =>
      if nonempty_dict cached then Eff.ret cached
      else fetch_symbol_filters symbol_key
  | None => fetch_symbol_filters symbol_key
  end.

(** [place_order]: the parameters are built and normalised; an exception
    of the normalisation is logged and raised again; otherwise the order
    goes to the exchange.  The value is the order object after the
    in-place updates, which the caller reads back. *)
Definition place_order (order : OrderRequest) : Eff.M Client OrderRequest :=
  let params := initial_params order in
  do filters <- _get_symbol_filters (symbol order) ;;
  match _apply_symbol_filters order params filters with
  | Eff.Raise e => Eff.raise e
  | Eff.Ok (order', params') =>
      do before <- Eff.gets calls ;;
      exec Eff.modify (log (CreateOrder params')) ;;
      if futures_create_order ex before params' then Eff.ret order'
      else Eff.raise Eff.ExchangeError
  end.

Definition change_leverage (sym : string) (lev : Z) : Eff.M Client unit :=
  do before <- Eff.gets calls ;;
  exec Eff.modify (log (ChangeLeverage (Py.upper sym) lev)) ;;
  if futures_change_leverage ex before (Py.upper sym) lev then Eff.ret tt
  else Eff.raise Eff.ExchangeError.

(** [uses_dual_position_mode]: asked once; a failed query counts as
    one-way mode. *)
Definition uses_dual_position_mode : Eff.M Client bool :=
  do cached <- Eff.gets _dual_position_mode ;;
  match cached with
  | Some b => Eff.ret b
  | None =>
      do before <- Eff.gets calls ;;
      exec Eff.modify (log GetPositionMode) ;;
      let b := default false (futures_get_position_mode ex before) in
      exec Eff.modify (set_dual_position_mode b) ;;
      Eff.ret b
  end.

End WithExchange.

End Binance.

(** ** execution/trade_engine.py *)

Module TradeEngine.

Record ExecutionReport := {
  opened : bool;
  closed : bool;
  adjusted : bool;
  message : string
}.

Definition report (o c : bool) (msg : string) : ExecutionReport :=
  {| opened := o; closed := c; adjusted := false; message := msg |}.

(** The engine with the objects it holds: the client, the portfolio and
    the risk manager, its symbol and the two lazily set flags. *)
Record t := {
  _client : Binance.Client;
  _portfolio : Portfolio.t;
  _risk : RiskManager.t;
  _symbol : string;
  _leverage_synced : bool;
  _dual_side_position : option bool
}.

Definition init (client : Binance.Client) (portfolio : Portfolio.t)
    (risk_manager : RiskManager.t) (sym : string) : t :=
  {| _client := client;
     _portfolio := portfolio;
     _risk := risk_manager;
     _symbol := Py.upper sym;
     _leverage_synced := false;
     _dual_side_position := None |}.

Definition set_client (c : Binance.Client) (e : t) : t :=
  {| _client := c; _portfolio := _portfolio e; _risk := _risk e; _symbol := _symbol e;
     _leverage_synced := _leverage_synced e; _dual_side_position := _dual_side_position e |}.

Definition set_portfolio (pm : Portfolio.t) (e : t) : t :=
  {| _client := _client e; _portfolio := pm; _risk := _risk e; _symbol := _symbol e;
     _leverage_synced := _leverage_synced e; _dual_side_position := _dual_side_position e |}.

Definition set_leverage_synced (b : bool) (e : t) : t :=
  {| _client := _client e; _portfolio := _portfolio e; _risk := _risk e; _symbol := _symbol e;
     _leverage_synced := b; _dual_side_position := _dual_side_position e |}.

Definition set_dual_side_position (b : bool) (e : t) : t :=
  {| _client := _client e; _portfolio := _portfolio e; _risk := _risk e; _symbol := _symbol e;
     _leverage_synced := _leverage_synced e; _dual_side_position := Some b |}.

(** A call on the client object held by the engine. *)
Definition on_client {A : Type} (m : Eff.M Binance.Client A) : Eff.M t A :=
  Eff.zoom _client set_client m.

Definition is_long_short (direction : string) : bool :=
  String.eqb direction "long" || String.eqb direction "short".

Definition with_quantity (q : Q) (s : RiskManager.PositionSizing) : RiskManager.PositionSizing :=
  {| RiskManager.quantity := q; RiskManager.leverage := RiskManager.leverage s;
     RiskManager.notional := RiskManager.notional s; RiskManager.cost := RiskManager.cost s;
     RiskManager.stop_loss := RiskManager.stop_loss s;
     RiskManager.take_profit := RiskManager.take_profit s;
     RiskManager.trailing_active := RiskManager.trailing_active s |}.

Definition with_stop_loss (x : Q) (s : RiskManager.PositionSizing) : RiskManager.PositionSizing :=
  {| RiskManager.quantity := RiskManager.quantity s; RiskManager.leverage := RiskManager.leverage s;
     RiskManager.notional := RiskManager.notional s; RiskManager.cost := RiskManager.cost s;
     RiskManager.stop_loss := x;
     RiskManager.take_profit := RiskManager.take_profit s;
     RiskManager.trailing_active := RiskManager.trailing_active s |}.

Definition with_take_profit (x : Q) (s : RiskManager.PositionSizing) : RiskManager.PositionSizing :=
  {| RiskManager.quantity := RiskManager.quantity s; RiskManager.leverage := RiskManager.leverage s;
     RiskManager.notional := RiskManager.notional s; RiskManager.cost := RiskManager.cost s;
     RiskManager.stop_loss := RiskManager.stop_loss s;
     RiskManager.take_profit := x;
     RiskManager.trailing_active := RiskManager.trailing_active s |}.

(** [a or b] where [a] is an optional number: [a] when it is present and
    not zero. *)
Definition num_or (a : option Q) (b : Q) : Q :=
  match a with
  | Some x => if Py.truthy x then x else b
  | None => b
  end.

(** The order built by [_close_position]. *)
Definition close_order (sym : string) (position : Portfolio.Position)
    (position_side : option string) : Binance.OrderRequest :=
  {| Binance.symbol := sym;
     Binance.side := if String.eqb (Portfolio.direction position) "long" then "SELL" else "BUY";
     Binance.quantity := Portfolio.quantity position;
     Binance.order_type := "MARKET";
     Binance.price := None;
     Binance.stop_price := None;
     Binance.reduce_only := match position_side with None => true | Some _ => false end;
     Binance.position_side := position_side;
     Binance.time_in_force := None |}.

Section WithExchange.

Variable ex : Binance.Exchange.

Local Open Scope eff_scope.

Definition _ensure_leverage : Eff.M t unit :=
  do synced <- Eff.gets _leverage_synced ;;
  if synced then Eff.ret tt
  else
    do sym <- Eff.gets _symbol ;;
    do lev <- Eff.gets (fun e => RiskManager._leverage (_risk e)) ;;
    exec on_client (Binance.change_leverage ex sym lev) ;;
    Eff.modify (set_leverage_synced true).

Definition _is_dual_position_mode : Eff.M t bool :=
  do cached <- Eff.gets _dual_side_position ;;
  match cached with
  | Some b => Eff.ret b
  | None =>
      do b <- on_client (Binance.uses_dual_position_mode ex) ;;
      exec Eff.modify (set_dual_side_position b) ;;
      Eff.ret b
  end.

Definition _position_side_for (direction : string) : Eff.M t (option string) :=
  if negb (is_long_short direction) then Eff.ret None
  else
    do dual <- _is_dual_position_mode ;;
    if negb dual then Eff.ret None
    else Eff.ret (Some (if String.eqb direction "long" then "LONG"%string else "SHORT"%string)).

Definition _close_position (position : Portfolio.Position) : Eff.M t unit :=
  do position_side <- _position_side_for (Portfolio.direction position) ;;
  do sym <- Eff.gets _symbol ;;
  exec on_client (Binance.place_order ex (close_order sym position position_side)) ;;
  Eff.ret tt.

(** The sizing object is updated in place; the value is the sizing the
    caller goes on with. *)
Definition _place_protection_orders (direction : string)
    (sizing : RiskManager.PositionSizing) : Eff.M t RiskManager.PositionSizing :=
  let stop_side := if String.eqb direction "long" then "SELL"%string else "BUY"%string in
  let tp_side := if String.eqb direction "long" then "SELL"%string else "BUY"%string in
  do position_side <- _position_side_for direction ;;
  let reduce_only := match position_side with None => true | Some _ => false end in
  do sym <- Eff.gets _symbol ;;
  let stop_order :=
    {| Binance.symbol := sym; Binance.side := stop_side;
       Binance.quantity := RiskManager.quantity sizing;
       Binance.order_type := "STOP_MARKET"; Binance.price := None;
       Binance.stop_price := Some (RiskManager.stop_loss sizing);
       Binance.reduce_only := reduce_only; Binance.position_side := position_side;
       Binance.time_in_force := None |} in
  let take_profit_order :=
    {| Binance.symbol := sym; Binance.side := tp_side;
       Binance.quantity := RiskManager.quantity sizing;
       Binance.order_type := "TAKE_PROFIT_MARKET"; Binance.price := None;
       Binance.stop_price := Some (RiskManager.take_profit sizing);
       Binance.reduce_only := reduce_only; Binance.position_side := position_side;
       Binance.time_in_force := None |} in
  do stop_order' <- on_client (Binance.place_order ex stop_order) ;;
  let sizing1 :=
    with_stop_loss (num_or (Binance.stop_price stop_order') (RiskManager.stop_loss sizing))
      sizing in
  do take_profit_order' <- on_client (Binance.place_order ex take_profit_order) ;;
  Eff.ret (with_take_profit
             (num_or (Binance.stop_price take_profit_order') (RiskManager.take_profit sizing1))
             sizing1).

Definition _open_position (direction : string) (sizing : RiskManager.PositionSizing)
    : Eff.M t RiskManager.PositionSizing :=
  let side := if String.eqb direction "long" then "BUY"%string else "SELL"%string in
  do position_side <- _position_side_for direction ;;
  do sym <- Eff.gets _symbol ;;
  let order :=
    {| Binance.symbol := sym; Binance.side := side;
       Binance.quantity := RiskManager.quantity sizing;
       Binance.order_type := "MARKET"; Binance.price := None; Binance.stop_price := None;
       Binance.reduce_only := false; Binance.position_side := position_side;
       Binance.time_in_force := None |} in
  do order' <- on_client (Binance.place_order ex order) ;;
  _place_protection_orders direction (with_quantity (Binance.quantity order') sizing).

Definition process_signal (decision : SignalEngine.SignalDecision) (price : Q)
    (volatility : VolatilitySnapshot) : Eff.M t ExecutionReport :=
  exec _ensure_leverage ;;
  do sym <- Eff.gets _symbol ;;
  do position <- Eff.gets (fun e => Portfolio.get_position (_portfolio e) sym) ;;
  if String.eqb (SignalEngine.direction decision) "flat" then
    match position with
    | Some p =>
        exec _close_position p ;;
        exec Eff.modify (fun e => set_portfolio (Portfolio.remove_position (_portfolio e) sym) e) ;;
        Eff.ret (report false true "Fechando posicao por sinal neutro")
    | None => Eff.ret (report false false "Nada a fazer - sinal neutro")
    end
  else
    match position with
    | Some p =>
        if negb (String.eqb (Portfolio.direction p) (SignalEngine.direction decision)) then
          exec _close_position p ;;
          exec Eff.modify (fun e => set_portfolio (Portfolio.remove_position (_portfolio e) sym) e) ;;
          Eff.ret (report false true "Reversao de posicao")
        else Eff.ret (report false false "Mantendo posicao atual")
    | None =>
        do can <- Eff.gets (fun e => Portfolio.can_open (_portfolio e) sym) ;;
        if negb can then Eff.ret (report false false "Limite de posicoes atingido")
        else
          do rm <- Eff.gets _risk ;;
          let sizing :=
            RiskManager.size_position rm price volatility (SignalEngine.direction decision) in
          if Py.leb (RiskManager.quantity sizing) 0 then
            Eff.ret (report false false "Tamanho de posicao invalido")
          else
            do sizing' <- _open_position (SignalEngine.direction decision) sizing ;;
            let new_position :=
              {| Portfolio.symbol := sym;
                 Portfolio.direction := SignalEngine.direction decision;
                 Portfolio.entry_price := price;
                 Portfolio.quantity := RiskManager.quantity sizing';
                 Portfolio.stop_loss := RiskManager.stop_loss sizing';
                 Portfolio.take_profit := RiskManager.take_profit sizing';
                 Portfolio.trailing_active := RiskManager.trailing_active sizing';
                 Portfolio.notional := RiskManager.notional sizing';
                 Portfolio.cost := RiskManager.cost sizing' |} in
            exec Eff.modify (fun e => set_portfolio (Portfolio.add_position (_portfolio e) new_position) e) ;;
            Eff.ret (report true false "Posicao aberta")
    end.

End WithExchange.

End TradeEngine.

(** ** Concrete states used as test inputs *)

Module Fixtures.

Definition lot_filter : Binance.Filter :=
  {| Binance.stepSize := Some 0.01%Q; Binance.minQty := Some 0.01%Q;
     Binance.tickSize := None; Binance.minPrice := None; Binance.maxPrice := None |}.

Definition price_filter : Binance.Filter :=
  {| Binance.stepSize := None; Binance.minQty := None;
     Binance.tickSize := Some 0.1%Q; Binance.minPrice := Some 1%Q;
     Binance.maxPrice := Some 1000000%Q |}.

(** An exchange that answers every call and lists BTCUSDT. *)
Definition accepting_exchange : Binance.Exchange :=
  {| Binance.futures_exchange_info := fun _ =>
       Some [("BTCUSDT"%string,
              [("LOT_SIZE"%string, lot_filter); ("PRICE_FILTER"%string, price_filter)])];
     Binance.futures_get_position_mode := fun _ => Some false;
     Binance.futures_change_leverage := fun _ _ _ => true;
     Binance.futures_create_order := fun _ _ => true |}.

(** An exchange whose listing of BTCUSDT has no lot-size filter. *)
Definition exchange_without_lot_filter : Binance.Exchange :=
  {| Binance.futures_exchange_info := fun _ =>
       Some [("BTCUSDT"%string, [("PRICE_FILTER"%string, price_filter)])];
     Binance.futures_get_position_mode := fun _ => Some false;
     Binance.futures_change_leverage := fun _ _ _ => true;
     Binance.futures_create_order := fun _ _ => true |}.

Definition market_order (q : Q) : Binance.OrderRequest :=
  {| Binance.symbol := "btcusdt"; Binance.side := "BUY"; Binance.quantity := q;
     Binance.order_type := "MARKET"; Binance.price := None; Binance.stop_price := None;
     Binance.reduce_only := false; Binance.position_side := None;
     Binance.time_in_force := None |}.

Definition risk_manager : RiskManager.t := RiskManager.init 10000 5 0.01 ∅ 0.

Definition long_position : Portfolio.Position :=
  {| Portfolio.symbol := "BTCUSDT"; Portfolio.direction := "long";
     Portfolio.entry_price := 30000; Portfolio.quantity := 2;
     Portfolio.stop_loss := 29750; Portfolio.take_profit := 30400;
     Portfolio.trailing_active := true; Portfolio.notional := 60000;
     Portfolio.cost := 12000 |}.

Definition fresh_engine : TradeEngine.t :=
  TradeEngine.init Binance.new_client (Portfolio.init 1) risk_manager "btcusdt".

Definition engine_with_long : TradeEngine.t :=
  TradeEngine.set_portfolio
    (Portfolio.add_position (Portfolio.init 1) long_position) fresh_engine.

Definition decision (d : string) : SignalEngine.SignalDecision :=
  {| SignalEngine.symbol := "BTCUSDT"; SignalEngine.direction := d;
     SignalEngine.confidence := 0.6; SignalEngine.reasons := [] |}.

Definition calm : VolatilitySnapshot :=
  {| atr := 100; atr_pct := 0.3; realized_vol := 1;
     structure_break := false; volatility_regime := "normal" |}.

End Fixtures.

(** ** Sequences of calls on the portfolio and on the analyzer *)

Module PortfolioRun.

(** The calls the trade engine and its callers make on the portfolio.  An
    opening is gated by [can_open], as in [process_signal] (lines 73 and
    92 of the trade engine). *)
Inductive op :=
| Open (p : Portfolio.Position)
| Remove (sym : string)
| UpdateStop (sym : string) (new_stop : Q)
| UpdateTakeProfit (sym : string) (new_tp : Q).

Definition step (pm : Portfolio.t) (o : op) : Portfolio.t :=
  match o with
  | Open p =>
      if Portfolio.can_open pm (Portfolio.symbol p) then Portfolio.add_position pm p else pm
  | Remove sym => Portfolio.remove_position pm sym
  | UpdateStop sym x => Portfolio.update_stop pm sym x
  | UpdateTakeProfit sym x => Portfolio.update_take_profit pm sym x
  end.

Definition run (pm : Portfolio.t) (ops : list op) : Portfolio.t := fold_left step ops pm.

End PortfolioRun.

Module OrderFlowTrace.

(** The entries a sequence of updates appends to each window, in order. *)
Definition trade_entries (us : list OrderFlow.update) : list (Q * Q * bool) :=
  omap (fun u => match u with
                 | OrderFlow.Trade p q m => Some (p, q, negb m)
                 | OrderFlow.Liquidation _ _ => None
                 end) us.

Definition liquidation_entries (us : list OrderFlow.update) : list (Q * bool) :=
  omap (fun u => match u with
                 | OrderFlow.Trade _ _ _ => None
                 | OrderFlow.Liquidation q s => Some (q, String.eqb (Py.upper s) "BUY")
                 end) us.

(** The last [n] elements of a list. *)
Definition last_n {A : Type} (n : nat) (l : list A) : list A := drop (length l - n) l.

End OrderFlowTrace.

(** ** analysis/volatility.py, strategies/technicals.py and main.py: the
    parts that are plain arithmetic and list handling *)

Module Volatility.

(** [classify_volatility]. *)
Definition classify_volatility (atr_pct realized_vol : Q) : string :=
  if Py.ltb atr_pct 0.5 && Py.ltb realized_vol 0.4 then "compressao"
  else if Py.ltb 2.0 atr_pct || Py.ltb 2.5 realized_vol then "explosiva"
  else "normal".

End Volatility.

Module Technicals.

(** [_normalize]. *)
Definition _normalize (value lower upper : Q) : Q :=
  if negb (Py.eqb upper lower) then ((value - lower) / (upper - lower))%Q else 0.0%Q.

(** Lines 43-45 of [_momentum_score]: the score from the latest RSI and
    stochastic values, which the indicator library supplies. *)
Definition momentum_from (latest_rsi latest_stoch : Q) : Q :=
  let rsi_score := (_normalize latest_rsi 0 100 * 2 - 1)%Q in
  let stoch_score := (_normalize latest_stoch 0 100 * 2 - 1)%Q in
  ((rsi_score + stoch_score) / 2)%Q.


End Technicals.

Module Main.

(** Lines 141-146 of [_handle_events]: a closed candle replaces the last
    cached candle when both have the same open time and is appended
    otherwise; then one candle is dropped from the front when the cache is
    longer than the lookback.  A candle is its open time and the rest of
    its fields. *)
Definition update_klines {A : Type} (data_lookback : Z) (cached_klines : list (Z * A))
    (kline : Z * A) : list (Z * A) :=
  let cached1 :=
    match last cached_klines with
    | Some l =>
        if (fst l =? fst kline)%Z then removelast cached_klines ++ [kline]
        else cached_klines ++ [kline]
    | None => cached_klines ++ [kline]
    end in
  if (data_lookback <? Z.of_nat (length cached1))%Z then tail cached1 else cached1.

End Main.

Module BinanceTrace.

(** The leverage changes requested from the exchange so far. *)
Definition leverage_calls (cl : Binance.Client) : list (string * Z) :=
  omap (fun c => match c with
                 | Binance.ChangeLeverage s l => Some (s, l)
                 | _ => None
                 end) (Binance.calls cl).

(** The symbols listed by an exchange-info answer. *)
Definition listed (symbols : list (string * list (string * Binance.Filter))) : list string :=
  map fst symbols.

End BinanceTrace.

Module EngineTrace.

(** What a step of the engine that only talks to the exchange leaves as it
    was: the portfolio, the symbol, the risk manager, the leverage flag and
    the leverage changes requested so far. *)
Definition same_engine (st st' : TradeEngine.t) : Prop :=
  TradeEngine._portfolio st' = TradeEngine._portfolio st
  /\ TradeEngine._symbol st' = TradeEngine._symbol st
  /\ TradeEngine._risk st' = TradeEngine._risk st
  /\ TradeEngine._leverage_synced st' = TradeEngine._leverage_synced st
  /\ BinanceTrace.leverage_calls (TradeEngine._client st')
     = BinanceTrace.leverage_calls (TradeEngine._client st).

Definition orders_sent (st : TradeEngine.t) : list Binance.Params :=
  Binance.orders_sent (TradeEngine._client st).

(** The side of the order that opens, and of the orders that leave, a
    position of the given direction. *)
Definition entry_side (direction : string) : string :=
  if String.eqb direction "long" then "BUY" else "SELL".

Definition exit_side (direction : string) : string :=
  if String.eqb direction "long" then "SELL" else "BUY".

End EngineTrace.

(** * Properties *)

(** ** Python primitives *)

Lemma py_ltb_lt (x y : Q) : Py.ltb x y = true <-> (x < y)%Q.
Proof.
  unfold Py.ltb. rewrite Qlt_alt. destruct (x ?= y)%Q; split; congruence.
Qed.

Lemma py_ltb_ge (x y : Q) : Py.ltb x y = false <-> (y <= x)%Q.
Proof.
  rewrite <- not_true_iff_false, py_ltb_lt. split; [apply Qnot_lt_le | apply Qle_not_lt].
Qed.

(** ** Signal engine *)

Lemma direction_of_long (c : Q) :
  SignalEngine.direction_of c = "long"%string <-> (0.25 < c)%Q.
Proof.
  unfold SignalEngine.direction_of.
  destruct (Py.ltb 0.25 c) eqn:Hl.
  - apply py_ltb_lt in Hl. done.
  - apply py_ltb_ge in Hl.
    destruct (Py.ltb c (-0.25)); (split; [discriminate | intros; lra]).
Qed.

Lemma direction_of_short (c : Q) :
  SignalEngine.direction_of c = "short"%string <-> (c < -0.25)%Q.
Proof.
  unfold SignalEngine.direction_of.
  destruct (Py.ltb 0.25 c) eqn:Hl.
  - apply py_ltb_lt in Hl. split; [discriminate | intros; lra].
  - destruct (Py.ltb c (-0.25)) eqn:Hs.
    + apply py_ltb_lt in Hs. done.
    + apply py_ltb_ge in Hs. split; [discriminate | intros; lra].
Qed.

Lemma direction_of_flat (c : Q) :
  SignalEngine.direction_of c = "flat"%string <-> (-0.25 <= c <= 0.25)%Q.
Proof.
  unfold SignalEngine.direction_of.
  destruct (Py.ltb 0.25 c) eqn:Hl.
  - apply py_ltb_lt in Hl. split; [discriminate | intros; lra].
  - apply py_ltb_ge in Hl. destruct (Py.ltb c (-0.25)) eqn:Hs.
    + apply py_ltb_lt in Hs. split; [discriminate | intros; lra].
    + apply py_ltb_ge in Hs. split; [intros _; lra | done].
Qed.

Lemma confidence_of_min (c : Q) :
  (SignalEngine.confidence_of c == Qmin 1 (Qabs c))%Q.
Proof.
  unfold SignalEngine.confidence_of.
  pose proof (Qabs_nonneg c) as Habs.
  assert (Hmax : (Py.max 0.0 (Qabs c) == Qabs c)%Q).
  { unfold Py.max. destruct (Py.ltb 0.0 (Qabs c)) eqn:E; [reflexivity |].
    apply py_ltb_ge in E. lra. }
  unfold Py.min. destruct (Py.ltb (Py.max 0.0 (Qabs c)) 1.0) eqn:E.
  - apply py_ltb_lt in E. rewrite Hmax in *.
    rewrite Q.min_r; [reflexivity | lra].
  - apply py_ltb_ge in E. rewrite Hmax in E.
    rewrite Q.min_l; [reflexivity | lra].
Qed.


(** ** Risk manager *)

Lemma py_leb_le (x y : Q) : Py.leb x y = true <-> (x <= y)%Q.
Proof. apply Qle_bool_iff. Qed.

Lemma py_leb_gt (x y : Q) : Py.leb x y = false <-> (y < x)%Q.
Proof.
  rewrite <- not_true_iff_false, py_leb_le. split; [apply Qnot_le_lt | apply Qlt_not_le].
Qed.

Lemma py_eqb_eq (x y : Q) : Py.eqb x y = true <-> (x == y)%Q.
Proof. apply Qeq_bool_iff. Qed.

Lemma py_eqb_neq (x y : Q) : Py.eqb x y = false <-> ~ (x == y)%Q.
Proof. rewrite <- not_true_iff_false, py_eqb_eq. done. Qed.

Lemma py_max_pos (x : Q) : (0 < x)%Q -> Py.max x 0.0 = x.
Proof.
  intros Hx. unfold Py.max.
  destruct (Py.ltb x 0.0) eqn:E; [| done].
  apply py_ltb_lt in E. lra.
Qed.

Lemma Qdiv_pos (a b : Q) : (0 < a)%Q -> (0 < b)%Q -> (0 < a / b)%Q.
Proof.
  intros Ha Hb. apply Qlt_shift_div_l; [done | lra].
Qed.

Lemma direction_test (direction : string) :
  negb (String.eqb direction "long" || String.eqb direction "short") = false
  <-> direction = "long"%string \/ direction = "short"%string.
Proof.
  rewrite negb_false_iff, orb_true_iff, !String.eqb_eq. done.
Qed.

(** C4. [size_position] returns the empty sizing (quantity, notional and
    cost 0, trailing inactive) whenever the direction is neither "long" nor
    "short", or the price is not positive, or ATR times the stop-loss
    multiplier is not positive, and in particular whenever ATR is 0,
    whatever the other inputs are. *)
Theorem size_position_empty
    (rm : RiskManager.t) (price : Q) (volatility : VolatilitySnapshot) (direction : string) :
  (direction <> "long"%string /\ direction <> "short"%string)
  \/ (price <= 0)%Q
  \/ (atr volatility * RiskManager.atr_multiplier_sl rm <= 0)%Q
  \/ (atr volatility == 0)%Q ->
  let r := RiskManager.size_position rm price volatility direction in
  r = RiskManager._empty_sizing rm
  /\ (RiskManager.quantity r == 0)%Q
  /\ (RiskManager.notional r == 0)%Q
  /\ (RiskManager.cost r == 0)%Q
  /\ RiskManager.trailing_active r = false.
Proof.
  intros H r.
  assert (Hr : r = RiskManager._empty_sizing rm); [| rewrite Hr; by repeat split].
  subst r. unfold RiskManager.size_position.
  destruct (negb _) eqn:Hdir; [done |].
  apply direction_test in Hdir.
  destruct (Py.leb price 0) eqn:Hprice; [done |].
  apply py_leb_gt in Hprice.
  destruct (Py.leb (atr volatility * RiskManager.atr_multiplier_sl rm) 0) eqn:Hstop; [done |].
  apply py_leb_gt in Hstop.
  exfalso. destruct H as [[Hl Hs] | [Hp | [Hd | Ha]]].
  - destruct Hdir; contradiction.
  - lra.
  - lra.
  - rewrite Ha in Hstop. lra.
Qed.

Lemma size_position_empty_witness :
  let rm := RiskManager.init 10000 5 0.01 ∅ 0 in
  let vol := {| atr := 0; atr_pct := 0; realized_vol := 0;
                structure_break := false; volatility_regime := "normal" |} in
  RiskManager.size_position rm 30000 vol "long" = RiskManager._empty_sizing rm.
Proof.
  intros rm vol.
  apply (size_position_empty rm 30000 vol "long").
  right. right. right. reflexivity.
Defined.

(** C5. For a long or short request with no fixed cost, a positive price, a
    positive stop distance and valid account parameters (positive risked
    amount and leverage), [size_position] returns
    quantity = balance * risk_perc * leverage / (ATR * sl_multiplier),
    notional = quantity * price and cost = notional / leverage.  With
    ATR = 100, sl_multiplier = 2.5, balance = 10000, risk_perc = 0.01 and
    leverage = 5 this is quantity = 2, notional = 2 * price and
    cost = notional / 5. *)
Theorem size_position_risk_based
    (rm : RiskManager.t) (price : Q) (volatility : VolatilitySnapshot) (direction : string) :
  direction = "long"%string \/ direction = "short"%string ->
  (RiskManager._fixed_cost rm == 0)%Q ->
  (0 < price)%Q ->
  (0 < atr volatility * RiskManager.atr_multiplier_sl rm)%Q ->
  (0 < RiskManager._balance rm * RiskManager._risk_perc rm)%Q ->
  (0 < RiskManager._leverage rm)%Z ->
  let r := RiskManager.size_position rm price volatility direction in
  let lev := inject_Z (RiskManager._leverage rm) in
  (RiskManager.quantity r ==
     (RiskManager._balance rm * RiskManager._risk_perc rm * lev)
     / (atr volatility * RiskManager.atr_multiplier_sl rm))%Q
  /\ (RiskManager.notional r == RiskManager.quantity r * price)%Q
  /\ (RiskManager.cost r == RiskManager.notional r / lev)%Q
  /\ ((atr volatility == 100)%Q ->
      (RiskManager.atr_multiplier_sl rm == 2.5)%Q ->
      (RiskManager._balance rm == 10000)%Q ->
      (RiskManager._risk_perc rm == 0.01)%Q ->
      RiskManager._leverage rm = 5%Z ->
      (RiskManager.quantity r == 2)%Q
      /\ (RiskManager.notional r == 2 * price)%Q
      /\ (RiskManager.cost r == RiskManager.notional r / 5)%Q).
Proof.
  intros Hdir Hfixed Hprice Hstop Hrisk Hlev r lev.
  assert (General :
    (RiskManager.quantity r ==
       (RiskManager._balance rm * RiskManager._risk_perc rm * lev)
       / (atr volatility * RiskManager.atr_multiplier_sl rm))%Q
    /\ (RiskManager.notional r == RiskManager.quantity r * price)%Q
    /\ (RiskManager.cost r == RiskManager.notional r / lev)%Q).
  { subst r. unfold RiskManager.size_position.
    apply direction_test in Hdir. rewrite Hdir.
    apply py_leb_gt in Hprice as Hp. rewrite Hp.
    apply py_leb_gt in Hstop as Hs. rewrite Hs.
    unfold RiskManager.raw_sizing, RiskManager._position_risk.
    assert (Hf : Py.ltb 0 (RiskManager._fixed_cost rm) = false)
      by (apply py_ltb_ge; lra).
    rewrite Hf.
    assert (Hz : (RiskManager._leverage rm =? 0)%Z = false) by (apply Z.eqb_neq; lia).
    rewrite Hz. fold lev.
    assert (Hlevq : (0 < lev)%Q).
    { subst lev. change 0%Q with (inject_Z 0). rewrite <- Zlt_Qlt. done. }
    set (stop := (atr volatility * RiskManager.atr_multiplier_sl rm)%Q) in *.
    set (risk := (RiskManager._balance rm * RiskManager._risk_perc rm)%Q) in *.
    assert (Hq : (0 < risk * lev / stop)%Q).
    { apply Qdiv_pos; [| done]. apply Qmult_lt_0_compat; done. }
    assert (Hn : (0 < risk * lev / stop * price)%Q) by (apply Qmult_lt_0_compat; done).
    assert (Hc : (0 < risk * lev / stop * price / lev)%Q) by (apply Qdiv_pos; done).
    rewrite !py_max_pos by done.
    assert (Hq0 : Py.eqb (risk * lev / stop) 0.0 = false) by (apply py_eqb_neq; lra).
    assert (Hn0 : Py.eqb (risk * lev / stop * price) 0.0 = false) by (apply py_eqb_neq; lra).
    rewrite Hq0, Hn0. cbn [orb].
    destruct (String.eqb direction "long"); cbn; repeat split; reflexivity. }
  destruct General as (Hq & Hn & Hc).
  repeat (split; [done |]).
  intros Hatr Hsl Hbal Hperc Hfive.
  assert (Hq2 : (RiskManager.quantity r == 2)%Q).
  { rewrite Hq. subst lev. rewrite Hatr, Hsl, Hbal, Hperc, Hfive. reflexivity. }
  split; [exact Hq2 |]. split.
  - rewrite Hn, Hq2. reflexivity.
  - rewrite Hc. subst lev. rewrite Hfive. reflexivity.
Qed.

Lemma size_position_risk_based_witness :
  let rm := RiskManager.init 10000 5 0.01 ∅ 0 in
  let vol := {| atr := 100; atr_pct := 0.3; realized_vol := 1;
                structure_break := false; volatility_regime := "normal" |} in
  let r := RiskManager.size_position rm 30000 vol "long" in
  (RiskManager.quantity r == 2)%Q
  /\ (RiskManager.notional r == 2 * 30000)%Q
  /\ (RiskManager.cost r == RiskManager.notional r / 5)%Q.
Proof.
  intros rm vol r.
  assert (Hdir : "long"%string = "long"%string \/ "long"%string = "short"%string)
    by (left; reflexivity).
  assert (Hfixed : (RiskManager._fixed_cost rm == 0)%Q) by reflexivity.
  assert (Hprice : (0 < 30000)%Q) by reflexivity.
  assert (Hstop : (0 < atr vol * RiskManager.atr_multiplier_sl rm)%Q) by reflexivity.
  assert (Hrisk : (0 < RiskManager._balance rm * RiskManager._risk_perc rm)%Q)
    by reflexivity.
  assert (Hlev : (0 < RiskManager._leverage rm)%Z) by reflexivity.
  destruct (size_position_risk_based rm 30000 vol "long"
              Hdir Hfixed Hprice Hstop Hrisk Hlev) as (_ & _ & _ & Particular).
  apply Particular; reflexivity.
Defined.

(** ** Order flow analyzer *)

Section OrderFlowBounds.

Local Open Scope Q_scope.

Lemma fold_left_Qplus_acc (l : list Q) (acc : Q) :
  fold_left Qplus l acc == acc + fold_left Qplus l 0.
Proof.
  revert acc. induction l as [| x l IH]; intros acc; cbn.
  - ring.
  - rewrite (IH (acc + x)), (IH (0 + x)). ring.
Qed.

Lemma py_sum_nonneg (l : list Q) :
  Forall (fun q => 0 <= q) l -> 0 <= Py.sum l.
Proof.
  unfold Py.sum. induction 1 as [| x l Hx _ IH]; cbn.
  - lra.
  - rewrite fold_left_Qplus_acc. lra.
Qed.

Lemma trade_volume_nonneg (side : bool) (trades : list (Q * Q * bool)) :
  Forall (fun t => 0 <= snd (fst t)) trades ->
  0 <= OrderFlow.trade_volume side trades.
Proof.
  intros H. apply py_sum_nonneg.
  induction H as [| t l Ht _ IH]; cbn; [constructor |].
  destruct (Bool.eqb (snd t) side); cbn; [constructor |]; done.
Qed.

Lemma liquidation_volume_nonneg (side : bool) (liqs : list (Q * bool)) :
  Forall (fun l => 0 <= fst l) liqs ->
  0 <= OrderFlow.liquidation_volume side liqs.
Proof.
  intros H. apply py_sum_nonneg.
  induction H as [| t l Ht _ IH]; cbn; [constructor |].
  destruct (Bool.eqb (snd t) side); cbn; [constructor |]; done.
Qed.

Lemma deque_append_Forall {A : Type} (P : A -> Prop) (n : nat) (d : list A) (x : A) :
  Forall P d -> P x -> Forall P (OrderFlow.deque_append n d x).
Proof.
  intros Hd Hx. unfold OrderFlow.deque_append.
  apply Forall_drop, Forall_app. split; [done | by constructor].
Qed.

Lemma apply_update_nonneg (a : OrderFlow.t) (u : OrderFlow.update) :
  OrderFlow.nonneg_windows a -> 0 <= OrderFlow.update_quantity u ->
  OrderFlow.nonneg_windows (OrderFlow.apply_update a u).
Proof.
  intros [Ht Hl] Hu. destruct u as [p q m | q s]; cbn in *.
  - split; [| done]. by apply deque_append_Forall.
  - split; [done |]. by apply deque_append_Forall.
Qed.

Lemma fold_updates_nonneg (us : list OrderFlow.update) (a : OrderFlow.t) :
  OrderFlow.nonneg_windows a ->
  Forall (fun u => 0 <= OrderFlow.update_quantity u) us ->
  OrderFlow.nonneg_windows (fold_left OrderFlow.apply_update us a).
Proof.
  intros Ha Hus. revert a Ha.
  induction Hus as [| u us Hu _ IH]; intros a Ha; cbn; [done |].
  apply IH. by apply apply_update_nonneg.
Qed.

Lemma ratio_bounds (x y : Q) :
  0 <= x -> 0 <= y -> ~ x + y == 0 -> -1 <= (x - y) / (x + y) <= 1.
Proof.
  intros Hx Hy Hne.
  assert (Hpos : 0 < x + y) by lra.
  split.
  - apply Qle_shift_div_l; [done | lra].
  - apply Qle_shift_div_r; [done | lra].
Qed.

Lemma guarded_ratio (d t : Q) :
  (~ t == 0 -> (if Py.truthy t then d / t else 0.0) == d / t)
  /\ (t == 0 -> (if Py.truthy t then d / t else 0.0) == 0).
Proof.
  unfold Py.truthy.
  destruct (Qeq_bool t 0) eqn:E; cbn.
  - apply Qeq_bool_iff in E. split; [intros Hne; contradiction | reflexivity].
  - apply Qeq_bool_neq in E. split; [reflexivity | intros Hz; contradiction].
Qed.

End OrderFlowBounds.

(** C6, as amended.  After any sequence of trade and liquidation updates,
    [snapshot] returns imbalance = (buy - sell) / (buy + sell), or 0 when
    that total is 0 and in particular when no trade is recorded, and
    liquidation_pressure = (short_liq - long_liq) / (long_liq + short_liq),
    or 0 when that total is 0.  When no update carried a negative quantity,
    both values lie in [-1, 1]. *)
Theorem snapshot_imbalance_pressure (n : nat) (us : list OrderFlow.update) :
  let a := OrderFlow.run n us in
  let s := OrderFlow.snapshot a in
  let long_liq := OrderFlow.liquidation_volume true (OrderFlow._liquidations a) in
  let short_liq := OrderFlow.liquidation_volume false (OrderFlow._liquidations a) in
  (~ (buy_volume s + sell_volume s == 0)%Q ->
     (imbalance s == (buy_volume s - sell_volume s) / (buy_volume s + sell_volume s))%Q)
  /\ ((buy_volume s + sell_volume s == 0)%Q -> (imbalance s == 0)%Q)
  /\ (OrderFlow._trades a = [] -> (imbalance s == 0)%Q)
  /\ (~ (long_liq + short_liq == 0)%Q ->
     (liquidation_pressure s == (short_liq - long_liq) / (long_liq + short_liq))%Q)
  /\ ((long_liq + short_liq == 0)%Q -> (liquidation_pressure s == 0)%Q)
  /\ (Forall (fun u => 0 <= OrderFlow.update_quantity u)%Q us ->
      (-1 <= imbalance s <= 1)%Q /\ (-1 <= liquidation_pressure s <= 1)%Q).
Proof.
  intros a s long_liq short_liq.
  subst s. cbn [OrderFlow.snapshot buy_volume sell_volume imbalance liquidation_pressure].
  fold long_liq short_liq.
  set (buy := OrderFlow.trade_volume true (OrderFlow._trades a)).
  set (sell := OrderFlow.trade_volume false (OrderFlow._trades a)).
  destruct (guarded_ratio (buy - sell) (buy + sell)) as [Hi1 Hi0].
  destruct (guarded_ratio (short_liq - long_liq) (long_liq + short_liq)) as [Hp1 Hp0].
  repeat (split; [done |]).
  split.
  { intros Hnil. apply Hi0. subst buy sell. rewrite Hnil. reflexivity. }
  repeat (split; [done |]).
  intros Hus.
  assert (Hinv : OrderFlow.nonneg_windows a).
  { apply fold_updates_nonneg; [| done]. split; constructor. }
  destruct Hinv as [Ht Hl].
  pose proof (trade_volume_nonneg true _ Ht) as Hbuy.
  pose proof (trade_volume_nonneg false _ Ht) as Hsell.
  pose proof (liquidation_volume_nonneg true _ Hl) as Hlong.
  pose proof (liquidation_volume_nonneg false _ Hl) as Hshort.
  fold buy in Hbuy. fold sell in Hsell. fold long_liq in Hlong. fold short_liq in Hshort.
  split.
  - destruct (Qeq_dec (buy + sell) 0) as [Hz | Hnz].
    + rewrite (Hi0 Hz). lra.
    + rewrite (Hi1 Hnz). by apply ratio_bounds.
  - destruct (Qeq_dec (long_liq + short_liq) 0) as [Hz | Hnz].
    + rewrite (Hp0 Hz). lra.
    + rewrite (Hp1 Hnz).
      assert (Hsw : (~ short_liq + long_liq == 0)%Q) by (intros E; apply Hnz; lra).
      pose proof (ratio_bounds short_liq long_liq Hshort Hlong Hsw) as Hb.
      assert (Heq : (long_liq + short_liq == short_liq + long_liq)%Q) by ring.
      rewrite Heq. exact Hb.
Qed.

Lemma snapshot_imbalance_pressure_witness :
  let us := [OrderFlow.Trade 100 3 false; OrderFlow.Trade 101 1 true;
             OrderFlow.Liquidation 2 "buy"; OrderFlow.Liquidation 6 "SELL"] in
  let s := OrderFlow.snapshot (OrderFlow.run 120 us) in
  ((-1 <= imbalance s <= 1)%Q /\ (-1 <= liquidation_pressure s <= 1)%Q)
  /\ (imbalance s == 0.5)%Q /\ (liquidation_pressure s == 0.5)%Q.
Proof.
  intros us s. split.
  - apply (snapshot_imbalance_pressure 120 us).
    subst us. repeat constructor; cbn; discriminate.
  - split; reflexivity.
Defined.

(** C6, the claim as stated fails: a trade update with a negative quantity
    is accepted and moves the imbalance out of [-1, 1]. *)
Lemma snapshot_imbalance_out_of_range :
  let us := [OrderFlow.Trade 1 3 false; OrderFlow.Trade 1 (-1) true] in
  let s := OrderFlow.snapshot (OrderFlow.run 120 us) in
  (imbalance s == 2)%Q /\ ~ (-1 <= imbalance s <= 1)%Q.
Proof.
  intros us s. split; [reflexivity |].
  intros [_ H]. vm_compute in H. apply H. reflexivity.
Qed.

(** ** Portfolio manager *)

(** C9. For a symbol without a registered position, [remove_position],
    [update_stop] and [update_take_profit] return normally and leave the
    portfolio exactly as it was. *)
Theorem portfolio_absent_symbol_noop (pm : Portfolio.t) (sym : string) (x : Q) :
  Portfolio.get_position pm sym = None ->
  Portfolio.remove_position pm sym = pm
  /\ Portfolio.update_stop pm sym x = pm
  /\ Portfolio.update_take_profit pm sym x = pm.
Proof.
  unfold Portfolio.get_position, Portfolio.remove_position, Portfolio.update_stop,
    Portfolio.update_take_profit.
  intros ->. done.
Qed.

Lemma portfolio_absent_symbol_noop_witness :
  let p := {| Portfolio.symbol := "BTCUSDT"; Portfolio.direction := "long";
              Portfolio.entry_price := 30000; Portfolio.quantity := 2;
              Portfolio.stop_loss := 29750; Portfolio.take_profit := 30400;
              Portfolio.trailing_active := true; Portfolio.notional := 60000;
              Portfolio.cost := 12000 |} in
  let pm := Portfolio.add_position (Portfolio.init 1) p in
  Portfolio.remove_position pm "ETHUSDT" = pm
  /\ Portfolio.update_stop pm "ETHUSDT" 1 = pm
  /\ Portfolio.update_take_profit pm "ETHUSDT" 1 = pm.
Proof.
  intros p pm.
  apply (portfolio_absent_symbol_noop pm "ETHUSDT" 1).
  reflexivity.
Defined.

(** C10. [add_position] stores the position under its symbol whatever the
    state: it overwrites a position already held for that symbol and never
    looks at [can_open] or the limit.  So a portfolio already holding
    [max_positions] positions grows to [max_positions + 1] when a position
    for a new symbol is added; the count stays within the limit when the
    addition is gated by [can_open]; and there is always at most one
    position per symbol, the dictionary being keyed by symbol. *)
Theorem add_position_unconditional :
  (forall (pm : Portfolio.t) (p : Portfolio.Position),
      Portfolio.positions (Portfolio.add_position pm p)
        = <[Portfolio.symbol p := p]> (Portfolio.positions pm)
      /\ Portfolio._max_positions (Portfolio.add_position pm p) = Portfolio._max_positions pm
      /\ Portfolio.get_position (Portfolio.add_position pm p) (Portfolio.symbol p) = Some p
      /\ (forall sym, sym <> Portfolio.symbol p ->
            Portfolio.get_position (Portfolio.add_position pm p) sym
              = Portfolio.get_position pm sym)
      /\ (is_Some (Portfolio.get_position pm (Portfolio.symbol p)) ->
            Portfolio.count (Portfolio.add_position pm p) = Portfolio.count pm))
  /\ (exists (pm : Portfolio.t) (p : Portfolio.Position),
        Portfolio.count pm = Portfolio._max_positions pm
        /\ Portfolio.get_position pm (Portfolio.symbol p) = None
        /\ Portfolio.can_open pm (Portfolio.symbol p) = false
        /\ Portfolio.count (Portfolio.add_position pm p)
             = (Portfolio._max_positions pm + 1)%Z)
  /\ (forall (pm : Portfolio.t) (p : Portfolio.Position),
        Portfolio.can_open pm (Portfolio.symbol p) = true ->
        (Portfolio.count (Portfolio.add_position pm p) <= Portfolio._max_positions pm)%Z)
  /\ (forall (pm : Portfolio.t) (p : Portfolio.Position),
        Portfolio.well_keyed pm -> Portfolio.well_keyed (Portfolio.add_position pm p))
  /\ (forall (pm : Portfolio.t) (k1 k2 : string) (p1 p2 : Portfolio.Position),
        Portfolio.well_keyed pm ->
        Portfolio.get_position pm k1 = Some p1 ->
        Portfolio.get_position pm k2 = Some p2 ->
        Portfolio.symbol p1 = Portfolio.symbol p2 -> k1 = k2 /\ p1 = p2).
Proof.
  split; [| split; [| split; [| split]]].
  - intros pm p. unfold Portfolio.get_position, Portfolio.count. cbn.
    split; [done |]. split; [done |].
    split; [by rewrite lookup_insert_eq |].
    split.
    + intros sym Hne. by rewrite lookup_insert_ne.
    + intros Hsome. by rewrite map_size_insert_Some.
  - exists (Portfolio.add_position (Portfolio.init 1)
              {| Portfolio.symbol := "BTCUSDT"; Portfolio.direction := "long";
                 Portfolio.entry_price := 30000; Portfolio.quantity := 2;
                 Portfolio.stop_loss := 29750; Portfolio.take_profit := 30400;
                 Portfolio.trailing_active := true; Portfolio.notional := 60000;
                 Portfolio.cost := 12000 |}),
           {| Portfolio.symbol := "ETHUSDT"; Portfolio.direction := "short";
              Portfolio.entry_price := 2000; Portfolio.quantity := 1;
              Portfolio.stop_loss := 2100; Portfolio.take_profit := 1900;
              Portfolio.trailing_active := false; Portfolio.notional := 2000;
              Portfolio.cost := 400 |}.
    repeat split; vm_compute; reflexivity.
  - intros pm p. unfold Portfolio.can_open, Portfolio.count. cbn.
    destruct (Portfolio.positions pm !! Portfolio.symbol p) eqn:Hlook; [discriminate |].
    intros Hlt. apply Z.ltb_lt in Hlt.
    rewrite map_size_insert_None by done. lia.
  - intros pm p Hwk k q. cbn.
    destruct (decide (Portfolio.symbol p = k)) as [<- | Hne].
    + rewrite lookup_insert_eq. by intros [= <-].
    + rewrite lookup_insert_ne by done. apply Hwk.
  - intros pm k1 k2 p1 p2 Hwk H1 H2 Hsym.
    unfold Portfolio.get_position in *.
    assert (k1 = k2) as <-.
    { rewrite <- (Hwk _ _ H1), <- (Hwk _ _ H2). done. }
    split; [done | congruence].
Qed.

(** ** Exchange client: order normalisation *)

Section RoundToStep.

Local Open Scope Q_scope.

Lemma Qtrunc_nonneg (x : Q) : 0 <= x -> Binance.Qtrunc x = Qfloor x.
Proof.
  destruct x as [n d]. unfold Qle, Binance.Qtrunc, Qfloor. cbn. intros H.
  apply Z.quot_div_nonneg; lia.
Qed.

Lemma Qtrunc_nonpos (x : Q) : x <= 0 -> (Binance.Qtrunc x <= 0)%Z.
Proof.
  destruct x as [n d]. unfold Qle, Binance.Qtrunc. cbn. intros H.
  assert (Hn : (n <= 0)%Z) by lia.
  pose proof (Z.mul_quot_ge n (Z.pos d) Hn) as Hq.
  assert (Hd : Z.pos d <> 0%Z) by lia. specialize (Hq Hd). nia.
Qed.

Lemma round_to_step_value (q step : Q) :
  0 < step ->
  Binance._round_to_step q (Some step) == inject_Z (Binance.Qtrunc (q / step)) * step.
Proof.
  intros Hs. unfold Binance._round_to_step.
  apply py_leb_gt in Hs. rewrite Hs. apply Qred_correct.
Qed.

Lemma inject_Z_nonpos (z : Z) : (z <= 0)%Z -> inject_Z z <= 0.
Proof. intros H. change 0 with (inject_Z 0). by rewrite <- Zle_Qle. Qed.

(** A positive result of the rounding is the largest multiple of the step
    that does not exceed the value. *)
Lemma round_to_step_down (q step : Q) :
  0 < step -> 0 < Binance._round_to_step q (Some step) ->
  exists k : Z,
    Binance._round_to_step q (Some step) == inject_Z k * step
    /\ inject_Z k * step <= q /\ q < inject_Z k * step + step.
Proof.
  intros Hs Hr. pose proof (round_to_step_value q step Hs) as Hv.
  exists (Binance.Qtrunc (q / step)). split; [exact Hv |].
  rewrite Hv in Hr.
  assert (Hx : 0 <= q / step).
  { destruct (Qlt_le_dec (q / step) 0) as [Hneg | Hpos]; [| done].
    exfalso. assert (Hle : q / step <= 0) by lra.
    apply Qtrunc_nonpos, inject_Z_nonpos in Hle.
    assert (inject_Z (Binance.Qtrunc (q / step)) * step <= 0); [| lra].
    rewrite <- (Qmult_0_l step). apply Qmult_le_compat_r; lra. }
  rewrite (Qtrunc_nonneg _ Hx).
  assert (Hq : q == q / step * step) by (field; lra).
  pose proof (Qfloor_le (q / step)) as Hlo.
  pose proof (Qlt_floor (q / step)) as Hhi.
  rewrite inject_Z_plus in Hhi. change (inject_Z 1) with 1 in Hhi.
  split.
  - rewrite Hq at 2. apply Qmult_le_compat_r; lra.
  - rewrite Hq at 1.
    assert (Heq : inject_Z (Qfloor (q / step)) * step + step
                  == (inject_Z (Qfloor (q / step)) + 1) * step) by ring.
    rewrite Heq. apply Qmult_lt_compat_r; lra.
Qed.

End RoundToStep.

(** ** Exchange client: which calls reach the exchange *)

Ltac eff_unfold :=
  unfold Eff.bind, Eff.gets, Eff.modify, Eff.ret, Eff.raise, Eff.zoom in *.

Ltac eff_cases :=
  repeat match goal with
         | |- context [match ?x with _ => _ end] => destruct x eqn:?
         | |- context [if ?b then _ else _] => destruct b eqn:?
         end.

Lemma orders_sent_log (c : Binance.Call) (cl : Binance.Client) :
  Binance.orders_sent (Binance.log c cl)
  = Binance.orders_sent cl ++ match c with Binance.CreateOrder p => [p] | _ => [] end.
Proof.
  unfold Binance.orders_sent, Binance.log. cbn. rewrite omap_app. cbn.
  destruct c; reflexivity.
Qed.

Lemma fetch_symbol_filters_frame (ex : Binance.Exchange) (key : string)
    (cl cl' : Binance.Client) (r : Eff.result Binance.Filters) :
  Binance.fetch_symbol_filters ex key cl = (r, cl') ->
  Binance.orders_sent cl' = Binance.orders_sent cl
  /\ Binance._dual_position_mode cl' = Binance._dual_position_mode cl.
Proof.
  unfold Binance.fetch_symbol_filters. eff_unfold. cbn.
  eff_cases; intros [= <- <-]; unfold Binance.orders_sent; cbn;
    rewrite ?omap_app; cbn; rewrite ?app_nil_r; split; reflexivity.
Qed.

Lemma get_symbol_filters_frame (ex : Binance.Exchange) (sym : string)
    (cl cl' : Binance.Client) (r : Eff.result Binance.Filters) :
  Binance._get_symbol_filters ex sym cl = (r, cl') ->
  Binance.orders_sent cl' = Binance.orders_sent cl
  /\ Binance._dual_position_mode cl' = Binance._dual_position_mode cl.
Proof.
  unfold Binance._get_symbol_filters. eff_unfold. cbn.
  eff_cases; try (intros [= <- <-]; split; reflexivity);
    apply fetch_symbol_filters_frame.
Qed.

Lemma place_order_inv (ex : Binance.Exchange) (o : Binance.OrderRequest)
    (cl cl' : Binance.Client) (r : Eff.result Binance.OrderRequest) :
  Binance.place_order ex o cl = (r, cl') ->
  (exists e, Binance._get_symbol_filters ex (Binance.symbol o) cl = (Eff.Raise e, cl')
             /\ r = Eff.Raise e)
  \/ (exists filters cl1,
        Binance._get_symbol_filters ex (Binance.symbol o) cl = (Eff.Ok filters, cl1)
        /\ match Binance._apply_symbol_filters o (Binance.initial_params o) filters with
           | Eff.Raise e => r = Eff.Raise e /\ cl' = cl1
           | Eff.Ok (o', params') =>
               cl' = Binance.log (Binance.CreateOrder params') cl1
               /\ r = if Binance.futures_create_order ex (Binance.calls cl1) params'
                      then Eff.Ok o' else Eff.Raise Eff.ExchangeError
           end).
Proof.
  unfold Binance.place_order, Eff.bind at 1.
  destruct (Binance._get_symbol_filters ex (Binance.symbol o) cl) as [[filters | e] cl1] eqn:Hget.
  - intros H. right. exists filters, cl1. split; [done |].
    destruct (Binance._apply_symbol_filters o (Binance.initial_params o) filters)
      as [[o' params'] | e]; eff_unfold; cbn in H.
    + destruct (Binance.futures_create_order ex (Binance.calls cl1) params');
        injection H as <- <-; done.
    + injection H as <- <-; done.
  - intros [= <- <-]. left. by exists e.
Qed.

(** C7, as amended.  For an order with a non-zero quantity on an instrument
    whose filters hold a lot-size filter with a positive step size,
    [place_order] cuts the quantity to a multiple of the step (0.123456
    with step 0.01 becomes 0.12); when the result is not positive or is
    below the minimum quantity it raises and nothing is sent; otherwise the
    one order sent carries the rounded quantity, the largest multiple of the
    step not above the requested quantity. *)
Theorem place_order_rounds_and_rejects
    (ex : Binance.Exchange) (cl cl1 : Binance.Client) (order : Binance.OrderRequest)
    (filters : Binance.Filters) (lf : Binance.Filter) (step : Q) :
  Py.truthy (Binance.quantity order) = true ->
  Binance._get_symbol_filters ex (Binance.symbol order) cl = (Eff.Ok filters, cl1) ->
  Binance._select_lot_filter filters (Binance.order_type order) = Some lf ->
  Binance.stepSize lf = Some step ->
  (0 < step)%Q ->
  let rounded := Binance._round_to_step (Binance.quantity order) (Some step) in
  let rejected :=
    (rounded <= 0)%Q \/ exists m, Binance.minQty lf = Some m /\ (rounded < m)%Q in
  (rounded == inject_Z (Binance.Qtrunc (Binance.quantity order / step)) * step)%Q
  /\ ((Binance.quantity order == 0.123456)%Q -> (step == 0.01)%Q -> (rounded == 0.12)%Q)
  /\ (rejected ->
      exists cl', Binance.place_order ex order cl = (Eff.Raise Eff.ValueError, cl')
                  /\ Binance.orders_sent cl' = Binance.orders_sent cl)
  /\ (~ rejected ->
      exists r cl' p,
        Binance.place_order ex order cl = (r, cl')
        /\ Binance.orders_sent cl' = Binance.orders_sent cl ++ [p]
        /\ Binance.p_quantity p = Some rounded
        /\ (0 < rounded)%Q
        /\ (forall m, Binance.minQty lf = Some m -> (m <= rounded)%Q)
        /\ exists k : Z,
             (rounded == inject_Z k * step)%Q
             /\ (inject_Z k * step <= Binance.quantity order)%Q
             /\ (Binance.quantity order < inject_Z k * step + step)%Q).
Proof.
  intros Hq Hget Hlot Hstep Hpos rounded rejected.
  pose proof (round_to_step_value (Binance.quantity order) step Hpos) as Hval.
  fold rounded in Hval.
  destruct (get_symbol_filters_frame _ _ _ _ _ Hget) as [Hsent _].
  destruct (Binance.place_order ex order cl) as [r cl'] eqn:Hplace.
  apply place_order_inv in Hplace as [(e & Hget' & _) | (filters' & cl1' & Hget' & Hplace)];
    [congruence |].
  rewrite Hget in Hget'. injection Hget' as <- <-.
  unfold Binance._apply_symbol_filters in Hplace.
  rewrite Hlot in Hplace. cbn [Binance.initial_params Binance.p_quantity] in Hplace.
  rewrite Hq, Hstep in Hplace. fold rounded in Hplace.
  split; [exact Hval |]. split.
  { intros Hqty Hst. rewrite Hval.
    assert (Hx : (Binance.quantity order / step == 12.3456)%Q).
    { rewrite Hqty, Hst. reflexivity. }
    assert (Hnn : (0 <= Binance.quantity order / step)%Q) by (rewrite Hx; discriminate).
    rewrite (Qtrunc_nonneg _ Hnn), (Qfloor_comp _ _ Hx), Hst. reflexivity. }
  split.
  - intros Hrej. exists cl'.
    destruct (Py.leb rounded 0) eqn:Hle.
    + destruct Hplace as [-> ->]. done.
    + apply py_leb_gt in Hle. destruct Hrej as [Hr | (m & Hm & Hlt)]; [lra |].
      rewrite Hm in Hplace. apply py_ltb_lt in Hlt. rewrite Hlt in Hplace.
      destruct Hplace as [-> ->]. done.
  - intros Hok. exists r, cl'.
    destruct (Py.leb rounded 0) eqn:Hle.
    { exfalso. apply Hok. left. by apply py_leb_le. }
    apply py_leb_gt in Hle.
    assert (Hmin : forall m, Binance.minQty lf = Some m -> (m <= rounded)%Q).
    { intros m Hm. destruct (Qlt_le_dec rounded m) as [Hlt | Hge]; [| done].
      exfalso. apply Hok. right. by exists m. }
    assert (Hnot : match Binance.minQty lf with
                   | Some m => Py.ltb rounded m
                   | None => false
                   end = false).
    { destruct (Binance.minQty lf) as [m |] eqn:Hm; [| done].
      apply py_ltb_ge. by apply Hmin. }
    rewrite Hnot in Hplace. cbn in Hplace. destruct Hplace as [-> _].
    eexists. split; [reflexivity |].
    split; [rewrite orders_sent_log, Hsent; reflexivity |].
    split; [reflexivity |]. split; [done |]. split; [done |].
    by apply round_to_step_down.
Qed.

Lemma apply_symbol_filters_fields (o o' : Binance.OrderRequest) (p p' : Binance.Params)
    (filters : Binance.Filters) :
  Binance._apply_symbol_filters o p filters = Eff.Ok (o', p') ->
  Binance.p_symbol p' = Binance.p_symbol p
  /\ Binance.p_side p' = Binance.p_side p
  /\ Binance.p_type p' = Binance.p_type p
  /\ Binance.p_reduceOnly p' = Binance.p_reduceOnly p
  /\ Binance.p_positionSide p' = Binance.p_positionSide p.
Proof.
  unfold Binance._apply_symbol_filters.
  destruct (Binance.p_quantity p) as [qv |];
    [destruct (Binance._select_lot_filter filters (Binance.order_type o)) as [lf |];
     [destruct (Py.leb _ 0); [discriminate |];
      destruct (match Binance.minQty lf with Some _ => _ | None => _ end);
      [discriminate |] |] |];
    intros [= <- <-]; cbn; done.
Qed.

Lemma change_leverage_frame (ex : Binance.Exchange) (sym : string) (lev : Z)
    (cl cl' : Binance.Client) (r : Eff.result unit) :
  Binance.change_leverage ex sym lev cl = (r, cl') ->
  Binance.orders_sent cl' = Binance.orders_sent cl.
Proof.
  unfold Binance.change_leverage. eff_unfold. cbn.
  eff_cases; intros [= <- <-]; by rewrite orders_sent_log, app_nil_r.
Qed.

Lemma uses_dual_position_mode_frame (ex : Binance.Exchange) (cl : Binance.Client) :
  exists b cl',
    Binance.uses_dual_position_mode ex cl = (Eff.Ok b, cl')
    /\ Binance.orders_sent cl' = Binance.orders_sent cl.
Proof.
  unfold Binance.uses_dual_position_mode. eff_unfold. cbn.
  destruct (Binance._dual_position_mode cl) as [b |].
  - by exists b, cl.
  - eexists _, _. split; [reflexivity |].
    unfold Binance.orders_sent. cbn. rewrite omap_app. cbn. by rewrite app_nil_r.
Qed.

(** ** Trade engine *)

Lemma ensure_leverage_frame (ex : Binance.Exchange) (st st' : TradeEngine.t)
    (r : Eff.result unit) :
  TradeEngine._ensure_leverage ex st = (r, st') ->
  TradeEngine._portfolio st' = TradeEngine._portfolio st
  /\ TradeEngine._symbol st' = TradeEngine._symbol st
  /\ TradeEngine._risk st' = TradeEngine._risk st
  /\ TradeEngine._dual_side_position st' = TradeEngine._dual_side_position st
  /\ Binance.orders_sent (TradeEngine._client st')
     = Binance.orders_sent (TradeEngine._client st).
Proof.
  unfold TradeEngine._ensure_leverage, TradeEngine.on_client. eff_unfold.
  destruct (TradeEngine._leverage_synced st); [intros [= <- <-]; done |].
  destruct (Binance.change_leverage ex (TradeEngine._symbol st)
              (RiskManager._leverage (TradeEngine._risk st)) (TradeEngine._client st))
    as [[[] | e] cl'] eqn:Hch;
    apply change_leverage_frame in Hch; intros [= <- <-]; cbn; done.
Qed.

Lemma position_side_for_frame (ex : Binance.Exchange) (direction : string)
    (st : TradeEngine.t) :
  exists ps st',
    TradeEngine._position_side_for ex direction st = (Eff.Ok ps, st')
    /\ TradeEngine._portfolio st' = TradeEngine._portfolio st
    /\ TradeEngine._symbol st' = TradeEngine._symbol st
    /\ TradeEngine._risk st' = TradeEngine._risk st
    /\ TradeEngine._leverage_synced st' = TradeEngine._leverage_synced st
    /\ Binance.orders_sent (TradeEngine._client st')
       = Binance.orders_sent (TradeEngine._client st)
    /\ (ps = None
        \/ ps = Some (if String.eqb direction "long" then "LONG"%string else "SHORT"%string)).
Proof.
  unfold TradeEngine._position_side_for, TradeEngine._is_dual_position_mode,
    TradeEngine.on_client. eff_unfold.
  destruct (negb (TradeEngine.is_long_short direction)).
  { exists None, st. repeat split; try done. by left. }
  destruct (TradeEngine._dual_side_position st) as [b |].
  - destruct b; cbn; eexists _, st; repeat split; try done; [by right | by left].
  - destruct (uses_dual_position_mode_frame ex (TradeEngine._client st))
      as (b & cl' & Hdual & Hsent).
    rewrite Hdual. destruct b; cbn; eexists _, _;
      (split; [reflexivity |]); cbn; repeat split; try done; [by right | by left].
Qed.

Lemma close_position_inv (ex : Binance.Exchange) (p : Portfolio.Position)
    (st st' : TradeEngine.t) (r : Eff.result unit) :
  TradeEngine._close_position ex p st = (r, st') ->
  TradeEngine._portfolio st' = TradeEngine._portfolio st
  /\ TradeEngine._symbol st' = TradeEngine._symbol st
  /\ (r = Eff.Ok tt ->
      exists cp,
        Binance.orders_sent (TradeEngine._client st')
          = Binance.orders_sent (TradeEngine._client st) ++ [cp]
        /\ Binance.p_type cp = "MARKET"%string
        /\ Binance.p_side cp
             = (if String.eqb (Portfolio.direction p) "long" then "SELL" else "BUY")%string
        /\ ((Binance.p_reduceOnly cp = true /\ Binance.p_positionSide cp = None)
            \/ Binance.p_positionSide cp
                 = Some (if String.eqb (Portfolio.direction p) "long"
                         then "LONG" else "SHORT")%string)).
Proof.
  unfold TradeEngine._close_position. unfold Eff.bind at 1.
  destruct (position_side_for_frame ex (Portfolio.direction p) st)
    as (ps & st1 & Hps & Hpf & Hsym & _ & _ & Hsent & Hside).
  rewrite Hps. unfold TradeEngine.on_client. eff_unfold.
  destruct (Binance.place_order ex (TradeEngine.close_order (TradeEngine._symbol st1) p ps)
              (TradeEngine._client st1)) as [ro cl'] eqn:Hplace.
  intros H.
  assert (Hst' : st' = TradeEngine.set_client cl' st1) by (destruct ro; congruence).
  assert (Hr : r = match ro with Eff.Ok _ => Eff.Ok tt | Eff.Raise e => Eff.Raise e end)
    by (destruct ro; congruence).
  subst st'. cbn. split; [done |]. split; [done |].
  intros Hok. rewrite Hok in Hr. destruct ro as [o' | e]; [| discriminate].
  apply place_order_inv in Hplace as [(e & _ & He) | (filters & cl1 & Hget & Happly)];
    [discriminate |].
  apply get_symbol_filters_frame in Hget as [Hsent1 _].
  destruct (Binance._apply_symbol_filters _ _ filters) as [[o1 params1] | e] eqn:Hf;
    [| destruct Happly; discriminate].
  destruct Happly as [-> _].
  apply apply_symbol_filters_fields in Hf as (_ & Hs & Ht & Hro & Hpside).
  exists params1. rewrite orders_sent_log, Hsent1, Hsent.
  split; [done |]. split; [by rewrite Ht |]. split; [by rewrite Hs |].
  rewrite Hro, Hpside. cbn.
  destruct Hside as [-> | ->]; [by left | right].
  by destruct (String.eqb (Portfolio.direction p) "long").
Qed.

Lemma string_eqb_neq (a b : string) : a <> b -> String.eqb a b = false.
Proof. intros H. by apply String.eqb_neq. Qed.




(** C3, as amended.  With no open position for the engine's symbol, a
    "flat" decision changes neither the portfolio nor the orders sent and,
    once the leverage is synchronised, nothing at all: [process_signal]
    returns the "nothing to do" report and the state it was given.  On the
    first cycle of an engine the leverage is synchronised first: the engine
    calls [change_leverage] and, when the exchange accepts, sets its
    [_leverage_synced] flag before it returns the same report. *)
Theorem process_signal_flat_no_position
    (ex : Binance.Exchange) (st : TradeEngine.t) (decision : SignalEngine.SignalDecision)
    (price : Q) (volatility : VolatilitySnapshot) :
  Portfolio.get_position (TradeEngine._portfolio st) (TradeEngine._symbol st) = None ->
  SignalEngine.direction decision = "flat"%string ->
  let nothing := TradeEngine.report false false "Nada a fazer - sinal neutro" in
  let run := TradeEngine.process_signal ex decision price volatility st in
  let sym := Py.upper (TradeEngine._symbol st) in
  let lev := RiskManager._leverage (TradeEngine._risk st) in
  let called :=
    TradeEngine.set_client
      (Binance.log (Binance.ChangeLeverage sym lev) (TradeEngine._client st)) st in
  (TradeEngine._leverage_synced st = true -> run = (Eff.Ok nothing, st))
  /\ (TradeEngine._leverage_synced st = false ->
      Binance.futures_change_leverage ex (Binance.calls (TradeEngine._client st)) sym lev = true ->
      run = (Eff.Ok nothing, TradeEngine.set_leverage_synced true called))
  /\ (TradeEngine._leverage_synced st = false ->
      Binance.futures_change_leverage ex (Binance.calls (TradeEngine._client st)) sym lev = false ->
      run = (Eff.Raise Eff.ExchangeError, called))
  /\ TradeEngine._portfolio (snd run) = TradeEngine._portfolio st
  /\ Binance.orders_sent (TradeEngine._client (snd run))
     = Binance.orders_sent (TradeEngine._client st)
  /\ TradeEngine._dual_side_position (snd run) = TradeEngine._dual_side_position st.
Proof.
  intros Hpos Hflat nothing run sym lev called.
  assert (Hsynced : TradeEngine._leverage_synced st = true -> run = (Eff.Ok nothing, st)).
  { intros Hs. subst run. unfold TradeEngine.process_signal, TradeEngine._ensure_leverage.
    eff_unfold. rewrite Hs, Hpos, Hflat. reflexivity. }
  assert (Haccept : TradeEngine._leverage_synced st = false ->
            Binance.futures_change_leverage ex (Binance.calls (TradeEngine._client st)) sym lev
              = true ->
            run = (Eff.Ok nothing, TradeEngine.set_leverage_synced true called)).
  { intros Hs Hacc. subst run. unfold TradeEngine.process_signal, TradeEngine._ensure_leverage,
      TradeEngine.on_client, Binance.change_leverage.
    eff_unfold. rewrite Hs. cbn. fold sym lev. rewrite Hacc. cbn.
    unfold Portfolio.get_position in Hpos. rewrite Hpos, Hflat. reflexivity. }
  assert (Hreject : TradeEngine._leverage_synced st = false ->
            Binance.futures_change_leverage ex (Binance.calls (TradeEngine._client st)) sym lev
              = false ->
            run = (Eff.Raise Eff.ExchangeError, called)).
  { intros Hs Hrej. subst run. unfold TradeEngine.process_signal, TradeEngine._ensure_leverage,
      TradeEngine.on_client, Binance.change_leverage.
    eff_unfold. rewrite Hs. cbn. fold sym lev. rewrite Hrej. reflexivity. }
  repeat (split; [done |]).
  destruct (TradeEngine._leverage_synced st) eqn:Hs.
  - rewrite (Hsynced eq_refl). done.
  - destruct (Binance.futures_change_leverage ex (Binance.calls (TradeEngine._client st)) sym lev)
      eqn:Hacc.
    + rewrite (Haccept eq_refl eq_refl). subst called.
      cbn [snd TradeEngine.set_leverage_synced TradeEngine.set_client TradeEngine._portfolio
             TradeEngine._client TradeEngine._dual_side_position].
      by rewrite orders_sent_log, app_nil_r.
    + rewrite (Hreject eq_refl eq_refl). subst called.
      cbn [snd TradeEngine.set_client TradeEngine._portfolio TradeEngine._client
             TradeEngine._dual_side_position].
      by rewrite orders_sent_log, app_nil_r.
Qed.

Lemma process_signal_flat_no_position_witness :
  let st := TradeEngine.set_leverage_synced true Fixtures.fresh_engine in
  TradeEngine.process_signal Fixtures.accepting_exchange (Fixtures.decision "flat")
      30000 Fixtures.calm st
  = (Eff.Ok (TradeEngine.report false false "Nada a fazer - sinal neutro"), st).
Proof.
  intros st.
  assert (Hpos : Portfolio.get_position (TradeEngine._portfolio st) (TradeEngine._symbol st)
                 = None) by reflexivity.
  assert (Hflat : SignalEngine.direction (Fixtures.decision "flat") = "flat"%string)
    by reflexivity.
  destruct (process_signal_flat_no_position Fixtures.accepting_exchange st
              (Fixtures.decision "flat") 30000 Fixtures.calm Hpos Hflat) as [Hsynced _].
  apply Hsynced. reflexivity.
Defined.

(** C3, the claim as stated fails: on a fresh engine the first "flat"
    decision with no position does change the engine, which sets its
    leverage flag after a call to the exchange. *)
Lemma process_signal_flat_changes_fresh_engine :
  let st := Fixtures.fresh_engine in
  let run := TradeEngine.process_signal Fixtures.accepting_exchange (Fixtures.decision "flat")
               30000 Fixtures.calm st in
  Portfolio.get_position (TradeEngine._portfolio st) (TradeEngine._symbol st) = None
  /\ fst run = Eff.Ok (TradeEngine.report false false "Nada a fazer - sinal neutro")
  /\ TradeEngine._leverage_synced st = false
  /\ TradeEngine._leverage_synced (snd run) = true
  /\ Binance.calls (TradeEngine._client st) = []
  /\ Binance.calls (TradeEngine._client (snd run)) = [Binance.ChangeLeverage "BTCUSDT" 5]
  /\ snd run <> st.
Proof.
  intros st run. repeat (split; [vm_compute; reflexivity |]).
  intros H. apply (f_equal TradeEngine._leverage_synced) in H. vm_compute in H. discriminate.
Qed.

Lemma place_order_rounds_and_rejects_witness :
  let ex := Fixtures.accepting_exchange in
  let order := Fixtures.market_order 0.123456 in
  let rounded := Binance._round_to_step (Binance.quantity order) (Some 0.01%Q) in
  (rounded == 0.12)%Q
  /\ exists r cl' p,
       Binance.place_order ex order Binance.new_client = (r, cl')
       /\ Binance.orders_sent cl' = Binance.orders_sent Binance.new_client ++ [p]
       /\ Binance.p_quantity p = Some rounded
       /\ (0 < rounded)%Q
       /\ (forall m, Binance.minQty Fixtures.lot_filter = Some m -> (m <= rounded)%Q)
       /\ exists k : Z,
            (rounded == inject_Z k * 0.01)%Q
            /\ (inject_Z k * 0.01 <= Binance.quantity order)%Q
            /\ (Binance.quantity order < inject_Z k * 0.01 + 0.01)%Q.
Proof.
  intros ex order rounded.
  assert (Hq : Py.truthy (Binance.quantity order) = true) by reflexivity.
  assert (Hget : exists cl1 filters,
             Binance._get_symbol_filters ex (Binance.symbol order) Binance.new_client
             = (Eff.Ok filters, cl1)
             /\ Binance._select_lot_filter filters (Binance.order_type order)
                = Some Fixtures.lot_filter).
  { eexists _, _. split; vm_compute; reflexivity. }
  destruct Hget as (cl1 & filters & Hget & Hlot).
  assert (Hstep : Binance.stepSize Fixtures.lot_filter = Some 0.01%Q) by reflexivity.
  assert (Hpos : (0 < 0.01)%Q) by reflexivity.
  destruct (place_order_rounds_and_rejects ex Binance.new_client cl1 order filters
              Fixtures.lot_filter 0.01 Hq Hget Hlot Hstep Hpos)
    as (_ & Hexample & _ & Hsent).
  split; [apply Hexample; reflexivity |].
  apply Hsent. intros [Hle | (m & Hm & Hlt)].
  - vm_compute in Hle. apply Hle. reflexivity.
  - injection Hm as <-. vm_compute in Hlt. discriminate.
Defined.

(** C7, the claim as stated fails.  An order with quantity 0 is sent, with
    no quantity among its parameters, although its quantity rounds to 0; and
    when the instrument has no lot-size filter a quantity is sent as it is,
    here 0.123456, which is no multiple of any step. *)
Lemma place_order_sends_unchecked_quantity :
  let run0 := Binance.place_order Fixtures.accepting_exchange (Fixtures.market_order 0)
                Binance.new_client in
  let run1 := Binance.place_order Fixtures.exchange_without_lot_filter
                (Fixtures.market_order 0.123456) Binance.new_client in
  (Binance._round_to_step 0 (Binance.stepSize Fixtures.lot_filter) <= 0)%Q
  /\ fst run0 = Eff.Ok (Fixtures.market_order 0)
  /\ map Binance.p_quantity (Binance.orders_sent (snd run0)) = [None]
  /\ fst run1 = Eff.Ok (Fixtures.market_order 0.123456)
  /\ map Binance.p_quantity (Binance.orders_sent (snd run1)) = [Some 0.123456%Q].
Proof.
  intros run0 run1. split; [vm_compute; discriminate |].
  repeat split; vm_compute; reflexivity.
Qed.

(** * Further properties of the modelled code *)

(** ** Portfolio manager: sequences of calls *)

Lemma portfolio_step_invariant (pm : Portfolio.t) (o : PortfolioRun.op) :
  (Portfolio.count pm <= Portfolio._max_positions pm)%Z /\ Portfolio.well_keyed pm ->
  (Portfolio.count (PortfolioRun.step pm o)
     <= Portfolio._max_positions (PortfolioRun.step pm o))%Z
  /\ Portfolio.well_keyed (PortfolioRun.step pm o).
Proof.
  intros [Hc Hwk]. destruct o as [p | sym | sym x | sym x]; cbn.
  - destruct (Portfolio.can_open pm (Portfolio.symbol p)) eqn:Hopen; [| done].
    unfold Portfolio.can_open in Hopen.
    destruct (Portfolio.positions pm !! Portfolio.symbol p) eqn:Hl; [discriminate |].
    apply Z.ltb_lt in Hopen.
    unfold Portfolio.count, Portfolio.well_keyed in *. cbn. split.
    + rewrite map_size_insert_None by done. lia.
    + intros k r Hk. apply lookup_insert_Some in Hk as [[<- <-] | [_ Hk]]; [done |].
      by apply Hwk.
  - unfold Portfolio.remove_position.
    destruct (Portfolio.positions pm !! sym) as [q |] eqn:Hl; [| done].
    unfold Portfolio.count, Portfolio.well_keyed in *. cbn. split.
    + rewrite map_size_delete_Some by eauto. lia.
    + intros k r Hk. apply lookup_delete_Some in Hk as [_ Hk]. by apply Hwk.
  - unfold Portfolio.update_stop.
    destruct (Portfolio.positions pm !! sym) as [q |] eqn:Hl; [| done].
    unfold Portfolio.count, Portfolio.well_keyed in *. cbn. split.
    + rewrite map_size_insert_Some by eauto. done.
    + intros k r Hk. apply lookup_insert_Some in Hk as [[<- <-] | [_ Hk]].
      * cbn. by apply Hwk.
      * by apply Hwk.
  - unfold Portfolio.update_take_profit.
    destruct (Portfolio.positions pm !! sym) as [q |] eqn:Hl; [| done].
    unfold Portfolio.count, Portfolio.well_keyed in *. cbn. split.
    + rewrite map_size_insert_Some by eauto. done.
    + intros k r Hk. apply lookup_insert_Some in Hk as [[<- <-] | [_ Hk]].
      * cbn. by apply Hwk.
      * by apply Hwk.
Qed.

(** X1. Starting from an empty portfolio with a non-negative limit, any
    sequence of gated openings, removals and stop or take-profit updates
    keeps the number of positions within the limit and every position
    stored under its own symbol. *)
Theorem portfolio_run_within_limit (max_positions : Z) (ops : list PortfolioRun.op) :
  (0 <= max_positions)%Z ->
  let pm := PortfolioRun.run (Portfolio.init max_positions) ops in
  (Portfolio.count pm <= max_positions)%Z
  /\ Portfolio._max_positions pm = max_positions
  /\ Portfolio.well_keyed pm.
Proof.
  intros Hmax pm.
  assert (Hgen : forall ops pm0,
            Portfolio._max_positions pm0 = max_positions ->
            (Portfolio.count pm0 <= Portfolio._max_positions pm0)%Z
              /\ Portfolio.well_keyed pm0 ->
            Portfolio._max_positions (PortfolioRun.run pm0 ops) = max_positions
            /\ (Portfolio.count (PortfolioRun.run pm0 ops)
                  <= Portfolio._max_positions (PortfolioRun.run pm0 ops))%Z
            /\ Portfolio.well_keyed (PortfolioRun.run pm0 ops)).
  { clear. intros ops. induction ops as [| o ops IH]; intros pm0 Hm Hinv; cbn; [done |].
    apply IH; [| by apply portfolio_step_invariant].
    rewrite <- Hm. destruct o as [p | sym | sym x | sym x]; cbn.
    - by destruct (Portfolio.can_open pm0 (Portfolio.symbol p)).
    - unfold Portfolio.remove_position. by destruct (Portfolio.positions pm0 !! sym).
    - unfold Portfolio.update_stop. by destruct (Portfolio.positions pm0 !! sym).
    - unfold Portfolio.update_take_profit. by destruct (Portfolio.positions pm0 !! sym). }
  destruct (Hgen ops (Portfolio.init max_positions)) as (Hm & Hc & Hwk); [done | |].
  - split; [unfold Portfolio.count; cbn; rewrite map_size_empty; lia |].
    intros k r Hk. cbn in Hk. by rewrite lookup_empty in Hk.
  - fold pm in Hm, Hc, Hwk. rewrite Hm in Hc. done.
Qed.

Lemma portfolio_run_within_limit_witness :
  let other := {| Portfolio.symbol := "ETHUSDT"; Portfolio.direction := "short";
                  Portfolio.entry_price := 2000; Portfolio.quantity := 1;
                  Portfolio.stop_loss := 2100; Portfolio.take_profit := 1900;
                  Portfolio.trailing_active := false; Portfolio.notional := 2000;
                  Portfolio.cost := 400 |} in
  let pm := PortfolioRun.run (Portfolio.init 1)
              [PortfolioRun.Open Fixtures.long_position; PortfolioRun.Open other;
               PortfolioRun.UpdateStop "BTCUSDT" 29800] in
  (Portfolio.count pm <= 1)%Z
  /\ Portfolio._max_positions pm = 1%Z
  /\ Portfolio.well_keyed pm.
Proof.
  intros other pm. apply (portfolio_run_within_limit 1). lia.
Defined.

(** X2. Adding a position for a symbol that has none and removing it again
    gives back the portfolio as it was; after the removal the symbol has no
    position and can be opened again exactly when the limit allows. *)
Theorem portfolio_add_remove_round_trip (pm : Portfolio.t) (p : Portfolio.Position) :
  Portfolio.get_position pm (Portfolio.symbol p) = None ->
  Portfolio.remove_position (Portfolio.add_position pm p) (Portfolio.symbol p) = pm
  /\ Portfolio.can_open (Portfolio.add_position pm p) (Portfolio.symbol p) = false
  /\ Portfolio.can_open
       (Portfolio.remove_position (Portfolio.add_position pm p) (Portfolio.symbol p))
       (Portfolio.symbol p)
     = (Portfolio.count pm <? Portfolio._max_positions pm)%Z.
Proof.
  unfold Portfolio.get_position. intros Hnone.
  assert (Hrt : Portfolio.remove_position (Portfolio.add_position pm p) (Portfolio.symbol p)
                = pm).
  { unfold Portfolio.remove_position, Portfolio.add_position. cbn.
    rewrite lookup_insert_eq. destruct pm as [m mx]. cbn in *.
    by rewrite delete_insert_id. }
  split; [exact Hrt |]. split.
  - unfold Portfolio.can_open, Portfolio.add_position. cbn. by rewrite lookup_insert_eq.
  - rewrite Hrt. unfold Portfolio.can_open, Portfolio.count. by rewrite Hnone.
Qed.

Lemma portfolio_add_remove_round_trip_witness :
  let pm := Portfolio.init 1 in
  Portfolio.remove_position (Portfolio.add_position pm Fixtures.long_position) "BTCUSDT" = pm.
Proof.
  intros pm.
  apply (portfolio_add_remove_round_trip pm Fixtures.long_position). reflexivity.
Defined.

(** X3. [update_stop] and [update_take_profit] touch one field of one
    position: the position of the symbol gets the new stop (or target) and
    keeps every other field, positions of other symbols and the number of
    positions are unchanged, and the two updates commute. *)
Theorem portfolio_updates_local (pm : Portfolio.t) (sym : string) (x y : Q)
    (p : Portfolio.Position) :
  Portfolio.get_position pm sym = Some p ->
  Portfolio.get_position (Portfolio.update_stop pm sym x) sym
    = Some (Portfolio.set_stop_loss p x)
  /\ Portfolio.get_position (Portfolio.update_take_profit pm sym y) sym
     = Some (Portfolio.set_take_profit p y)
  /\ (forall other, other <> sym ->
        Portfolio.get_position (Portfolio.update_stop pm sym x) other
          = Portfolio.get_position pm other
        /\ Portfolio.get_position (Portfolio.update_take_profit pm sym y) other
           = Portfolio.get_position pm other)
  /\ Portfolio.count (Portfolio.update_stop pm sym x) = Portfolio.count pm
  /\ Portfolio.count (Portfolio.update_take_profit pm sym y) = Portfolio.count pm
  /\ Portfolio.update_take_profit (Portfolio.update_stop pm sym x) sym y
     = Portfolio.update_stop (Portfolio.update_take_profit pm sym y) sym x.
Proof.
  unfold Portfolio.get_position, Portfolio.update_stop, Portfolio.update_take_profit,
    Portfolio.count.
  intros Hp. rewrite Hp. cbn. rewrite !lookup_insert_eq.
  split; [done |]. split; [done |]. split.
  { intros other Hne. by rewrite !lookup_insert_ne. }
  rewrite !map_size_insert_Some by eauto.
  split; [done |]. split; [done |].
  by rewrite !insert_insert_eq.
Qed.

Lemma portfolio_updates_local_witness :
  let pm := Portfolio.add_position (Portfolio.init 1) Fixtures.long_position in
  Portfolio.get_position (Portfolio.update_stop pm "BTCUSDT" 29800) "BTCUSDT"
    = Some (Portfolio.set_stop_loss Fixtures.long_position 29800).
Proof.
  intros pm.
  apply (portfolio_updates_local pm "BTCUSDT" 29800 30500 Fixtures.long_position).
  reflexivity.
Defined.

(** ** Order flow analyzer: the rolling windows *)

Lemma deque_append_last_n {A : Type} (n : nat) (l : list A) (x : A) :
  OrderFlow.deque_append n (OrderFlowTrace.last_n n l) x = OrderFlowTrace.last_n n (l ++ [x]).
Proof.
  unfold OrderFlow.deque_append, OrderFlowTrace.last_n.
  rewrite <- (drop_app_le l [x]) by lia.
  rewrite drop_drop. f_equal.
  rewrite length_drop, !length_app. cbn. lia.
Qed.

Lemma run_snoc (n : nat) (us : list OrderFlow.update) (u : OrderFlow.update) :
  OrderFlow.run n (us ++ [u]) = OrderFlow.apply_update (OrderFlow.run n us) u.
Proof. unfold OrderFlow.run. by rewrite fold_left_app. Qed.

(** X4. The analyzer's windows are bounded first-in first-out buffers: after
    any sequence of updates the trade window holds exactly the last [maxlen]
    trades received, in order, and the liquidation window the last [maxlen]
    liquidations; neither is ever longer than [maxlen]. *)
Theorem order_flow_windows_fifo (n : nat) (us : list OrderFlow.update) :
  let a := OrderFlow.run n us in
  OrderFlow.maxlen a = n
  /\ OrderFlow._trades a = OrderFlowTrace.last_n n (OrderFlowTrace.trade_entries us)
  /\ OrderFlow._liquidations a
     = OrderFlowTrace.last_n n (OrderFlowTrace.liquidation_entries us)
  /\ length (OrderFlow._trades a) <= n
  /\ length (OrderFlow._liquidations a) <= n.
Proof.
  cbv zeta.
  assert (Hmain : OrderFlow.maxlen (OrderFlow.run n us) = n
            /\ OrderFlow._trades (OrderFlow.run n us)
               = OrderFlowTrace.last_n n (OrderFlowTrace.trade_entries us)
            /\ OrderFlow._liquidations (OrderFlow.run n us)
               = OrderFlowTrace.last_n n (OrderFlowTrace.liquidation_entries us)).
  { induction us as [| u us IH] using rev_ind; [done |].
    destruct IH as (Hn & Ht & Hl). rewrite run_snoc.
    unfold OrderFlowTrace.trade_entries, OrderFlowTrace.liquidation_entries in *.
    rewrite !omap_app. destruct u as [p q m | q s]; cbn; rewrite Hn, ?app_nil_r.
    - split; [done |]. split; [| done]. rewrite Ht. apply deque_append_last_n.
    - split; [done |]. split; [done |]. rewrite Hl. apply deque_append_last_n. }
  destruct Hmain as (Hn & Ht & Hl). repeat (split; [done |]).
  rewrite Ht, Hl. unfold OrderFlowTrace.last_n. rewrite !length_drop. lia.
Qed.

Lemma sum_filter_none (side : bool) (trades : list (Q * Q * bool)) :
  Forall (fun t => snd t = negb side) trades ->
  OrderFlow.trade_volume side trades = 0%Q.
Proof.
  intros H. unfold OrderFlow.trade_volume.
  assert (Hnil : List.filter (fun t => Bool.eqb (snd t) side) trades = []).
  { induction H as [| t l Ht _ IH]; [done |]. cbn. rewrite Ht, IH. by destruct side. }
  by rewrite Hnil.
Qed.

(** X5. One-sided flow saturates the imbalance: when every trade in the
    window was a buyer-aggressor trade (the buyer was not the maker) and the
    bought volume is not zero, the imbalance is 1; when every trade was a
    seller-aggressor trade and the sold volume is not zero, it is -1. *)
Theorem one_sided_flow_imbalance (a : OrderFlow.t) (side : bool) :
  Forall (fun t => snd t = side) (OrderFlow._trades a) ->
  ~ (OrderFlow.trade_volume side (OrderFlow._trades a) == 0)%Q ->
  (imbalance (OrderFlow.snapshot a) == if side then 1 else -1)%Q.
Proof.
  intros Hall Hne. cbn [OrderFlow.snapshot imbalance].
  assert (Hother : OrderFlow.trade_volume (negb side) (OrderFlow._trades a) = 0%Q).
  { apply sum_filter_none. rewrite negb_involutive. done. }
  destruct side; cbn [negb] in Hother; rewrite Hother.
  - set (buy := OrderFlow.trade_volume true (OrderFlow._trades a)) in *.
    assert (Ht : ~ (buy + 0 == 0)%Q) by (intros E; apply Hne; lra).
    destruct (guarded_ratio (buy - 0) (buy + 0)) as [Hr _].
    rewrite (Hr Ht). field. lra.
  - set (sell := OrderFlow.trade_volume false (OrderFlow._trades a)) in *.
    assert (Ht : ~ (0 + sell == 0)%Q) by (intros E; apply Hne; lra).
    destruct (guarded_ratio (0 - sell) (0 + sell)) as [Hr _].
    rewrite (Hr Ht). field. lra.
Qed.

Lemma one_sided_flow_imbalance_witness :
  let a := OrderFlow.run 120 [OrderFlow.Trade 100 3 false; OrderFlow.Trade 101 2 false] in
  (imbalance (OrderFlow.snapshot a) == 1)%Q.
Proof.
  intros a. apply (one_sided_flow_imbalance a true).
  - repeat constructor.
  - vm_compute. discriminate.
Defined.

(** ** Risk manager: the other branches of [size_position] *)

Lemma py_max_zero_nonneg (x : Q) : (0 <= Py.max x 0.0)%Q.
Proof.
  unfold Py.max. destruct (Py.ltb x 0.0) eqn:E; [discriminate |].
  apply py_ltb_ge in E. lra.
Qed.

(** The result of [size_position] is the empty sizing or the sizing built
    at the end of the function from the clamped values. *)
Lemma size_position_cases (rm : RiskManager.t) (price : Q) (volatility : VolatilitySnapshot)
    (direction : string) :
  let r := RiskManager.size_position rm price volatility direction in
  let stop := (atr volatility * RiskManager.atr_multiplier_sl rm)%Q in
  let target := (atr volatility * RiskManager.atr_multiplier_tp rm)%Q in
  r = RiskManager._empty_sizing rm
  \/ ((direction = "long"%string \/ direction = "short"%string)
      /\ (0 < price)%Q /\ (0 < stop)%Q
      /\ RiskManager.quantity r
         = Py.max (fst (fst (RiskManager.raw_sizing rm price stop))) 0.0
      /\ RiskManager.notional r
         = Py.max (snd (fst (RiskManager.raw_sizing rm price stop))) 0.0
      /\ RiskManager.cost r = Py.max (snd (RiskManager.raw_sizing rm price stop)) 0.0
      /\ ~ (RiskManager.quantity r == 0)%Q
      /\ ~ (RiskManager.notional r == 0)%Q
      /\ RiskManager.stop_loss r
         = (if String.eqb direction "long" then price - stop else price + stop)%Q
      /\ RiskManager.take_profit r
         = (if String.eqb direction "long" then price + target else price - target)%Q
      /\ RiskManager.trailing_active r
         = (RiskManager.truth (RiskManager.trailing rm)
            && Py.ltb 0 (RiskManager.trailing_mult rm))).
Proof.
  cbv zeta. unfold RiskManager.size_position.
  destruct (negb _) eqn:Hdir; [by left |]. apply direction_test in Hdir.
  destruct (Py.leb price 0) eqn:Hp; [by left |]. apply py_leb_gt in Hp.
  destruct (Py.leb (atr volatility * RiskManager.atr_multiplier_sl rm) 0) eqn:Hs; [by left |].
  apply py_leb_gt in Hs.
  destruct (RiskManager.raw_sizing rm price
              (atr volatility * RiskManager.atr_multiplier_sl rm)) as [[q0 n0] c0].
  cbn [fst snd].
  destruct (Py.eqb (Py.max q0 0.0) 0.0) eqn:Hq; [by left |].
  destruct (Py.eqb (Py.max n0 0.0) 0.0) eqn:Hn; [by left |].
  apply py_eqb_neq in Hq, Hn. right. cbn [orb].
  destruct (String.eqb direction "long"); cbn; repeat split; try done;
    intros E; [apply Hq | apply Hn | apply Hq | apply Hn]; lra.
Qed.

(** X6. With a positive fixed cost, a long or short request at a positive
    price with a positive stop distance and a positive leverage is sized
    from the fixed cost alone: cost = fixed_cost, notional = cost * leverage
    and quantity = notional / price, whatever the balance, the risk
    percentage and the size of the ATR. *)
Theorem size_position_fixed_cost
    (rm : RiskManager.t) (price : Q) (volatility : VolatilitySnapshot) (direction : string) :
  direction = "long"%string \/ direction = "short"%string ->
  (0 < RiskManager._fixed_cost rm)%Q ->
  (0 < price)%Q ->
  (0 < atr volatility * RiskManager.atr_multiplier_sl rm)%Q ->
  (0 < RiskManager._leverage rm)%Z ->
  let r := RiskManager.size_position rm price volatility direction in
  (RiskManager.cost r == RiskManager._fixed_cost rm)%Q
  /\ (RiskManager.notional r
      == RiskManager._fixed_cost rm * inject_Z (RiskManager._leverage rm))%Q
  /\ (RiskManager.quantity r == RiskManager.notional r / price)%Q
  /\ (0 < RiskManager.quantity r)%Q.
Proof.
  intros Hdir Hfixed Hprice Hstop Hlev r. subst r.
  unfold RiskManager.size_position.
  apply direction_test in Hdir. rewrite Hdir.
  apply py_leb_gt in Hprice as Hp. rewrite Hp.
  apply py_leb_gt in Hstop as Hs. rewrite Hs.
  unfold RiskManager.raw_sizing.
  apply py_ltb_lt in Hfixed as Hf. rewrite Hf.
  assert (Htruthy : Py.truthy price = true).
  { unfold Py.truthy. apply negb_true_iff, py_eqb_neq. lra. }
  rewrite Htruthy.
  set (lev := inject_Z (RiskManager._leverage rm)).
  assert (Hlevq : (0 < lev)%Q).
  { subst lev. change 0%Q with (inject_Z 0). by rewrite <- Zlt_Qlt. }
  set (fc := RiskManager._fixed_cost rm) in *.
  assert (Hn : (0 < fc * lev)%Q) by (by apply Qmult_lt_0_compat).
  assert (Hq : (0 < fc * lev / price)%Q) by (by apply Qdiv_pos).
  rewrite !py_max_pos by done.
  assert (Hq0 : Py.eqb (fc * lev / price) 0.0 = false) by (apply py_eqb_neq; lra).
  assert (Hn0 : Py.eqb (fc * lev) 0.0 = false) by (apply py_eqb_neq; lra).
  rewrite Hq0, Hn0. cbn [orb].
  destruct (String.eqb direction "long"); cbn; repeat split; try reflexivity; done.
Qed.

Lemma size_position_fixed_cost_witness :
  let rm := RiskManager.init 10000 5 0.01 ∅ 200 in
  let r := RiskManager.size_position rm 40000 Fixtures.calm "short" in
  (RiskManager.cost r == 200)%Q
  /\ (RiskManager.notional r == 200 * 5)%Q
  /\ (RiskManager.quantity r == RiskManager.notional r / 40000)%Q
  /\ (0 < RiskManager.quantity r)%Q.
Proof.
  intros rm r.
  apply (size_position_fixed_cost rm 40000 Fixtures.calm "short");
    [right; reflexivity | reflexivity | reflexivity | reflexivity | reflexivity].
Defined.

(** X7. Whenever [size_position] returns a sizing that is not empty, the
    stop and the target are placed around the entry price by the ATR: for
    "long" the stop is price - ATR * sl_multiplier, below the price, and the
    target is price + ATR * tp_multiplier; for "short" they are mirrored,
    with the stop above the price. *)
Theorem size_position_stop_and_target
    (rm : RiskManager.t) (price : Q) (volatility : VolatilitySnapshot) (direction : string) :
  let r := RiskManager.size_position rm price volatility direction in
  let stop := (atr volatility * RiskManager.atr_multiplier_sl rm)%Q in
  let target := (atr volatility * RiskManager.atr_multiplier_tp rm)%Q in
  ~ (RiskManager.quantity r == 0)%Q ->
  (direction = "long"%string ->
     RiskManager.stop_loss r = (price - stop)%Q
     /\ RiskManager.take_profit r = (price + target)%Q
     /\ (RiskManager.stop_loss r < price)%Q)
  /\ (direction = "short"%string ->
     RiskManager.stop_loss r = (price + stop)%Q
     /\ RiskManager.take_profit r = (price - target)%Q
     /\ (price < RiskManager.stop_loss r)%Q)
  /\ (direction = "long"%string \/ direction = "short"%string).
Proof.
  intros r stop target Hne.
  pose proof (size_position_cases rm price volatility direction) as Hcases.
  cbv zeta in Hcases. fold r stop target in Hcases. clearbody r stop target.
  destruct Hcases as [Hempty | (Hdir & _ & Hstop & _ & _ & _ & _ & _ & Hsl & Htp & _)].
  { exfalso. apply Hne. rewrite Hempty. reflexivity. }
  split; [| split; [| done]].
  - intros ->. cbn in Hsl, Htp. rewrite Hsl, Htp. repeat split. lra.
  - intros ->. cbn in Hsl, Htp. rewrite Hsl, Htp. repeat split. lra.
Qed.

Lemma size_position_stop_and_target_witness :
  let r := RiskManager.size_position Fixtures.risk_manager 30000 Fixtures.calm "long" in
  RiskManager.stop_loss r = (30000 - 100 * 2.5)%Q
  /\ RiskManager.take_profit r = (30000 + 100 * 4.0)%Q
  /\ (RiskManager.stop_loss r < 30000)%Q.
Proof.
  intros r.
  assert (Hne : ~ (RiskManager.quantity r == 0)%Q) by (vm_compute; discriminate).
  destruct (size_position_stop_and_target Fixtures.risk_manager 30000 Fixtures.calm "long" Hne)
    as (Hlong & _).
  apply Hlong. reflexivity.
Defined.

(** X8. For all inputs the quantity, the notional and the cost returned by
    [size_position] are non-negative and the leverage is the manager's; the
    quantity is 0 exactly when the result is the empty sizing, and then the
    notional is 0 as well. *)
Theorem size_position_never_negative
    (rm : RiskManager.t) (price : Q) (volatility : VolatilitySnapshot) (direction : string) :
  let r := RiskManager.size_position rm price volatility direction in
  (0 <= RiskManager.quantity r)%Q
  /\ (0 <= RiskManager.notional r)%Q
  /\ (0 <= RiskManager.cost r)%Q
  /\ RiskManager.leverage r = RiskManager._leverage rm
  /\ ((RiskManager.quantity r == 0)%Q <-> r = RiskManager._empty_sizing rm)
  /\ ((RiskManager.notional r == 0)%Q <-> r = RiskManager._empty_sizing rm).
Proof.
  intros r.
  assert (Hlev : RiskManager.leverage r = RiskManager._leverage rm).
  { subst r. unfold RiskManager.size_position.
    repeat match goal with
           | |- context [if ?b then _ else _] => destruct b
           | |- context [let '(_, _) := ?x in _] => destruct x
           end; reflexivity. }
  pose proof (size_position_cases rm price volatility direction) as Hcases.
  cbv zeta in Hcases. fold r in Hcases. clearbody r.
  destruct Hcases as [Hempty | (_ & _ & _ & Hq & Hn & Hc & Hqne & Hnne & _)].
  - rewrite Hempty. cbn. repeat split; try done.
  - split; [rewrite Hq; apply py_max_zero_nonneg |].
    split; [rewrite Hn; apply py_max_zero_nonneg |].
    split; [rewrite Hc; apply py_max_zero_nonneg |].
    split; [done |].
    split; (split; [intros E; contradiction |]).
    + intros E. exfalso. apply Hqne. rewrite E. reflexivity.
    + intros E. exfalso. apply Hnne. rewrite E. reflexivity.
Qed.

(** ** Signal engine: confidence, structure break and rationale *)

(** X9. The confidence of a decision is always between 0 and 1 and agrees
    with its direction: a flat decision has confidence at most 0.25, a long
    or short one has confidence above 0.25. *)
Theorem evaluate_confidence_matches_direction
    (w : SignalEngine.weights) (sym : string) (technical : TechnicalSnapshot)
    (order_flow : OrderFlowSnapshot) (volatility : VolatilitySnapshot) :
  let d := SignalEngine.evaluate w sym technical order_flow volatility in
  (0 <= SignalEngine.confidence d <= 1)%Q
  /\ (SignalEngine.direction d = "flat"%string -> (SignalEngine.confidence d <= 0.25)%Q)
  /\ (SignalEngine.direction d = "long"%string \/ SignalEngine.direction d = "short"%string ->
      (0.25 < SignalEngine.confidence d)%Q)
  /\ (SignalEngine.direction d = "long"%string \/ SignalEngine.direction d = "short"%string
      \/ SignalEngine.direction d = "flat"%string).
Proof.
  cbv zeta. cbn [SignalEngine.evaluate SignalEngine.direction SignalEngine.confidence].
  set (c := SignalEngine.composite w technical order_flow volatility).
  pose proof (confidence_of_min c) as Hconf.
  pose proof (Qabs_nonneg c) as Habs.
  assert (Hmin : (Qmin 1 (Qabs c) <= 1)%Q /\ (Qmin 1 (Qabs c) <= Qabs c)%Q
                 /\ (Qmin 1 (Qabs c) == 1 \/ Qmin 1 (Qabs c) == Qabs c)%Q).
  { destruct (Qlt_le_dec (Qabs c) 1) as [Hlt | Hge].
    - rewrite Q.min_r by lra. repeat split; lra.
    - rewrite Q.min_l by lra. repeat split; lra. }
  destruct Hmin as (Hle1 & HleA & Hcase).
  split; [rewrite Hconf; destruct Hcase as [E | E]; lra |].
  split.
  { intros Hflat. apply direction_of_flat in Hflat. rewrite Hconf.
    assert (Qabs c <= 0.25)%Q; [| lra].
    apply Qabs_case; intros; lra. }
  split.
  { intros Hdir. rewrite Hconf.
    assert (0.25 < Qabs c)%Q.
    { destruct Hdir as [Hl | Hs].
      - apply direction_of_long in Hl. pose proof (Qle_Qabs c). lra.
      - apply direction_of_short in Hs. pose proof (Qle_Qabs (- c)) as H.
        rewrite Qabs_opp in H. lra. }
    destruct Hcase as [E | E]; lra. }
  unfold SignalEngine.direction_of.
  destruct (Py.ltb 0.25 c); [by left |]. destruct (Py.ltb c (-0.25)); auto.
Qed.



(** X11. Only the trend score, the momentum score, the imbalance, the
    liquidation pressure and the structure-break flag enter the decision:
    two evaluations that agree on them give the same direction and the same
    confidence, whatever the structure bias, the technical signal and the
    other volatility figures are. *)
Theorem evaluate_depends_on_five_inputs
    (w : SignalEngine.weights) (sym : string) (t1 t2 : TechnicalSnapshot)
    (o1 o2 : OrderFlowSnapshot) (v1 v2 : VolatilitySnapshot) :
  trend_score t1 = trend_score t2 ->
  momentum_score t1 = momentum_score t2 ->
  imbalance o1 = imbalance o2 ->
  liquidation_pressure o1 = liquidation_pressure o2 ->
  structure_break v1 = structure_break v2 ->
  SignalEngine.direction (SignalEngine.evaluate w sym t1 o1 v1)
    = SignalEngine.direction (SignalEngine.evaluate w sym t2 o2 v2)
  /\ SignalEngine.confidence (SignalEngine.evaluate w sym t1 o1 v1)
     = SignalEngine.confidence (SignalEngine.evaluate w sym t2 o2 v2).
Proof.
  intros Ht Hm Hi Hl Hs.
  cbn [SignalEngine.evaluate SignalEngine.direction SignalEngine.confidence].
  assert (Hc : SignalEngine.composite w t1 o1 v1 = SignalEngine.composite w t2 o2 v2).
  { unfold SignalEngine.composite, SignalEngine.liquidation_component.
    by rewrite Ht, Hm, Hi, Hl, Hs. }
  by rewrite Hc.
Qed.

Lemma evaluate_depends_on_five_inputs_witness :
  let t1 := {| trend_score := 0.9; momentum_score := 0.5; structure_bias := 0.7;
               signal := "long" |} in
  let t2 := {| trend_score := 0.9; momentum_score := 0.5; structure_bias := -0.7;
               signal := "short" |} in
  let o := {| buy_volume := 3; sell_volume := 1; delta := 2; imbalance := 0.5;
              liquidation_pressure := 0 |} in
  SignalEngine.direction (SignalEngine.evaluate ∅ "BTCUSDT" t1 o Fixtures.calm)
    = SignalEngine.direction (SignalEngine.evaluate ∅ "BTCUSDT" t2 o Fixtures.calm)
  /\ SignalEngine.confidence (SignalEngine.evaluate ∅ "BTCUSDT" t1 o Fixtures.calm)
     = SignalEngine.confidence (SignalEngine.evaluate ∅ "BTCUSDT" t2 o Fixtures.calm).
Proof.
  intros t1 t2 o.
  apply (evaluate_depends_on_five_inputs ∅ "BTCUSDT" t1 t2 o o Fixtures.calm Fixtures.calm);
    reflexivity.
Defined.

(** X12. The rationale of a decision has between two and four entries; the
    structure-break notice is among them exactly when the snapshot reports a
    break, and the high-volatility notice exactly when |atr_pct| > 3. *)
Theorem evaluate_reasons
    (w : SignalEngine.weights) (sym : string) (technical : TechnicalSnapshot)
    (order_flow : OrderFlowSnapshot) (volatility : VolatilitySnapshot) :
  let rs := SignalEngine.reasons (SignalEngine.evaluate w sym technical order_flow volatility) in
  2 <= length rs <= 4
  /\ (In "Structure break detectada"%string rs <-> structure_break volatility = true)
  /\ (In "Alta volatilidade relativa"%string rs <-> (3 < Qabs (atr_pct volatility))%Q).
Proof.
  cbv zeta. cbn [SignalEngine.evaluate SignalEngine.reasons].
  unfold SignalEngine.build_reasons. rewrite <- py_ltb_lt.
  destruct (structure_break volatility);
    destruct (String.eqb (signal technical) "long");
    destruct (String.eqb (signal technical) "short");
    destruct (Py.ltb 0.15 (imbalance order_flow));
    destruct (Py.ltb (imbalance order_flow) (-0.15));
    destruct (Py.ltb 3 (Qabs (atr_pct volatility)));
    cbn; (split; [lia |]); split; split;
    try (intros _; tauto); try discriminate;
    try (intros H; repeat destruct H as [H | H]; try discriminate; done).
Qed.

(** ** Volatility regime, technical summary and candle cache *)

(** X13. [classify_volatility] answers "compressao" exactly when
    atr_pct < 0.5 and realized_vol < 0.4, "explosiva" exactly when
    atr_pct > 2.0 or realized_vol > 2.5, and "normal" exactly in the
    remaining cases; the two conditions never hold together, so the order of
    the tests does not matter. *)
Theorem classify_volatility_regimes (atr_pct realized_vol : Q) :
  let r := Volatility.classify_volatility atr_pct realized_vol in
  (r = "compressao"%string <-> (atr_pct < 0.5 /\ realized_vol < 0.4)%Q)
  /\ (r = "explosiva"%string <-> (2.0 < atr_pct \/ 2.5 < realized_vol)%Q)
  /\ (r = "normal"%string <->
      ~ (atr_pct < 0.5 /\ realized_vol < 0.4)%Q /\ ~ (2.0 < atr_pct \/ 2.5 < realized_vol)%Q).
Proof.
  cbv zeta. unfold Volatility.classify_volatility.
  destruct (Py.ltb atr_pct 0.5) eqn:Ha; destruct (Py.ltb realized_vol 0.4) eqn:Hr;
    destruct (Py.ltb 2.0 atr_pct) eqn:Ha2; destruct (Py.ltb 2.5 realized_vol) eqn:Hr2;
    cbn;
    repeat match goal with
           | H : Py.ltb _ _ = true |- _ => apply py_ltb_lt in H
           | H : Py.ltb _ _ = false |- _ => apply py_ltb_ge in H
           end;
    repeat split; try discriminate; try (intros; lra); try (intros _; lra);
    try (intros [? ?]; lra); try (intros [? | ?]; lra);
    try (intros _; split; lra).
Qed.

(** X14. [_normalize] maps the interval from lower to upper onto [0, 1] and
    answers 0, without dividing, when the two bounds are equal; so the
    momentum score computed from an RSI and a stochastic value between 0 and
    100 lies in [-1, 1] and is (rsi + stoch) / 100 - 1. *)
Theorem normalize_and_momentum_bounds (value lower upper rsi stoch : Q) :
  (lower <= value <= upper)%Q ->
  (0 <= rsi <= 100)%Q ->
  (0 <= stoch <= 100)%Q ->
  (0 <= Technicals._normalize value lower upper <= 1)%Q
  /\ ((upper == lower)%Q -> (Technicals._normalize value lower upper == 0)%Q)
  /\ ((lower < upper)%Q ->
      (Technicals._normalize lower lower upper == 0)%Q
      /\ (Technicals._normalize upper lower upper == 1)%Q)
  /\ (Technicals.momentum_from rsi stoch == (rsi + stoch) / 100 - 1)%Q
  /\ (-1 <= Technicals.momentum_from rsi stoch <= 1)%Q.
Proof.
  intros Hv Hr Hs.
  assert (Hnorm : forall v lo up, (lo < up)%Q ->
            (Technicals._normalize v lo up == (v - lo) / (up - lo))%Q).
  { intros v lo up Hlt. unfold Technicals._normalize.
    assert (E : Py.eqb up lo = false) by (apply py_eqb_neq; lra).
    rewrite E. reflexivity. }
  assert (Hzero : forall v lo up, (up == lo)%Q -> (Technicals._normalize v lo up == 0)%Q).
  { intros v lo up Heq. unfold Technicals._normalize.
    apply py_eqb_eq in Heq. rewrite Heq. reflexivity. }
  assert (Hmom : (Technicals.momentum_from rsi stoch == (rsi + stoch) / 100 - 1)%Q).
  { unfold Technicals.momentum_from. rewrite !Hnorm by reflexivity. field. }
  split.
  { destruct (Qeq_dec upper lower) as [Heq | Hne].
    - rewrite (Hzero _ _ _ Heq). lra.
    - assert (Hlt : (lower < upper)%Q) by lra. rewrite (Hnorm _ _ _ Hlt). split.
      + apply Qle_shift_div_l; lra.
      + apply Qle_shift_div_r; lra. }
  split; [apply Hzero |]. split.
  { intros Hlt. rewrite !Hnorm by done. split; field; lra. }
  split; [exact Hmom |].
  rewrite Hmom. split.
  - assert (0 <= (rsi + stoch) / 100)%Q by (apply Qle_shift_div_l; lra). lra.
  - assert ((rsi + stoch) / 100 <= 2)%Q by (apply Qle_shift_div_r; lra). lra.
Qed.

Lemma normalize_and_momentum_bounds_witness :
  (0 <= Technicals._normalize 30 0 100 <= 1)%Q
  /\ (-1 <= Technicals.momentum_from 70 80 <= 1)%Q.
Proof.
  assert (Hv : (0 <= 30 <= 100)%Q) by (split; discriminate).
  assert (Hr : (0 <= 70 <= 100)%Q) by (split; discriminate).
  assert (Hs : (0 <= 80 <= 100)%Q) by (split; discriminate).
  destruct (normalize_and_momentum_bounds 30 0 100 70 80 Hv Hr Hs)
    as (Hn & _ & _ & _ & Hm).
  split; [exact Hn | exact Hm].
Defined.


Lemma update_klines_snoc {A : Type} (data_lookback : Z) (l : list (Z * A)) (x kline : Z * A) :
  Main.update_klines data_lookback (l ++ [x]) kline
  = let cached1 := if (fst x =? fst kline)%Z then l ++ [kline] else (l ++ [x]) ++ [kline] in
    if (data_lookback <? Z.of_nat (length cached1))%Z then tail cached1 else cached1.
Proof.
  unfold Main.update_klines. rewrite last_snoc, removelast_last. reflexivity.
Qed.

Lemma last_tail_snoc {A : Type} (l : list A) (x : A) :
  l <> [] -> last (tail (l ++ [x])) = Some x.
Proof.
  destruct l as [| y l]; [done |]. intros _. cbn. apply last_snoc.
Qed.

(** X16. Updating the candle cache with a closed candle never lets a cache
    that fits the lookback grow beyond it; with a lookback of at least one,
    the new candle is the last one afterwards; and a candle with the open
    time of the last cached candle replaces it, leaving the length as it
    was. *)
Theorem update_klines_bounded {A : Type} (data_lookback : Z) (cached_klines : list (Z * A))
    (kline : Z * A) :
  (0 <= data_lookback)%Z ->
  (Z.of_nat (length cached_klines) <= data_lookback)%Z ->
  let updated := Main.update_klines data_lookback cached_klines kline in
  (Z.of_nat (length updated) <= data_lookback)%Z
  /\ ((1 <= data_lookback)%Z -> last updated = Some kline)
  /\ (forall l, last cached_klines = Some l -> fst l = fst kline ->
        length updated = length cached_klines
        /\ removelast updated = removelast cached_klines).
Proof.
  intros Hlb Hlen updated. subst updated.
  assert (Hcases : cached_klines = [] \/ exists l0 y, cached_klines = l0 ++ [y]).
  { clear. induction cached_klines as [| y l0 _] using rev_ind; [by left | right; eauto]. }
  destruct Hcases as [-> | (l0 & y & ->)].
  - unfold Main.update_klines. cbn. change (Z.of_nat 1) with 1%Z.
    destruct (data_lookback <? 1)%Z eqn:E; cbn.
    + apply Z.ltb_lt in E. split; [lia |]. split; [lia |]. intros l Hl. discriminate.
    + apply Z.ltb_ge in E. split; [lia |]. split; [done |]. intros l Hl. discriminate.
  - rewrite update_klines_snoc. cbv zeta.
    rewrite length_app in Hlen. cbn in Hlen.
    destruct (fst y =? fst kline)%Z eqn:Et.
    + assert (E : (data_lookback <? Z.of_nat (length (l0 ++ [kline])))%Z = false).
      { apply Z.ltb_ge. rewrite length_app. cbn. lia. }
      rewrite E. rewrite !length_app. cbn.
      split; [lia |]. split; [intros _; apply last_snoc |].
      intros l Hl Hfst. split; [done |]. by rewrite !removelast_last.
    + apply Z.eqb_neq in Et.
      split; [| split].
      * destruct (data_lookback <? _)%Z eqn:E.
        -- apply Z.ltb_lt in E. destruct l0 as [| z l1]; cbn in *;
             rewrite ?length_app in *; cbn in *; lia.
        -- apply Z.ltb_ge in E. done.
      * intros Hone. destruct (data_lookback <? _)%Z eqn:E.
        -- apply last_tail_snoc. by destruct l0.
        -- apply last_snoc.
      * intros l Hl Hfst. rewrite last_snoc in Hl. injection Hl as <-. contradiction.
Qed.

Lemma update_klines_bounded_witness :
  let cached := [(1000%Z, "a"%string); (2000%Z, "b"%string)] in
  let updated := Main.update_klines 2 cached (3000%Z, "c"%string) in
  (Z.of_nat (length updated) <= 2)%Z.
Proof.
  intros cached updated.
  apply (update_klines_bounded 2 cached (3000%Z, "c"%string)); cbn; lia.
Defined.

(** ** Exchange client: rounding, price bounds and caches *)

Section RoundToStepMore.

Local Open Scope Q_scope.

Lemma Qtrunc_opp (x : Q) : Binance.Qtrunc (- x) = (- Binance.Qtrunc x)%Z.
Proof.
  destruct x as [n d]. unfold Binance.Qtrunc, Qopp. cbn.
  apply Z.quot_opp_l. lia.
Qed.

Lemma Qtrunc_comp (x y : Q) : x == y -> Binance.Qtrunc x = Binance.Qtrunc y.
Proof.
  intros Heq. destruct (Qlt_le_dec x 0) as [Hneg | Hpos].
  - assert (Hx : 0 <= - x) by lra. assert (Hy : 0 <= - y) by lra.
    assert (E : Binance.Qtrunc (- x) = Binance.Qtrunc (- y)).
    { rewrite (Qtrunc_nonneg _ Hx), (Qtrunc_nonneg _ Hy). apply Qfloor_comp. lra. }
    rewrite !Qtrunc_opp in E. lia.
  - assert (Hy : 0 <= y) by lra.
    rewrite (Qtrunc_nonneg _ Hpos), (Qtrunc_nonneg _ Hy). by apply Qfloor_comp.
Qed.

Lemma Qtrunc_inject_Z (k : Z) : Binance.Qtrunc (inject_Z k) = k.
Proof. unfold Binance.Qtrunc, inject_Z. cbn. apply Z.quot_1_r. Qed.

End RoundToStepMore.

(** X17. Rounding to a positive step is idempotent: a rounded value is left
    as it is by a second rounding.  A non-negative value is rounded down, by
    less than one step, to a non-negative multiple of the step; a missing
    step or a step that is not positive leaves any value untouched. *)
Theorem round_to_step_idempotent (q step : Q) :
  (0 < step)%Q ->
  let r := Binance._round_to_step q (Some step) in
  Binance._round_to_step r (Some step) = r
  /\ ((0 <= q)%Q -> (0 <= r <= q)%Q /\ (q - step < r)%Q)
  /\ (forall s, (s <= 0)%Q -> Binance._round_to_step q (Some s) = q)
  /\ Binance._round_to_step q None = q.
Proof.
  intros Hs r.
  pose proof (round_to_step_value q step Hs) as Hv. fold r in Hv.
  split.
  { assert (Hk : Binance.Qtrunc (r / step) = Binance.Qtrunc (q / step)).
    { transitivity (Binance.Qtrunc (inject_Z (Binance.Qtrunc (q / step))));
        [| apply Qtrunc_inject_Z].
      apply Qtrunc_comp. rewrite Hv. field. lra. }
    subst r. unfold Binance._round_to_step at 1.
    apply py_leb_gt in Hs as Hs'. rewrite Hs'.
    unfold Binance._round_to_step. rewrite Hs'.
    apply Qred_complete. fold (Binance._round_to_step q (Some step)).
    unfold Binance._round_to_step in Hk. rewrite Hs' in Hk. rewrite Hk. reflexivity. }
  split.
  { intros Hq.
    assert (Hx : (0 <= q / step)%Q) by (apply Qle_shift_div_l; lra).
    rewrite (Qtrunc_nonneg _ Hx) in Hv.
    assert (Hqs : (q == q / step * step)%Q) by (field; lra).
    pose proof (Qfloor_le (q / step)) as Hlo.
    pose proof (Qlt_floor (q / step)) as Hhi.
    rewrite inject_Z_plus in Hhi. change (inject_Z 1) with 1%Q in Hhi.
    assert (Hf0 : (0 <= inject_Z (Qfloor (q / step)))%Q).
    { change 0%Q with (inject_Z 0). rewrite <- Zle_Qle.
      rewrite <- (Qfloor_Z 0). by apply Qfloor_resp_le. }
    set (f := inject_Z (Qfloor (q / step))) in *.
    assert (H1 : (0 <= f * step)%Q) by (apply Qmult_le_0_compat; lra).
    assert (H2 : (f * step <= q / step * step)%Q) by (apply Qmult_le_compat_r; lra).
    assert (H3 : (q / step * step < (f + 1) * step)%Q) by (apply Qmult_lt_compat_r; lra).
    rewrite Hv. split; [split; lra |].
    assert ((f + 1) * step == f * step + step)%Q by ring. lra. }
  split.
  - intros s Hle. unfold Binance._round_to_step. apply py_leb_le in Hle. by rewrite Hle.
  - reflexivity.
Qed.

Lemma round_to_step_idempotent_witness :
  let r := Binance._round_to_step 0.123456 (Some 0.01%Q) in
  Binance._round_to_step r (Some 0.01%Q) = r.
Proof.
  intros r. apply (round_to_step_idempotent 0.123456 0.01). reflexivity.
Defined.

(** X18. A price or stop price is clamped to the instrument's bounds only
    when the price filter has a tick size: with a tick size and bounds
    minPrice <= maxPrice the normalised price lies between them, and it is
    the tick-rounded price whenever that already lies between them; without
    a price filter, or without a tick size in it, the price goes through
    unchanged. *)
Theorem normalize_price_bounds (f : Binance.Filter) (tick lo hi value : Q) :
  Binance.tickSize f = Some tick ->
  Binance.minPrice f = Some lo ->
  Binance.maxPrice f = Some hi ->
  (lo <= hi)%Q ->
  let rounded := Binance._round_to_step value (Some tick) in
  (lo <= Binance.normalize_price (Some f) value <= hi)%Q
  /\ ((lo <= rounded <= hi)%Q -> Binance.normalize_price (Some f) value = rounded)
  /\ Binance.normalize_price None value = value
  /\ (forall g, Binance.tickSize g = None -> Binance.normalize_price (Some g) value = value).
Proof.
  intros Ht Hlo Hhi Hle rounded.
  unfold Binance.normalize_price. rewrite Ht, Hlo, Hhi. fold rounded.
  split; [| split; [| split]].
  - destruct (Py.ltb rounded lo) eqn:E1.
    + destruct (Py.ltb hi lo) eqn:E2.
      * apply py_ltb_lt in E2. lra.
      * lra.
    + apply py_ltb_ge in E1. destruct (Py.ltb hi rounded) eqn:E2.
      * lra.
      * apply py_ltb_ge in E2. lra.
  - intros [H1 H2].
    assert (E1 : Py.ltb rounded lo = false) by (by apply py_ltb_ge).
    assert (E2 : Py.ltb hi rounded = false) by (by apply py_ltb_ge).
    by rewrite E1, E2.
  - reflexivity.
  - intros g Hg. by rewrite Hg.
Qed.

Lemma normalize_price_bounds_witness :
  (1 <= Binance.normalize_price (Some Fixtures.price_filter) 29750.37 <= 1000000)%Q.
Proof.
  apply (normalize_price_bounds Fixtures.price_filter 0.1 1 1000000 29750.37);
    [reflexivity | reflexivity | reflexivity | discriminate].
Defined.

Lemma store_filters_fresh (symbols : list (string * list (string * Binance.Filter)))
    (cache : gmap string Binance.Filters) (key : string) :
  ~ In key (BinanceTrace.listed symbols) ->
  Binance.store_filters symbols cache !! key = cache !! key.
Proof.
  unfold Binance.store_filters, BinanceTrace.listed.
  revert cache. induction symbols as [| si symbols IH]; intros cache Hnot; cbn; [done |].
  cbn in Hnot. rewrite IH by tauto. apply lookup_insert_ne. tauto.
Qed.

Lemma get_symbol_filters_ok (ex : Binance.Exchange) (sym : string)
    (cl cl1 : Binance.Client) (filters : Binance.Filters) :
  Binance._get_symbol_filters ex sym cl = (Eff.Ok filters, cl1) ->
  Binance._symbol_filters cl1 !! Py.upper sym = Some filters
  /\ Binance.nonempty_dict filters = true.
Proof.
  unfold Binance._get_symbol_filters, Binance.fetch_symbol_filters. eff_unfold. cbn.
  destruct (Binance._symbol_filters cl !! Py.upper sym) as [cached |] eqn:Hc.
  - destruct (Binance.nonempty_dict cached) eqn:Hn.
    + intros [= <- <-]. done.
    + destruct (Binance.futures_exchange_info ex (Binance.calls cl)) as [symbols |];
        [| discriminate].
      cbn. destruct (Binance.store_filters symbols _ !! Py.upper sym) as [c2 |] eqn:Hc2;
        [| discriminate].
      destruct (Binance.nonempty_dict c2) eqn:Hn2; [| discriminate].
      intros [= <- <-]. done.
  - destruct (Binance.futures_exchange_info ex (Binance.calls cl)) as [symbols |];
      [| discriminate].
    cbn. destruct (Binance.store_filters symbols _ !! Py.upper sym) as [c2 |] eqn:Hc2;
      [| discriminate].
    destruct (Binance.nonempty_dict c2) eqn:Hn2; [| discriminate].
    intros [= <- <-]. done.
Qed.

(** X19. The filters of an instrument are fetched once: after a call of
    [_get_symbol_filters] that succeeded, a further call for the same symbol
    returns the same filters from the cache and leaves the client as it is,
    with no call to the exchange, whatever the exchange would answer. *)
Theorem symbol_filters_cached (ex ex' : Binance.Exchange) (sym : string)
    (cl cl1 : Binance.Client) (filters : Binance.Filters) :
  Binance._get_symbol_filters ex sym cl = (Eff.Ok filters, cl1) ->
  Binance._get_symbol_filters ex' sym cl1 = (Eff.Ok filters, cl1)
  /\ filters <> ∅
  /\ (Binance.calls cl1 = Binance.calls cl
      \/ Binance.calls cl1 = Binance.calls cl ++ [Binance.ExchangeInfo]).
Proof.
  intros Hget.
  pose proof (get_symbol_filters_ok _ _ _ _ _ Hget) as [Hc Hn].
  split; [| split].
  - unfold Binance._get_symbol_filters. eff_unfold. cbn. by rewrite Hc, Hn.
  - unfold Binance.nonempty_dict in Hn. apply negb_true_iff, bool_decide_eq_false in Hn. done.
  - revert Hget. unfold Binance._get_symbol_filters, Binance.fetch_symbol_filters.
    eff_unfold. cbn. eff_cases; intros [= <- <-]; cbn; auto.
Qed.

Lemma symbol_filters_cached_witness :
  let first := Binance._get_symbol_filters Fixtures.accepting_exchange "btcusdt"
                 Binance.new_client in
  Binance._get_symbol_filters Fixtures.exchange_without_lot_filter "btcusdt" (snd first)
  = (fst first, snd first).
Proof.
  intros first.
  assert (Hget : exists filters,
            Binance._get_symbol_filters Fixtures.accepting_exchange "btcusdt"
              Binance.new_client = (Eff.Ok filters, snd first)).
  { eexists. vm_compute. reflexivity. }
  destruct Hget as (filters & Hget).
  destruct (symbol_filters_cached Fixtures.accepting_exchange
              Fixtures.exchange_without_lot_filter "btcusdt" Binance.new_client
              (snd first) filters Hget) as (Hagain & _).
  rewrite Hagain. subst first. rewrite Hget. reflexivity.
Defined.

(** X20. An order for a symbol that is neither cached nor listed by the
    exchange is never sent: [place_order] asks for the exchange info once
    and raises [ValueError]; when the exchange info call itself fails, the
    failure is raised and again nothing is sent. *)
Theorem place_order_unknown_symbol (ex : Binance.Exchange) (o : Binance.OrderRequest)
    (cl : Binance.Client) :
  Binance._symbol_filters cl !! Py.upper (Binance.symbol o) = None ->
  let run := Binance.place_order ex o cl in
  (Binance.futures_exchange_info ex (Binance.calls cl) = None ->
     run = (Eff.Raise Eff.ExchangeError, Binance.log Binance.ExchangeInfo cl))
  /\ (forall symbols,
        Binance.futures_exchange_info ex (Binance.calls cl) = Some symbols ->
        ~ In (Py.upper (Binance.symbol o)) (BinanceTrace.listed symbols) ->
        fst run = Eff.Raise Eff.ValueError
        /\ Binance.orders_sent (snd run) = Binance.orders_sent cl
        /\ Binance.calls (snd run) = Binance.calls cl ++ [Binance.ExchangeInfo]).
Proof.
  intros Hnone run. subst run.
  unfold Binance.place_order, Binance._get_symbol_filters, Binance.fetch_symbol_filters.
  eff_unfold. cbn. rewrite Hnone. split.
  - intros Hinfo. rewrite Hinfo. reflexivity.
  - intros symbols Hinfo Hnot. rewrite Hinfo. cbn.
    rewrite (store_filters_fresh _ _ _ Hnot). cbn. rewrite Hnone. cbn.
    unfold Binance.orders_sent. cbn. rewrite omap_app. cbn. rewrite app_nil_r. done.
Qed.

Lemma place_order_unknown_symbol_witness :
  let o := {| Binance.symbol := "dogeusdt"; Binance.side := "BUY"; Binance.quantity := 10;
              Binance.order_type := "MARKET"; Binance.price := None;
              Binance.stop_price := None; Binance.reduce_only := false;
              Binance.position_side := None; Binance.time_in_force := None |} in
  let run := Binance.place_order Fixtures.accepting_exchange o Binance.new_client in
  fst run = Eff.Raise Eff.ValueError
  /\ Binance.orders_sent (snd run) = Binance.orders_sent Binance.new_client
  /\ Binance.calls (snd run) = Binance.calls Binance.new_client ++ [Binance.ExchangeInfo].
Proof.
  intros o run.
  assert (Hnone : Binance._symbol_filters Binance.new_client !! Py.upper (Binance.symbol o)
                  = None) by reflexivity.
  destruct (place_order_unknown_symbol Fixtures.accepting_exchange o Binance.new_client Hnone)
    as [_ Hunlisted].
  apply (Hunlisted [("BTCUSDT"%string,
                     [("LOT_SIZE"%string, Fixtures.lot_filter);
                      ("PRICE_FILTER"%string, Fixtures.price_filter)])]).
  - reflexivity.
  - cbn. intros [H | []]. discriminate.
Defined.

Lemma apply_symbol_filters_written_back (o o' : Binance.OrderRequest) (p' : Binance.Params)
    (filters : Binance.Filters) :
  Binance._apply_symbol_filters o (Binance.initial_params o) filters = Eff.Ok (o', p') ->
  Binance.symbol o' = Binance.symbol o
  /\ Binance.side o' = Binance.side o
  /\ Binance.order_type o' = Binance.order_type o
  /\ (forall q, Binance.p_quantity p' = Some q -> Binance.quantity o' = q)
  /\ (forall v, Binance.p_stopPrice p' = Some v -> Binance.stop_price o' = Some v)
  /\ (forall v, Binance.p_price p' = Some v -> Binance.price o' = Some v)
  /\ (Binance.p_quantity p' = None -> Binance.quantity o' = Binance.quantity o).
Proof.
  unfold Binance._apply_symbol_filters.
  cbn [Binance.initial_params Binance.p_quantity].
  destruct (Py.truthy (Binance.quantity o)) eqn:Hq;
    [destruct (Binance._select_lot_filter filters (Binance.order_type o)) as [lf |];
     [destruct (Py.leb _ 0); [discriminate |];
      destruct (match Binance.minQty lf with Some _ => _ | None => _ end);
      [discriminate |] |] |];
    intros [= <- <-]; cbn; rewrite ?Hq;
    repeat split; try reflexivity; try discriminate;
    try (intros ? [= <-]; reflexivity);
    try (intros ? H; rewrite H; reflexivity).
Qed.

(** X21. One call of [place_order] hands at most one order to the exchange.
    The order sent keeps the side, the type and the reduce-only flag of the
    request and carries the symbol in upper case; when the call fails with
    [ValueError] nothing was sent; and when it returns, the order object has
    been written back with the quantity, price and stop price that were
    sent. *)
Theorem place_order_sends_at_most_one (ex : Binance.Exchange) (o : Binance.OrderRequest)
    (cl : Binance.Client) :
  let run := Binance.place_order ex o cl in
  (Binance.orders_sent (snd run) = Binance.orders_sent cl
   \/ exists p,
        Binance.orders_sent (snd run) = Binance.orders_sent cl ++ [p]
        /\ Binance.p_symbol p = Py.upper (Binance.symbol o)
        /\ Binance.p_side p = Binance.side o
        /\ Binance.p_type p = Binance.order_type o
        /\ Binance.p_reduceOnly p = Binance.reduce_only o)
  /\ (fst run = Eff.Raise Eff.ValueError ->
      Binance.orders_sent (snd run) = Binance.orders_sent cl)
  /\ (forall o', fst run = Eff.Ok o' ->
        exists p,
          Binance.orders_sent (snd run) = Binance.orders_sent cl ++ [p]
          /\ Binance.symbol o' = Binance.symbol o
          /\ Binance.side o' = Binance.side o
          /\ (forall q, Binance.p_quantity p = Some q -> Binance.quantity o' = q)
          /\ (forall v, Binance.p_stopPrice p = Some v -> Binance.stop_price o' = Some v)
          /\ (forall v, Binance.p_price p = Some v -> Binance.price o' = Some v)).
Proof.
  intros run. subst run.
  destruct (Binance.place_order ex o cl) as [r cl'] eqn:Hplace. cbn [fst snd].
  apply place_order_inv in Hplace as [(e & Hget & ->) | (filters & cl1 & Hget & Happly)].
  - apply get_symbol_filters_frame in Hget as [Hsent _].
    split; [by left |]. split; [done |]. intros o' [=].
  - apply get_symbol_filters_frame in Hget as [Hsent _].
    destruct (Binance._apply_symbol_filters o (Binance.initial_params o) filters)
      as [[o1 p1] | e] eqn:Hf.
    + destruct Happly as [-> ->].
      pose proof (apply_symbol_filters_fields _ _ _ _ _ Hf) as (Hsym & Hside & Htype & Hro & _).
      pose proof (apply_symbol_filters_written_back _ _ _ _ Hf)
        as (Hs' & Hsd' & _ & Hq' & Hsp' & Hp' & _).
      rewrite orders_sent_log, Hsent.
      split; [right; by exists p1 |]. split.
      * destruct (Binance.futures_create_order ex (Binance.calls cl1) p1); discriminate.
      * intros o'. destruct (Binance.futures_create_order ex (Binance.calls cl1) p1);
          [| discriminate].
        intros [= <-]. by exists p1.
    + destruct Happly as [-> ->]. split; [by left |]. split; [done |]. intros o' [=].
Qed.

(** X22. The position mode is asked from the exchange at most once per
    client: [uses_dual_position_mode] never raises, counts a failed query as
    one-way mode, keeps a cached answer, and after any call a further call
    returns the same answer with no call to the exchange. *)
Theorem dual_position_mode_cached (ex ex' : Binance.Exchange) (cl : Binance.Client) :
  let run := Binance.uses_dual_position_mode ex cl in
  exists b,
    fst run = Eff.Ok b
    /\ Binance.uses_dual_position_mode ex' (snd run) = (Eff.Ok b, snd run)
    /\ Binance.orders_sent (snd run) = Binance.orders_sent cl
    /\ (forall c, Binance._dual_position_mode cl = Some c -> b = c /\ snd run = cl)
    /\ (Binance._dual_position_mode cl = None ->
        b = default false (Binance.futures_get_position_mode ex (Binance.calls cl))
        /\ Binance.calls (snd run) = Binance.calls cl ++ [Binance.GetPositionMode]).
Proof.
  intros run. subst run. unfold Binance.uses_dual_position_mode. eff_unfold.
  destruct (Binance._dual_position_mode cl) as [c |] eqn:Hc; cbn.
  - exists c. rewrite ?Hc. split; [done |]. split; [done |]. split; [done |].
    split; [by intros c' [= <-] | discriminate].
  - eexists. split; [reflexivity |]. split; [reflexivity |].
    split; [unfold Binance.orders_sent; cbn; rewrite omap_app; cbn; by rewrite app_nil_r |].
    split; [intros c [=] |]. done.
Qed.

(** ** Trade engine: the other transitions of [process_signal] *)

Lemma same_engine_refl (st : TradeEngine.t) : EngineTrace.same_engine st st.
Proof. by repeat split. Qed.

Lemma same_engine_trans (a b c : TradeEngine.t) :
  EngineTrace.same_engine a b -> EngineTrace.same_engine b c -> EngineTrace.same_engine a c.
Proof.
  unfold EngineTrace.same_engine. intros (H1 & H2 & H3 & H4 & H5) (K1 & K2 & K3 & K4 & K5).
  rewrite K1, K2, K3, K4, K5. done.
Qed.

Lemma leverage_calls_log (c : Binance.Call) (cl : Binance.Client) :
  BinanceTrace.leverage_calls (Binance.log c cl)
  = BinanceTrace.leverage_calls cl
    ++ match c with Binance.ChangeLeverage s l => [(s, l)] | _ => [] end.
Proof.
  unfold BinanceTrace.leverage_calls, Binance.log. cbn. rewrite omap_app. cbn.
  destruct c; reflexivity.
Qed.

Lemma get_symbol_filters_leverage_calls (ex : Binance.Exchange) (sym : string)
    (cl cl' : Binance.Client) (r : Eff.result Binance.Filters) :
  Binance._get_symbol_filters ex sym cl = (r, cl') ->
  BinanceTrace.leverage_calls cl' = BinanceTrace.leverage_calls cl.
Proof.
  unfold Binance._get_symbol_filters, Binance.fetch_symbol_filters. eff_unfold. cbn.
  eff_cases; intros [= <- <-]; unfold BinanceTrace.leverage_calls; cbn;
    rewrite ?omap_app; cbn; rewrite ?app_nil_r; reflexivity.
Qed.

Lemma place_order_leverage_calls (ex : Binance.Exchange) (o : Binance.OrderRequest)
    (cl cl' : Binance.Client) (r : Eff.result Binance.OrderRequest) :
  Binance.place_order ex o cl = (r, cl') ->
  BinanceTrace.leverage_calls cl' = BinanceTrace.leverage_calls cl.
Proof.
  intros Hplace.
  apply place_order_inv in Hplace as [(e & Hget & _) | (filters & cl1 & Hget & Happly)].
  - by apply get_symbol_filters_leverage_calls in Hget.
  - apply get_symbol_filters_leverage_calls in Hget.
    destruct (Binance._apply_symbol_filters o (Binance.initial_params o) filters)
      as [[o1 p1] | e].
    + destruct Happly as [-> _]. by rewrite leverage_calls_log, app_nil_r.
    + destruct Happly as [_ ->]. done.
Qed.

Lemma apply_symbol_filters_sent_values (o o' : Binance.OrderRequest) (p' : Binance.Params)
    (filters : Binance.Filters) :
  Binance._apply_symbol_filters o (Binance.initial_params o) filters = Eff.Ok (o', p') ->
  (Py.truthy (Binance.quantity o) = true -> exists q, Binance.p_quantity p' = Some q)
  /\ Binance.p_stopPrice p'
     = Binance.normalize_price (filters !! "PRICE_FILTER"%string) <$> Binance.stop_price o.
Proof.
  unfold Binance._apply_symbol_filters.
  cbn [Binance.initial_params Binance.p_quantity].
  destruct (Py.truthy (Binance.quantity o)) eqn:Hq;
    [destruct (Binance._select_lot_filter filters (Binance.order_type o)) as [lf |];
     [destruct (Py.leb _ 0); [discriminate |];
      destruct (match Binance.minQty lf with Some _ => _ | None => _ end);
      [discriminate |] |] |];
    intros [= <- <-]; cbn; rewrite ?Hq; split; try done; eauto.
Qed.

(** A call of [place_order] made by the engine that returns. *)
Lemma engine_place_order_ok (ex : Binance.Exchange) (o o' : Binance.OrderRequest)
    (st st' : TradeEngine.t) :
  TradeEngine.on_client (Binance.place_order ex o) st = (Eff.Ok o', st') ->
  EngineTrace.same_engine st st'
  /\ TradeEngine._dual_side_position st' = TradeEngine._dual_side_position st
  /\ exists p,
       EngineTrace.orders_sent st' = EngineTrace.orders_sent st ++ [p]
       /\ Binance.p_type p = Binance.order_type o
       /\ Binance.p_side p = Binance.side o
       /\ Binance.p_reduceOnly p = Binance.reduce_only o
       /\ (forall q, Binance.p_quantity p = Some q -> Binance.quantity o' = q)
       /\ (Py.truthy (Binance.quantity o) = true -> exists q, Binance.p_quantity p = Some q)
       /\ (forall v0, Binance.stop_price o = Some v0 ->
             exists v, Binance.p_stopPrice p = Some v /\ Binance.stop_price o' = Some v).
Proof.
  unfold TradeEngine.on_client, Eff.zoom.
  destruct (Binance.place_order ex o (TradeEngine._client st)) as [r cl'] eqn:Hplace.
  intros [= -> <-].
  pose proof (place_order_leverage_calls _ _ _ _ _ Hplace) as Hlev.
  split; [by repeat split |]. split; [done |].
  apply place_order_inv in Hplace as [(e & _ & He) | (filters & cl1 & Hget & Happly)];
    [discriminate |].
  apply get_symbol_filters_frame in Hget as [Hsent _].
  destruct (Binance._apply_symbol_filters o (Binance.initial_params o) filters)
    as [[o1 p1] | e] eqn:Hf; [| destruct Happly; discriminate].
  destruct Happly as [-> Hr].
  destruct (Binance.futures_create_order ex (Binance.calls cl1) p1); [| discriminate].
  injection Hr as <-.
  pose proof (apply_symbol_filters_fields _ _ _ _ _ Hf) as (_ & Hside & Htype & Hro & _).
  pose proof (apply_symbol_filters_written_back _ _ _ _ Hf) as (_ & _ & _ & Hq & Hsp & _).
  pose proof (apply_symbol_filters_sent_values _ _ _ _ Hf) as (Hsome & Hstop).
  exists p1. unfold EngineTrace.orders_sent.
  cbn [TradeEngine._client TradeEngine.set_client]. rewrite orders_sent_log, Hsent.
  repeat split; try done.
  intros v0 Hv0. rewrite Hv0 in Hstop. cbn in Hstop. eexists. split; [exact Hstop |].
  by apply Hsp.
Qed.

(** A call of [place_order] made by the engine, whatever its outcome. *)
Lemma engine_place_order_any (ex : Binance.Exchange) (o : Binance.OrderRequest)
    (st st' : TradeEngine.t) (r : Eff.result Binance.OrderRequest) :
  TradeEngine.on_client (Binance.place_order ex o) st = (r, st') ->
  EngineTrace.same_engine st st'.
Proof.
  unfold TradeEngine.on_client, Eff.zoom.
  destruct (Binance.place_order ex o (TradeEngine._client st)) as [r0 cl'] eqn:Hplace.
  intros [= -> <-].
  pose proof (place_order_leverage_calls _ _ _ _ _ Hplace) as Hlev.
  by repeat split.
Qed.

Lemma position_side_for_keep (ex : Binance.Exchange) (direction : string)
    (st : TradeEngine.t) :
  exists ps st',
    TradeEngine._position_side_for ex direction st = (Eff.Ok ps, st')
    /\ EngineTrace.same_engine st st'
    /\ EngineTrace.orders_sent st' = EngineTrace.orders_sent st.
Proof.
  unfold TradeEngine._position_side_for, TradeEngine._is_dual_position_mode,
    TradeEngine.on_client, Binance.uses_dual_position_mode. eff_unfold.
  destruct (negb (TradeEngine.is_long_short direction)).
  { exists None, st. split; [done |]. split; [apply same_engine_refl | done]. }
  destruct (TradeEngine._dual_side_position st) as [b |].
  - destruct b; cbn; eexists _, st;
      (split; [reflexivity |]); (split; [apply same_engine_refl | done]).
  - destruct (Binance._dual_position_mode (TradeEngine._client st)) as [b |]; cbn.
    + destruct b; cbn; eexists _, _; (split; [reflexivity |]);
        (split; [by repeat split | done]).
    + destruct (default false (Binance.futures_get_position_mode ex
                                 (Binance.calls (TradeEngine._client st))));
        cbn; eexists _, _; (split; [reflexivity |]);
        (split; [repeat split; try done;
                 unfold BinanceTrace.leverage_calls; cbn; rewrite omap_app; cbn;
                 by rewrite app_nil_r
                |unfold EngineTrace.orders_sent, Binance.orders_sent; cbn;
                 rewrite omap_app; cbn; by rewrite app_nil_r]).
Qed.

Ltac engine_call H :=
  match goal with
  | |- context [TradeEngine.on_client ?m ?s] =>
      let r := fresh "r" in
      let st := fresh "st" in
      destruct (TradeEngine.on_client m s) as [[r | ?] st] eqn:H; [| discriminate]
  end.

Lemma protection_orders_ok (ex : Binance.Exchange) (direction : string)
    (sizing sizing' : RiskManager.PositionSizing) (st st' : TradeEngine.t) :
  TradeEngine._place_protection_orders ex direction sizing st = (Eff.Ok sizing', st') ->
  EngineTrace.same_engine st st'
  /\ exists s t,
       EngineTrace.orders_sent st' = EngineTrace.orders_sent st ++ [s; t]
       /\ Binance.p_type s = "STOP_MARKET"%string
       /\ Binance.p_type t = "TAKE_PROFIT_MARKET"%string
       /\ Binance.p_side s = EngineTrace.exit_side direction
       /\ Binance.p_side t = EngineTrace.exit_side direction
       /\ RiskManager.quantity sizing' = RiskManager.quantity sizing
       /\ RiskManager.notional sizing' = RiskManager.notional sizing
       /\ RiskManager.cost sizing' = RiskManager.cost sizing
       /\ RiskManager.trailing_active sizing' = RiskManager.trailing_active sizing
       /\ (exists v, Binance.p_stopPrice s = Some v
                     /\ RiskManager.stop_loss sizing'
                        = TradeEngine.num_or (Some v) (RiskManager.stop_loss sizing))
       /\ (exists v, Binance.p_stopPrice t = Some v
                     /\ RiskManager.take_profit sizing'
                        = TradeEngine.num_or (Some v) (RiskManager.take_profit sizing)).
Proof.
  unfold TradeEngine._place_protection_orders. unfold Eff.bind at 1.
  destruct (position_side_for_keep ex direction st) as (ps & st1 & Hps & Hsame1 & Hsent1).
  rewrite Hps. unfold Eff.bind, Eff.gets, Eff.ret.
  engine_call H1. engine_call H2. intros [= <- <-].
  apply engine_place_order_ok in H1 as (Hsame2 & _ & s & Hs_sent & Hs_type & Hs_side & _ & _ & _ & Hs_stop).
  apply engine_place_order_ok in H2 as (Hsame3 & _ & t & Ht_sent & Ht_type & Ht_side & _ & _ & _ & Ht_stop).
  split; [eauto using same_engine_trans |].
  exists s, t. rewrite Ht_sent, Hs_sent, Hsent1, <- app_assoc.
  destruct (Hs_stop _ eq_refl) as (v1 & Hv1 & Hback1).
  destruct (Ht_stop _ eq_refl) as (v2 & Hv2 & Hback2).
  cbn in *. rewrite Hback1, Hback2.
  repeat split; try done; eauto.
Qed.

Lemma open_position_ok (ex : Binance.Exchange) (direction : string)
    (sizing sizing' : RiskManager.PositionSizing) (st st' : TradeEngine.t) :
  Py.truthy (RiskManager.quantity sizing) = true ->
  TradeEngine._open_position ex direction sizing st = (Eff.Ok sizing', st') ->
  EngineTrace.same_engine st st'
  /\ exists e s t,
       EngineTrace.orders_sent st' = EngineTrace.orders_sent st ++ [e; s; t]
       /\ Binance.p_type e = "MARKET"%string
       /\ Binance.p_side e = EngineTrace.entry_side direction
       /\ Binance.p_reduceOnly e = false
       /\ Binance.p_quantity e = Some (RiskManager.quantity sizing')
       /\ Binance.p_type s = "STOP_MARKET"%string
       /\ Binance.p_type t = "TAKE_PROFIT_MARKET"%string
       /\ Binance.p_side s = EngineTrace.exit_side direction
       /\ Binance.p_side t = EngineTrace.exit_side direction
       /\ RiskManager.notional sizing' = RiskManager.notional sizing
       /\ RiskManager.cost sizing' = RiskManager.cost sizing
       /\ RiskManager.trailing_active sizing' = RiskManager.trailing_active sizing
       /\ (exists v, Binance.p_stopPrice s = Some v
                     /\ RiskManager.stop_loss sizing'
                        = TradeEngine.num_or (Some v) (RiskManager.stop_loss sizing))
       /\ (exists v, Binance.p_stopPrice t = Some v
                     /\ RiskManager.take_profit sizing'
                        = TradeEngine.num_or (Some v) (RiskManager.take_profit sizing)).
Proof.
  intros Htruthy. unfold TradeEngine._open_position. unfold Eff.bind at 1.
  destruct (position_side_for_keep ex direction st) as (ps & st1 & Hps & Hsame1 & Hsent1).
  rewrite Hps. unfold Eff.bind, Eff.gets.
  engine_call H1. intros Hprot.
  apply engine_place_order_ok in H1
    as (Hsame2 & _ & e & He_sent & He_type & He_side & He_ro & He_back & He_some & _).
  apply protection_orders_ok in Hprot
    as (Hsame3 & s & t & Hst_sent & Hs_type & Ht_type & Hs_side & Ht_side
        & Hq & Hn & Hc & Htr & Hstop & Htp).
  split; [eauto using same_engine_trans |].
  exists e, s, t. rewrite Hst_sent, He_sent, Hsent1, <- app_assoc.
  destruct (He_some Htruthy) as (q & Hqe).
  cbn in *. rewrite Hq, Hqe, (He_back _ Hqe).
  repeat split; try done.
Qed.

Ltac engine_call_any H :=
  match goal with
  | |- context [TradeEngine.on_client ?m ?s] =>
      let r := fresh "r" in
      let st := fresh "st" in
      destruct (TradeEngine.on_client m s) as [[r | ?] st] eqn:H;
      apply engine_place_order_any in H
  end.

Lemma close_position_any (ex : Binance.Exchange) (p : Portfolio.Position)
    (st st' : TradeEngine.t) (r : Eff.result unit) :
  TradeEngine._close_position ex p st = (r, st') -> EngineTrace.same_engine st st'.
Proof.
  unfold TradeEngine._close_position. unfold Eff.bind at 1.
  destruct (position_side_for_keep ex (Portfolio.direction p) st)
    as (ps & st1 & Hps & Hsame1 & _).
  rewrite Hps. unfold Eff.bind, Eff.gets, Eff.ret.
  engine_call_any H1; intros [= <- <-]; eauto using same_engine_trans.
Qed.

Lemma protection_orders_any (ex : Binance.Exchange) (direction : string)
    (sizing : RiskManager.PositionSizing) (st st' : TradeEngine.t)
    (r : Eff.result RiskManager.PositionSizing) :
  TradeEngine._place_protection_orders ex direction sizing st = (r, st') ->
  EngineTrace.same_engine st st'.
Proof.
  unfold TradeEngine._place_protection_orders. unfold Eff.bind at 1.
  destruct (position_side_for_keep ex direction st) as (ps & st1 & Hps & Hsame1 & _).
  rewrite Hps. unfold Eff.bind, Eff.gets, Eff.ret.
  engine_call_any H1; [engine_call_any H2 |]; intros [= <- <-];
    eauto using same_engine_trans.
Qed.

Lemma open_position_any (ex : Binance.Exchange) (direction : string)
    (sizing : RiskManager.PositionSizing) (st st' : TradeEngine.t)
    (r : Eff.result RiskManager.PositionSizing) :
  TradeEngine._open_position ex direction sizing st = (r, st') ->
  EngineTrace.same_engine st st'.
Proof.
  unfold TradeEngine._open_position. unfold Eff.bind at 1.
  destruct (position_side_for_keep ex direction st) as (ps & st1 & Hps & Hsame1 & _).
  rewrite Hps. unfold Eff.bind, Eff.gets.
  engine_call_any H1.
  - intros Hprot. apply protection_orders_any in Hprot. eauto using same_engine_trans.
  - intros [= <- <-]. eauto using same_engine_trans.
Qed.

(** What [_ensure_leverage] does, in full. *)
Lemma ensure_leverage_cases (ex : Binance.Exchange) (st : TradeEngine.t) :
  let sym := Py.upper (TradeEngine._symbol st) in
  let lev := RiskManager._leverage (TradeEngine._risk st) in
  let called :=
    TradeEngine.set_client
      (Binance.log (Binance.ChangeLeverage sym lev) (TradeEngine._client st)) st in
  TradeEngine._ensure_leverage ex st
  = if TradeEngine._leverage_synced st then (Eff.Ok tt, st)
    else if Binance.futures_change_leverage ex (Binance.calls (TradeEngine._client st)) sym lev
         then (Eff.Ok tt, TradeEngine.set_leverage_synced true called)
         else (Eff.Raise Eff.ExchangeError, called).
Proof.
  cbv zeta. unfold TradeEngine._ensure_leverage, TradeEngine.on_client,
    Binance.change_leverage. eff_unfold.
  destruct (TradeEngine._leverage_synced st); [done |]. cbn.
  by destruct (Binance.futures_change_leverage _ _ _ _).
Qed.

Lemma flat_close_cycle_unfold
    (ex : Binance.Exchange) (st : TradeEngine.t) (decision : SignalEngine.SignalDecision)
    (price : Q) (volatility : VolatilitySnapshot) (p : Portfolio.Position) :
  Portfolio.get_position (TradeEngine._portfolio st) (TradeEngine._symbol st) = Some p ->
  SignalEngine.direction decision = "flat"%string ->
  TradeEngine.process_signal ex decision price volatility st
  = match TradeEngine._ensure_leverage ex st with
    | (Eff.Ok _, st0) =>
        match TradeEngine._close_position ex p st0 with
        | (Eff.Ok _, st1) =>
            (Eff.Ok (TradeEngine.report false true "Fechando posicao por sinal neutro"),
             TradeEngine.set_portfolio
               (Portfolio.remove_position (TradeEngine._portfolio st1) (TradeEngine._symbol st0))
               st1)
        | (Eff.Raise e, st1) => (Eff.Raise e, st1)
        end
    | (Eff.Raise e, st0) => (Eff.Raise e, st0)
    end.
Proof.
  intros Hpos Hflat.
  unfold TradeEngine.process_signal. unfold Eff.bind at 1.
  destruct (TradeEngine._ensure_leverage ex st) as [[[] | e] st0] eqn:Hlev; [| done].
  apply ensure_leverage_frame in Hlev as (Hpf0 & Hsym0 & _ & _ & _).
  eff_unfold. rewrite Hsym0, Hpf0, Hpos, Hflat. cbn [String.eqb Ascii.eqb Bool.eqb].
  destruct (TradeEngine._close_position ex p st0) as [[[] | e] st1]; done.
Qed.

(** X23. When a position is open for the engine's symbol and the decision
    is "flat", a cycle of [process_signal] that returns reports the close,
    has removed the position, and has sent exactly one order: a market order
    on the exit side of the position, reduce-only or tagged with the side of
    the position. *)
Theorem process_signal_flat_closes
    (ex : Binance.Exchange) (st : TradeEngine.t) (decision : SignalEngine.SignalDecision)
    (price : Q) (volatility : VolatilitySnapshot) (p : Portfolio.Position) :
  Portfolio.get_position (TradeEngine._portfolio st) (TradeEngine._symbol st) = Some p ->
  SignalEngine.direction decision = "flat"%string ->
  Eff.returns_normally (TradeEngine.process_signal ex decision price volatility) st ->
  exists st' cp,
    TradeEngine.process_signal ex decision price volatility st
      = (Eff.Ok (TradeEngine.report false true "Fechando posicao por sinal neutro"), st')
    /\ TradeEngine._portfolio st'
       = Portfolio.remove_position (TradeEngine._portfolio st) (TradeEngine._symbol st)
    /\ Portfolio.get_position (TradeEngine._portfolio st') (TradeEngine._symbol st) = None
    /\ EngineTrace.orders_sent st' = EngineTrace.orders_sent st ++ [cp]
    /\ Binance.p_type cp = "MARKET"%string
    /\ Binance.p_side cp = EngineTrace.exit_side (Portfolio.direction p)
    /\ ((Binance.p_reduceOnly cp = true /\ Binance.p_positionSide cp = None)
        \/ Binance.p_positionSide cp
             = Some (if String.eqb (Portfolio.direction p) "long"
                     then "LONG" else "SHORT")%string).
Proof.
  intros Hpos Hflat (rep & stf & Hrun).
  rewrite (flat_close_cycle_unfold ex st decision price volatility p Hpos Hflat) in Hrun |- *.
  destruct (TradeEngine._ensure_leverage ex st) as [[[] | e] st0] eqn:Hlev; [| discriminate].
  apply ensure_leverage_frame in Hlev as (Hpf0 & Hsym0 & _ & _ & Hsent0).
  destruct (TradeEngine._close_position ex p st0) as [[[] | e] st1] eqn:Hclose;
    [| discriminate].
  apply close_position_inv in Hclose as (Hpf1 & Hsym1 & Hcp).
  destruct (Hcp eq_refl) as (cp & Hsent1 & Htype & Hside & Hro).
  eexists _, cp. split; [reflexivity |].
  unfold EngineTrace.orders_sent, EngineTrace.exit_side. cbn.
  rewrite Hpf1, Hpf0, Hsym0, Hsent1, Hsent0.
  split; [done |]. split; [| done].
  unfold Portfolio.remove_position, Portfolio.get_position in *. rewrite Hpos. cbn.
  apply lookup_delete_eq.
Qed.

Lemma process_signal_flat_closes_witness :
  let st := Fixtures.engine_with_long in
  exists st' cp,
    TradeEngine.process_signal Fixtures.accepting_exchange (Fixtures.decision "flat")
        30000 Fixtures.calm st
      = (Eff.Ok (TradeEngine.report false true "Fechando posicao por sinal neutro"), st')
    /\ TradeEngine._portfolio st'
       = Portfolio.remove_position (TradeEngine._portfolio st) (TradeEngine._symbol st)
    /\ Portfolio.get_position (TradeEngine._portfolio st') (TradeEngine._symbol st) = None
    /\ EngineTrace.orders_sent st' = EngineTrace.orders_sent st ++ [cp]
    /\ Binance.p_type cp = "MARKET"%string
    /\ Binance.p_side cp = EngineTrace.exit_side (Portfolio.direction Fixtures.long_position)
    /\ ((Binance.p_reduceOnly cp = true /\ Binance.p_positionSide cp = None)
        \/ Binance.p_positionSide cp
             = Some (if String.eqb (Portfolio.direction Fixtures.long_position) "long"
                     then "LONG" else "SHORT")%string).
Proof.
  intros st.
  apply (process_signal_flat_closes Fixtures.accepting_exchange st (Fixtures.decision "flat")
           30000 Fixtures.calm Fixtures.long_position).
  - vm_compute. reflexivity.
  - reflexivity.
  - exists (TradeEngine.report false true "Fechando posicao por sinal neutro"),
      (snd (TradeEngine.process_signal Fixtures.accepting_exchange (Fixtures.decision "flat")
              30000 Fixtures.calm st)).
    vm_compute. reflexivity.
Defined.

(** A cycle that stops after the leverage check with a report and no other
    effect. *)
Lemma noop_cycle_frames (ex : Binance.Exchange) (st : TradeEngine.t)
    (run : Eff.result TradeEngine.ExecutionReport * TradeEngine.t) (msg : string) :
  run = match TradeEngine._ensure_leverage ex st with
        | (Eff.Ok _, st0) => (Eff.Ok (TradeEngine.report false false msg), st0)
        | (Eff.Raise e, st0) => (Eff.Raise e, st0)
        end ->
  TradeEngine._portfolio (snd run) = TradeEngine._portfolio st
  /\ EngineTrace.orders_sent (snd run) = EngineTrace.orders_sent st
  /\ (fst run = Eff.Ok (TradeEngine.report false false msg)
      \/ fst run = Eff.Raise Eff.ExchangeError)
  /\ (TradeEngine._leverage_synced st = true ->
      run = (Eff.Ok (TradeEngine.report false false msg), st)).
Proof.
  intros ->. rewrite ensure_leverage_cases.
  destruct (TradeEngine._leverage_synced st).
  { repeat split; try done. by left. }
  destruct (Binance.futures_change_leverage _ _ _ _);
    unfold EngineTrace.orders_sent;
    cbn [fst snd TradeEngine.set_leverage_synced TradeEngine.set_client
           TradeEngine._portfolio TradeEngine._client];
    rewrite orders_sent_log, app_nil_r; repeat split; try done; [by left | by right].
Qed.

Lemma noop_cycle_unfold
    (ex : Binance.Exchange) (st : TradeEngine.t) (decision : SignalEngine.SignalDecision)
    (price : Q) (volatility : VolatilitySnapshot) :
  String.eqb (SignalEngine.direction decision) "flat" = false ->
  let position := Portfolio.get_position (TradeEngine._portfolio st) (TradeEngine._symbol st) in
  let sizing := RiskManager.size_position (TradeEngine._risk st) price volatility
                  (SignalEngine.direction decision) in
  forall msg,
    ((exists p, position = Some p
                /\ Portfolio.direction p = SignalEngine.direction decision
                /\ msg = "Mantendo posicao atual"%string)
     \/ (position = None
         /\ Portfolio.can_open (TradeEngine._portfolio st) (TradeEngine._symbol st) = false
         /\ msg = "Limite de posicoes atingido"%string)
     \/ (position = None
         /\ Portfolio.can_open (TradeEngine._portfolio st) (TradeEngine._symbol st) = true
         /\ (RiskManager.quantity sizing <= 0)%Q
         /\ msg = "Tamanho de posicao invalido"%string)) ->
    TradeEngine.process_signal ex decision price volatility st
    = match TradeEngine._ensure_leverage ex st with
      | (Eff.Ok _, st0) => (Eff.Ok (TradeEngine.report false false msg), st0)
      | (Eff.Raise e, st0) => (Eff.Raise e, st0)
      end.
Proof.
  intros Hflat position sizing msg Hcase. subst position sizing.
  unfold TradeEngine.process_signal. unfold Eff.bind at 1.
  destruct (TradeEngine._ensure_leverage ex st) as [[[] | e] st0] eqn:Hlev; [| done].
  apply ensure_leverage_frame in Hlev as (Hpf0 & Hsym0 & Hrisk0 & _ & _).
  eff_unfold. rewrite Hsym0, Hpf0, Hflat.
  destruct Hcase as [(p & Hp & Hdir & ->) | [(Hp & Hcan & ->) | (Hp & Hcan & Hq & ->)]];
    rewrite Hp.
  - rewrite Hdir, String.eqb_refl. reflexivity.
  - cbv beta. rewrite ?Hpf0, ?Hsym0, Hcan. reflexivity.
  - cbv beta. rewrite ?Hpf0, ?Hsym0, Hcan. cbn [negb]. cbv beta. rewrite ?Hrisk0.
    apply py_leb_le in Hq. rewrite Hq. reflexivity.
Qed.

(** X24. When the open position already has the direction of a long or
    short decision, [process_signal] holds: no order is sent, the portfolio
    is unchanged and the report says the position is kept (unless the
    leverage synchronisation of a first cycle fails); with the leverage
    already synchronised the engine is left exactly as it was. *)
Theorem process_signal_holds
    (ex : Binance.Exchange) (st : TradeEngine.t) (decision : SignalEngine.SignalDecision)
    (price : Q) (volatility : VolatilitySnapshot) (p : Portfolio.Position) :
  Portfolio.get_position (TradeEngine._portfolio st) (TradeEngine._symbol st) = Some p ->
  Portfolio.direction p = SignalEngine.direction decision ->
  SignalEngine.direction decision <> "flat"%string ->
  let run := TradeEngine.process_signal ex decision price volatility st in
  let hold := TradeEngine.report false false "Mantendo posicao atual" in
  TradeEngine._portfolio (snd run) = TradeEngine._portfolio st
  /\ EngineTrace.orders_sent (snd run) = EngineTrace.orders_sent st
  /\ (fst run = Eff.Ok hold \/ fst run = Eff.Raise Eff.ExchangeError)
  /\ (TradeEngine._leverage_synced st = true -> run = (Eff.Ok hold, st)).
Proof.
  intros Hpos Hdir Hflat run hold.
  apply (noop_cycle_frames ex). subst run.
  apply noop_cycle_unfold; [by apply string_eqb_neq |].
  left. by exists p.
Qed.

Lemma process_signal_holds_witness :
  let st := TradeEngine.set_leverage_synced true Fixtures.engine_with_long in
  TradeEngine.process_signal Fixtures.accepting_exchange (Fixtures.decision "long")
      30000 Fixtures.calm st
  = (Eff.Ok (TradeEngine.report false false "Mantendo posicao atual"), st).
Proof.
  intros st.
  assert (Hpos : Portfolio.get_position (TradeEngine._portfolio st) (TradeEngine._symbol st)
                 = Some Fixtures.long_position) by (vm_compute; reflexivity).
  assert (Hdir : Portfolio.direction Fixtures.long_position
                 = SignalEngine.direction (Fixtures.decision "long")) by reflexivity.
  assert (Hflat : SignalEngine.direction (Fixtures.decision "long") <> "flat"%string)
    by discriminate.
  destruct (process_signal_holds Fixtures.accepting_exchange st (Fixtures.decision "long")
              30000 Fixtures.calm Fixtures.long_position Hpos Hdir Hflat)
    as (_ & _ & _ & Hsame).
  apply Hsame. reflexivity.
Defined.

(** X25. With no position for the engine's symbol and a portfolio that
    cannot open one (the limit is reached), a long or short decision sends
    no order and leaves the portfolio unchanged; the report says the limit
    is reached. *)
Theorem process_signal_limit_reached
    (ex : Binance.Exchange) (st : TradeEngine.t) (decision : SignalEngine.SignalDecision)
    (price : Q) (volatility : VolatilitySnapshot) :
  Portfolio.get_position (TradeEngine._portfolio st) (TradeEngine._symbol st) = None ->
  Portfolio.can_open (TradeEngine._portfolio st) (TradeEngine._symbol st) = false ->
  SignalEngine.direction decision <> "flat"%string ->
  let run := TradeEngine.process_signal ex decision price volatility st in
  let refused := TradeEngine.report false false "Limite de posicoes atingido" in
  TradeEngine._portfolio (snd run) = TradeEngine._portfolio st
  /\ EngineTrace.orders_sent (snd run) = EngineTrace.orders_sent st
  /\ (fst run = Eff.Ok refused \/ fst run = Eff.Raise Eff.ExchangeError)
  /\ (TradeEngine._leverage_synced st = true -> run = (Eff.Ok refused, st))
  /\ (Portfolio._max_positions (TradeEngine._portfolio st)
        <= Portfolio.count (TradeEngine._portfolio st))%Z.
Proof.
  intros Hpos Hcan Hflat run refused.
  assert (Hfull : (Portfolio._max_positions (TradeEngine._portfolio st)
                     <= Portfolio.count (TradeEngine._portfolio st))%Z).
  { unfold Portfolio.can_open, Portfolio.get_position, Portfolio.count in *.
    rewrite Hpos in Hcan. by apply Z.ltb_ge in Hcan. }
  assert (Hframes := noop_cycle_frames ex st run "Limite de posicoes atingido").
  destruct Hframes as (H1 & H2 & H3 & H4).
  { subst run. apply noop_cycle_unfold; [by apply string_eqb_neq |]. right. left. done. }
  done.
Qed.

Lemma process_signal_limit_reached_witness :
  let st := TradeEngine.set_leverage_synced true
              (TradeEngine.init Binance.new_client (Portfolio.init 0) Fixtures.risk_manager
                 "btcusdt") in
  TradeEngine.process_signal Fixtures.accepting_exchange (Fixtures.decision "long")
      30000 Fixtures.calm st
  = (Eff.Ok (TradeEngine.report false false "Limite de posicoes atingido"), st).
Proof.
  intros st.
  assert (Hpos : Portfolio.get_position (TradeEngine._portfolio st) (TradeEngine._symbol st)
                 = None) by reflexivity.
  assert (Hcan : Portfolio.can_open (TradeEngine._portfolio st) (TradeEngine._symbol st)
                 = false) by reflexivity.
  assert (Hflat : SignalEngine.direction (Fixtures.decision "long") <> "flat"%string)
    by discriminate.
  destruct (process_signal_limit_reached Fixtures.accepting_exchange st
              (Fixtures.decision "long") 30000 Fixtures.calm Hpos Hcan Hflat)
    as (_ & _ & _ & Hsame & _).
  apply Hsame. reflexivity.
Defined.

(** X26. With no position, room in the portfolio and a sizing whose
    quantity is not positive (in particular whenever the ATR is 0), a long
    or short decision sends no order and leaves the portfolio unchanged; the
    report says the size is invalid. *)
Theorem process_signal_invalid_size
    (ex : Binance.Exchange) (st : TradeEngine.t) (decision : SignalEngine.SignalDecision)
    (price : Q) (volatility : VolatilitySnapshot) :
  Portfolio.get_position (TradeEngine._portfolio st) (TradeEngine._symbol st) = None ->
  Portfolio.can_open (TradeEngine._portfolio st) (TradeEngine._symbol st) = true ->
  SignalEngine.direction decision <> "flat"%string ->
  (RiskManager.quantity
     (RiskManager.size_position (TradeEngine._risk st) price volatility
        (SignalEngine.direction decision)) <= 0)%Q
  \/ (atr volatility == 0)%Q ->
  let run := TradeEngine.process_signal ex decision price volatility st in
  let refused := TradeEngine.report false false "Tamanho de posicao invalido" in
  TradeEngine._portfolio (snd run) = TradeEngine._portfolio st
  /\ EngineTrace.orders_sent (snd run) = EngineTrace.orders_sent st
  /\ (fst run = Eff.Ok refused \/ fst run = Eff.Raise Eff.ExchangeError)
  /\ (TradeEngine._leverage_synced st = true -> run = (Eff.Ok refused, st)).
Proof.
  intros Hpos Hcan Hflat Hsize run refused.
  assert (Hq : (RiskManager.quantity
                  (RiskManager.size_position (TradeEngine._risk st) price volatility
                     (SignalEngine.direction decision)) <= 0)%Q).
  { destruct Hsize as [Hq | Hatr]; [done |].
    pose proof (size_position_cases (TradeEngine._risk st) price volatility
                  (SignalEngine.direction decision)) as Hcases.
    cbv zeta in Hcases. destruct Hcases as [-> | (_ & _ & Hstop & _)].
    - cbn. discriminate.
    - rewrite Hatr in Hstop. lra. }
  apply (noop_cycle_frames ex). subst run.
  apply noop_cycle_unfold; [by apply string_eqb_neq |]. right. right. done.
Qed.

Lemma process_signal_invalid_size_witness :
  let st := TradeEngine.set_leverage_synced true Fixtures.fresh_engine in
  let still := {| atr := 0; atr_pct := 0; realized_vol := 0;
                  structure_break := false; volatility_regime := "normal" |} in
  TradeEngine.process_signal Fixtures.accepting_exchange (Fixtures.decision "long")
      30000 still st
  = (Eff.Ok (TradeEngine.report false false "Tamanho de posicao invalido"), st).
Proof.
  intros st still.
  assert (Hpos : Portfolio.get_position (TradeEngine._portfolio st) (TradeEngine._symbol st)
                 = None) by reflexivity.
  assert (Hcan : Portfolio.can_open (TradeEngine._portfolio st) (TradeEngine._symbol st)
                 = true) by reflexivity.
  assert (Hflat : SignalEngine.direction (Fixtures.decision "long") <> "flat"%string)
    by discriminate.
  assert (Hsize : (RiskManager.quantity
                     (RiskManager.size_position (TradeEngine._risk st) 30000 still
                        (SignalEngine.direction (Fixtures.decision "long"))) <= 0)%Q
                  \/ (atr still == 0)%Q) by (right; reflexivity).
  destruct (process_signal_invalid_size Fixtures.accepting_exchange st
              (Fixtures.decision "long") 30000 still Hpos Hcan Hflat Hsize)
    as (_ & _ & _ & Hsame).
  apply Hsame. reflexivity.
Defined.

Lemma open_cycle_unfold
    (ex : Binance.Exchange) (st : TradeEngine.t) (decision : SignalEngine.SignalDecision)
    (price : Q) (volatility : VolatilitySnapshot) :
  Portfolio.get_position (TradeEngine._portfolio st) (TradeEngine._symbol st) = None ->
  String.eqb (SignalEngine.direction decision) "flat" = false ->
  Portfolio.can_open (TradeEngine._portfolio st) (TradeEngine._symbol st) = true ->
  let sizing := RiskManager.size_position (TradeEngine._risk st) price volatility
                  (SignalEngine.direction decision) in
  (0 < RiskManager.quantity sizing)%Q ->
  TradeEngine.process_signal ex decision price volatility st
  = match TradeEngine._ensure_leverage ex st with
    | (Eff.Ok _, st0) =>
        match TradeEngine._open_position ex (SignalEngine.direction decision) sizing st0 with
        | (Eff.Ok sizing', st1) =>
            (Eff.Ok (TradeEngine.report true false "Posicao aberta"),
             TradeEngine.set_portfolio
               (Portfolio.add_position (TradeEngine._portfolio st1)
                  {| Portfolio.symbol := TradeEngine._symbol st;
                     Portfolio.direction := SignalEngine.direction decision;
                     Portfolio.entry_price := price;
                     Portfolio.quantity := RiskManager.quantity sizing';
                     Portfolio.stop_loss := RiskManager.stop_loss sizing';
                     Portfolio.take_profit := RiskManager.take_profit sizing';
                     Portfolio.trailing_active := RiskManager.trailing_active sizing';
                     Portfolio.notional := RiskManager.notional sizing';
                     Portfolio.cost := RiskManager.cost sizing' |})
               st1)
        | (Eff.Raise e, st1) => (Eff.Raise e, st1)
        end
    | (Eff.Raise e, st0) => (Eff.Raise e, st0)
    end.
Proof.
  intros Hpos Hflat Hcan sizing Hq. subst sizing.
  unfold TradeEngine.process_signal. unfold Eff.bind at 1.
  destruct (TradeEngine._ensure_leverage ex st) as [[[] | e] st0] eqn:Hlev; [| done].
  apply ensure_leverage_frame in Hlev as (Hpf0 & Hsym0 & Hrisk0 & _ & _).
  eff_unfold. rewrite Hsym0, Hpf0, Hflat.
  unfold Portfolio.get_position in Hpos. unfold Portfolio.get_position at 1.
  rewrite Hpos. cbv beta. rewrite ?Hpf0, ?Hsym0, Hcan. cbn [negb]. cbv beta.
  rewrite ?Hrisk0. apply py_leb_gt in Hq. rewrite Hq.
  destruct (TradeEngine._open_position ex (SignalEngine.direction decision) _ st0)
    as [[sizing' | e] st1]; reflexivity.
Qed.

(** X27. With no position for the engine's symbol, room in the portfolio
    and a positive sizing quantity, a long or short cycle that returns opens
    the position: it sends exactly three orders, in this order the market
    entry (BUY for long, SELL for short), a stop-market order and a
    take-profit-market order on the opposite side, and then registers under
    the engine's symbol a position with the decided direction, the given
    price as entry, the quantity confirmed for the entry order and the stop
    and target confirmed for the protection orders. *)
Theorem process_signal_opens
    (ex : Binance.Exchange) (st : TradeEngine.t) (decision : SignalEngine.SignalDecision)
    (price : Q) (volatility : VolatilitySnapshot) :
  Portfolio.get_position (TradeEngine._portfolio st) (TradeEngine._symbol st) = None ->
  SignalEngine.direction decision <> "flat"%string ->
  Portfolio.can_open (TradeEngine._portfolio st) (TradeEngine._symbol st) = true ->
  let sizing := RiskManager.size_position (TradeEngine._risk st) price volatility
                  (SignalEngine.direction decision) in
  (0 < RiskManager.quantity sizing)%Q ->
  Eff.returns_normally (TradeEngine.process_signal ex decision price volatility) st ->
  exists st' pos e s t,
    TradeEngine.process_signal ex decision price volatility st
      = (Eff.Ok (TradeEngine.report true false "Posicao aberta"), st')
    /\ EngineTrace.orders_sent st' = EngineTrace.orders_sent st ++ [e; s; t]
    /\ Binance.p_type e = "MARKET"%string
    /\ Binance.p_side e = EngineTrace.entry_side (SignalEngine.direction decision)
    /\ Binance.p_quantity e = Some (Portfolio.quantity pos)
    /\ Binance.p_type s = "STOP_MARKET"%string
    /\ Binance.p_type t = "TAKE_PROFIT_MARKET"%string
    /\ Binance.p_side s = EngineTrace.exit_side (SignalEngine.direction decision)
    /\ Binance.p_side t = EngineTrace.exit_side (SignalEngine.direction decision)
    /\ (exists v, Binance.p_stopPrice s = Some v
                  /\ Portfolio.stop_loss pos
                     = TradeEngine.num_or (Some v) (RiskManager.stop_loss sizing))
    /\ (exists v, Binance.p_stopPrice t = Some v
                  /\ Portfolio.take_profit pos
                     = TradeEngine.num_or (Some v) (RiskManager.take_profit sizing))
    /\ TradeEngine._portfolio st' = Portfolio.add_position (TradeEngine._portfolio st) pos
    /\ Portfolio.get_position (TradeEngine._portfolio st') (TradeEngine._symbol st) = Some pos
    /\ Portfolio.symbol pos = TradeEngine._symbol st
    /\ Portfolio.direction pos = SignalEngine.direction decision
    /\ Portfolio.entry_price pos = price
    /\ Portfolio.notional pos = RiskManager.notional sizing
    /\ Portfolio.cost pos = RiskManager.cost sizing
    /\ Portfolio.count (TradeEngine._portfolio st')
       = (Portfolio.count (TradeEngine._portfolio st) + 1)%Z.
Proof.
  intros Hpos Hflat Hcan sizing Hq (rep & stf & Hrun).
  apply string_eqb_neq in Hflat.
  rewrite (open_cycle_unfold ex st decision price volatility Hpos Hflat Hcan Hq) in Hrun |- *.
  fold sizing in Hrun |- *.
  destruct (TradeEngine._ensure_leverage ex st) as [[[] | e0] st0] eqn:Hlev; [| discriminate].
  apply ensure_leverage_frame in Hlev as (Hpf0 & Hsym0 & _ & _ & Hsent0).
  destruct (TradeEngine._open_position ex (SignalEngine.direction decision) sizing st0)
    as [[sizing' | e1] st1] eqn:Hopen; [| discriminate].
  assert (Htruthy : Py.truthy (RiskManager.quantity sizing) = true).
  { unfold Py.truthy. apply negb_true_iff, py_eqb_neq. lra. }
  apply (open_position_ok ex _ _ _ _ _ Htruthy) in Hopen
    as ((Hpf1 & _) & e & s & t & Hsent1 & He_type & He_side & _ & He_q & Hs_type & Ht_type
        & Hs_side & Ht_side & Hn & Hc & _ & Hstop & Htp).
  eexists _, (Portfolio.Build_Position (TradeEngine._symbol st)
                (SignalEngine.direction decision) price (RiskManager.quantity sizing')
                (RiskManager.stop_loss sizing') (RiskManager.take_profit sizing')
                (RiskManager.trailing_active sizing') (RiskManager.notional sizing')
                (RiskManager.cost sizing')), e, s, t.
  split; [reflexivity |].
  unfold EngineTrace.orders_sent in *.
  cbn [TradeEngine._portfolio TradeEngine._client TradeEngine.set_portfolio
         Portfolio.quantity Portfolio.stop_loss Portfolio.take_profit Portfolio.symbol
         Portfolio.direction Portfolio.entry_price Portfolio.notional Portfolio.cost].
  rewrite Hsent1, Hsent0, Hpf1, Hpf0.
  repeat match goal with |- _ /\ _ => split end; try done.
  - unfold Portfolio.get_position, Portfolio.add_position. cbn. apply lookup_insert_eq.
  - unfold Portfolio.count, Portfolio.add_position. cbn.
    unfold Portfolio.get_position in Hpos. rewrite map_size_insert_None by done. lia.
Qed.

Lemma process_signal_opens_witness :
  let st := Fixtures.fresh_engine in
  let run := TradeEngine.process_signal Fixtures.accepting_exchange (Fixtures.decision "long")
               30000 Fixtures.calm st in
  fst run = Eff.Ok (TradeEngine.report true false "Posicao aberta")
  /\ length (EngineTrace.orders_sent (snd run)) = 3
  /\ Portfolio.count (TradeEngine._portfolio (snd run)) = 1%Z.
Proof.
  intros st run.
  assert (Hpos : Portfolio.get_position (TradeEngine._portfolio st) (TradeEngine._symbol st)
                 = None) by reflexivity.
  assert (Hflat : SignalEngine.direction (Fixtures.decision "long") <> "flat"%string)
    by discriminate.
  assert (Hcan : Portfolio.can_open (TradeEngine._portfolio st) (TradeEngine._symbol st)
                 = true) by reflexivity.
  assert (Hq : (0 < RiskManager.quantity
                      (RiskManager.size_position (TradeEngine._risk st) 30000 Fixtures.calm
                         (SignalEngine.direction (Fixtures.decision "long"))))%Q)
    by (vm_compute; reflexivity).
  assert (Hret : Eff.returns_normally
                   (TradeEngine.process_signal Fixtures.accepting_exchange
                      (Fixtures.decision "long") 30000 Fixtures.calm) st).
  { exists (TradeEngine.report true false "Posicao aberta"), (snd run).
    vm_compute. reflexivity. }
  destruct (process_signal_opens Fixtures.accepting_exchange st (Fixtures.decision "long")
              30000 Fixtures.calm Hpos Hflat Hcan Hq Hret)
    as (st' & pos & e & s & t & Hrun & Hsent & Hrest).
  subst run. rewrite Hrun. cbn [fst snd]. split; [reflexivity |].
  split; [rewrite Hsent; reflexivity |].
  destruct Hrest as (_ & _ & _ & _ & _ & _ & _ & _ & _ & _ & _ & _ & _ & _ & _ & _ & Hcount).
  rewrite Hcount. reflexivity.
Defined.

(** The leverage flag and the leverage calls after the leverage check are
    those at the end of the cycle. *)
Lemma process_signal_after_leverage
    (ex : Binance.Exchange) (st : TradeEngine.t) (decision : SignalEngine.SignalDecision)
    (price : Q) (volatility : VolatilitySnapshot) :
  let run := TradeEngine.process_signal ex decision price volatility st in
  let lev := TradeEngine._ensure_leverage ex st in
  TradeEngine._leverage_synced (snd run) = TradeEngine._leverage_synced (snd lev)
  /\ BinanceTrace.leverage_calls (TradeEngine._client (snd run))
     = BinanceTrace.leverage_calls (TradeEngine._client (snd lev))
  /\ (forall e, fst lev = Eff.Raise e -> fst run = Eff.Raise e).
Proof.
  intros run lev.
  assert (Hrun : run = TradeEngine.process_signal ex decision price volatility st)
    by reflexivity.
  unfold TradeEngine.process_signal in Hrun. unfold Eff.bind at 1 in Hrun.
  subst lev. clearbody run.
  destruct (TradeEngine._ensure_leverage ex st) as [[[] | e] st0]; subst run; cbn [fst snd];
    [| split; [done |]; split; [done |]; by intros e' [= <-]].
  split; [| split; [| discriminate]]; eff_unfold;
    repeat match goal with
           | |- context [TradeEngine._close_position ?a ?b ?c] =>
               let H := fresh "H" in
               destruct (TradeEngine._close_position a b c) as [[[] | ?] ?] eqn:H;
               apply close_position_any in H as (_ & _ & _ & ? & ?)
           | |- context [TradeEngine._open_position ?a ?b ?c ?d] =>
               let H := fresh "H" in
               destruct (TradeEngine._open_position a b c d) as [[? | ?] ?] eqn:H;
               apply open_position_any in H as (_ & _ & _ & ? & ?)
           | |- context [match ?x with Some _ => _ | None => _ end] => destruct x
           | |- context [if ?b then _ else _] => destruct b
           end; cbn; done.
Qed.

(** X28. The leverage is synchronised once per engine: a cycle of
    [process_signal] that returns always leaves [_leverage_synced] set; a
    cycle that starts with the flag set makes no leverage call, whatever
    else it does; a cycle that starts without it makes exactly one, for the
    engine's symbol and the risk manager's leverage. *)
Theorem leverage_synced_once
    (ex : Binance.Exchange) (st : TradeEngine.t) (decision : SignalEngine.SignalDecision)
    (price : Q) (volatility : VolatilitySnapshot) :
  let run := TradeEngine.process_signal ex decision price volatility st in
  let before := BinanceTrace.leverage_calls (TradeEngine._client st) in
  let after := BinanceTrace.leverage_calls (TradeEngine._client (snd run)) in
  (forall rep, fst run = Eff.Ok rep -> TradeEngine._leverage_synced (snd run) = true)
  /\ (TradeEngine._leverage_synced st = true ->
      after = before /\ TradeEngine._leverage_synced (snd run) = true)
  /\ (TradeEngine._leverage_synced st = false ->
      after = before ++ [(Py.upper (TradeEngine._symbol st),
                          RiskManager._leverage (TradeEngine._risk st))]).
Proof.
  intros run before after.
  destruct (process_signal_after_leverage ex st decision price volatility)
    as (Hflag & Hcalls & Hraise).
  fold run in Hflag, Hcalls, Hraise. subst before after.
  rewrite Hflag, Hcalls. rewrite ensure_leverage_cases in *. clear Hflag Hcalls.
  destruct (TradeEngine._leverage_synced st) eqn:Hs; cbn [fst snd] in *.
  { split; [done |]. split; [done | discriminate]. }
  destruct (Binance.futures_change_leverage _ _ _ _); cbn [fst snd] in *;
    cbn [TradeEngine._client TradeEngine.set_client TradeEngine.set_leverage_synced
           TradeEngine._leverage_synced];
    rewrite leverage_calls_log.
  - split; [done |]. split; [discriminate | done].
  - split; [| split; [discriminate | done]].
    intros rep Hrep. rewrite (Hraise _ eq_refl) in Hrep. discriminate.
Qed.
